(** * SpeakingTestApp: the Test Record Reconciliation Engine

    A shallow embedding of the record-reconciliation logic of
    [find_duplicates.py], [process_and_compile.py] and the duplicate
    handling inlined in [speaking_test.py], with the properties the
    specification states about it.

    The file has five parts: the embedding of the code, module by source
    file; the vocabulary the properties are stated with; the lemmas; the
    claims of the specification, [C1] to [C10]; further properties of the
    code, [X1] onwards.

    Conventions of the embedding.
    - Python [str] is [string]; the characters classified as digits or
      white space are the ASCII ones (code points below 128), every other
      byte is an ordinary character.
    - Python [int] is [Z]; [float] is IEEE binary64, represented exactly as
      a dyadic rational (module [PyNum]).  [int(s)] is the interpreter's
      with its default settings: it passes over the white space of C
      around the numeral and refuses a numeral of more than 4300 digits.
      [str(n)] is the decimal numeral of [n] whatever its length: the
      same limit on printing is not modelled, a number the code computes
      and prints is taken to be within it.
    - A raised exception is [None]; a [try ... except] is a [match] on it.
    - A directory is the list of its entries in the order [os.listdir]
      yields them. *)

From Stdlib Require Import ZArith String Ascii List Bool Lia Arith.
From Stdlib Require Import Permutation DecimalString Decimal DecimalNat FinFun.
From Stdlib Require Import Floats Uint63.
From Stdlib Require DecimalPos.
Import ListNotations.

Open Scope string_scope.
Open Scope Z_scope.

(** * Python string primitives *)

Module PyStr.

Definition code (c : ascii) : nat := nat_of_ascii c.

(** [c.isdigit()] / the regex class [\d], ASCII fragment. *)
Definition is_digit (c : ascii) : bool :=
  ((48 <=? code c) && (code c <=? 57))%nat.

(** [c.isspace()] / the regex class [\s], ASCII fragment:
    TAB LF VT FF CR, FS GS RS US and the blank. *)
Definition is_space (c : ascii) : bool :=
  (((9 <=? code c) && (code c <=? 13))
   || ((28 <=? code c) && (code c <=? 31))
   || (code c =? 32))%nat.

Definition digit_val (c : ascii) : Z := Z.of_nat (code c) - 48.

Fixpoint forallb_str (p : ascii -> bool) (s : string) : bool :=
  match s with
  | EmptyString => true
  | String c s' => p c && forallb_str p s'
  end.

(** [s.isdigit()]: at least one character and all of them digits. *)
Definition isdigit (s : string) : bool :=
  match s with
  | EmptyString => false
  | _ => forallb_str is_digit s
  end.

Definition len (s : string) : nat := String.length s.

(** [s.startswith(p)] *)
Definition startswith (p s : string) : bool := String.prefix p s.

(** [s[i:]] *)
Fixpoint drop (n : nat) (s : string) : string :=
  match n, s with
  | O, _ => s
  | S _, EmptyString => EmptyString
  | S n', String _ s' => drop n' s'
  end.

(** [s[:n]] *)
Fixpoint take (n : nat) (s : string) : string :=
  match n, s with
  | O, _ => EmptyString
  | S _, EmptyString => EmptyString
  | S n', String c s' => String c (take n' s')
  end.

(** [s[i:j]] for [0 <= i <= j]. *)
Definition slice (i j : nat) (s : string) : string :=
  take (j - i) (drop i s).

(** [s[-n:]] *)
Definition last_n (n : nat) (s : string) : string :=
  drop (len s - n) s.

(** [s.endswith(p)] *)
Definition endswith (p s : string) : bool :=
  ((len p <=? len s)%nat && (last_n (len p) s =? p)%string).

(** [needle in hay] *)
Fixpoint contains (needle hay : string) : bool :=
  String.prefix needle hay ||
  match hay with
  | EmptyString => false
  | String _ hay' => contains needle hay'
  end.

(** [s.replace(old, new)] for a non-empty [old]: leftmost
    non-overlapping occurrences.  [skip] counts the characters of an
    occurrence just replaced that are still to be passed over. *)
Fixpoint replace_from (skip : nat) (old new s : string) : string :=
  match s with
  | EmptyString => EmptyString
  | String c s' =>
      match skip with
      | S k => replace_from k old new s'
      | O =>
          if String.prefix old s
          then new ++ replace_from (len old - 1) old new s'
          else String c (replace_from O old new s')
      end
  end.

Definition replace (old new s : string) : string :=
  replace_from O old new s.

(** [s.split(sep)] for a one-character separator. *)
Fixpoint split (sep : ascii) (s : string) : list string :=
  match s with
  | EmptyString => [EmptyString]
  | String c s' =>
      if Ascii.eqb c sep then EmptyString :: split sep s'
      else match split sep s' with
           | [] => [String c EmptyString]
           | p :: ps => String c p :: ps
           end
  end.

(** [s.split(sep, 1)]: at most one cut, at the first separator. *)
Fixpoint split1 (sep : ascii) (s : string) : list string :=
  match s with
  | EmptyString => [EmptyString]
  | String c s' =>
      if Ascii.eqb c sep then [EmptyString; s']
      else match split1 sep s' with
           | [] => [String c EmptyString]
           | p :: ps => String c p :: ps
           end
  end.

(** [s.lstrip()] *)
Fixpoint lstrip (s : string) : string :=
  match s with
  | EmptyString => EmptyString
  | String c s' => if is_space c then lstrip s' else s
  end.

(** [s.rstrip()] *)
Fixpoint rstrip (s : string) : string :=
  match s with
  | EmptyString => EmptyString
  | String c s' =>
      match rstrip s' with
      | EmptyString => if is_space c then EmptyString
                       else String c EmptyString
      | r => String c r
      end
  end.

(** [s.strip()] *)
Definition strip (s : string) : string := rstrip (lstrip s).

(** [c * n] *)
Fixpoint repeat_char (c : ascii) (n : nat) : string :=
  match n with
  | O => EmptyString
  | S n' => String c (repeat_char c n')
  end.

(** [s.zfill(w)] for a string without a sign. *)
Definition zfill (w : nat) (s : string) : string :=
  repeat_char "0" (w - len s) ++ s.

(** [s.ljust(w)] *)
Definition ljust (w : nat) (s : string) : string :=
  s ++ repeat_char " " (w - len s).

(** [s.rjust(w)] *)
Definition rjust (w : nat) (s : string) : string :=
  repeat_char " " (w - len s) ++ s.

(** [sep.join(parts)] *)
Definition join (sep : string) (parts : list string) : string :=
  String.concat sep parts.

(** [str(n)] for an [int]: its decimal numeral (taken to be within the
    limit of the conversion, see the conventions). *)
Definition str_of_Z (n : Z) : string :=
  NilEmpty.string_of_int (Z.to_int n).

(** [str(n)] for a non-negative counter. *)
Definition str_of_nat (n : nat) : string :=
  NilEmpty.string_of_uint (Nat.to_uint n).

(** [os.path.splitext(name)]: cut at the last dot, unless that dot
    leads the name (only leading dots before it). *)
Fixpoint splitext_aux (s : string) : option (string * string) :=
  match s with
  | EmptyString => None
  | String c s' =>
      match splitext_aux s' with
      | Some (b, e) => Some (String c b, e)
      | None =>
          if Ascii.eqb c "." then Some (EmptyString, s) else None
      end
  end.

Fixpoint all_dots (s : string) : bool :=
  match s with
  | EmptyString => true
  | String c s' => Ascii.eqb c "." && all_dots s'
  end.

Definition splitext (s : string) : string * string :=
  match splitext_aux s with
  | Some (b, e) => if all_dots b then (s, EmptyString) else (b, e)
  | None => (s, EmptyString)
  end.

End PyStr.

(** * Python numbers: [int(str)] and the float arithmetic of the score *)

Module PyNum.
Import PyStr.

(** The digits of an integer literal: decimal digits, single
    underscores allowed between two digits. [prev] tells whether the
    previous character was a digit. *)
Fixpoint int_digits (prev : bool) (acc : Z) (s : string) : option Z :=
  match s with
  | EmptyString => if prev then Some acc else None
  | String c s' =>
      if is_digit c then int_digits true (10 * acc + digit_val c) s'
      else if Ascii.eqb c "_" && prev then int_digits false acc s'
      else None
  end.

(** The white space [int] passes over around the numeral of an ASCII
    [str]: TAB LF VT FF CR and the blank.  FS GS RS US, which
    [str.strip] takes off, are not among them. *)
Definition is_int_space (c : ascii) : bool :=
  (((9 <=? code c) && (code c <=? 13)) || (code c =? 32))%nat.

Fixpoint int_lstrip (s : string) : string :=
  match s with
  | EmptyString => EmptyString
  | String c s' => if is_int_space c then int_lstrip s' else s
  end.

Fixpoint int_rstrip (s : string) : string :=
  match s with
  | EmptyString => EmptyString
  | String c s' =>
      match int_rstrip s' with
      | EmptyString => if is_int_space c then EmptyString
                       else String c EmptyString
      | r => String c r
      end
  end.

Definition int_strip (s : string) : string := int_rstrip (int_lstrip s).

(** [sys.int_info.default_max_str_digits]: the longest numeral [int]
    converts, in digits, as the interpreter is configured by default. *)
Definition int_max_str_digits : Z := 4300.

(** The digits of a numeral; its underscores do not count. *)
Fixpoint count_digits (s : string) : Z :=
  match s with
  | EmptyString => 0
  | String c s' => (if is_digit c then 1 else 0) + count_digits s'
  end.

(** The numeral is within the limit of the conversion. *)
Definition int_fits (s : string) : bool :=
  count_digits s <=? int_max_str_digits.

(** The numeral after the sign: [None] is [ValueError], for a text
    that is no numeral and for a numeral beyond the limit. *)
Definition int_literal (r : string) : option Z :=
  if int_fits r then int_digits false 0 r else None.

(** [int(s)]: surrounding white space passed over, an optional sign,
    then the digits.  [None] is [ValueError]. *)
Definition py_int (s : string) : option Z :=
  match int_strip s with
  | String "+" r => int_literal r
  | String "-" r => option_map Z.opp (int_literal r)
  | t => int_literal t
  end.

(** ** IEEE binary64, as exact dyadic rationals

    A finite float is [(-1)^fneg * fmant * 2^fexp].  Rounding is to
    nearest, ties to even, with 53 significant bits, gradual underflow
    (least exponent [-1074]) and overflow above the largest finite
    value [(2^53 - 1) * 2^971]. *)

Record pyfloat : Type := mkfloat { fneg : bool; fmant : Z; fexp : Z }.

(** The integer nearest to [n/d], ties to the even one
    ([0 <= n], [0 < d]). *)
Definition rne_div (n d : Z) : Z :=
  let q := n / d in
  let r := n mod d in
  if 2 * r <? d then q
  else if d <? 2 * r then q + 1
  else if Z.even q then q else q + 1.

(** [floor (log2 (n/d))] for [0 < n], [0 < d]. *)
Definition ilog2_ratio (n d : Z) : Z :=
  let k := Z.log2 n - Z.log2 d in
  if (if k <? 0 then d <=? n * 2 ^ (- k) else d * 2 ^ k <=? n)
  then k else k - 1.

(** The float nearest to the rational [n/d] ([0 <= n], [0 < d]);
    [None] when it is beyond the finite range. *)
Definition round_ratio (neg : bool) (n d : Z) : option pyfloat :=
  if n =? 0 then Some (mkfloat neg 0 0)
  else
    let e := Z.max (ilog2_ratio n d - 52) (-1074) in
    let m := if e <? 0 then rne_div (n * 2 ^ (- e)) d
             else rne_div n (d * 2 ^ e) in
    if (971 <? e) || ((e =? 971) && (m =? 2 ^ 53)) then None
    else Some (mkfloat neg m e).

(** [a / b] on two [int]s: the correctly rounded quotient.  [None] is
    [ZeroDivisionError] or [OverflowError]. *)
Definition true_div (a b : Z) : option pyfloat :=
  if b =? 0 then None
  else round_ratio (Z.sgn a * Z.sgn b =? -1) (Z.abs a) (Z.abs b).

(** [x * y] on floats; [None] stands for an infinite product, which
    the enclosing [round] turns into [OverflowError]. *)
Definition fmul (x y : pyfloat) : option pyfloat :=
  let e := fexp x + fexp y in
  round_ratio (xorb (fneg x) (fneg y))
              (fmant x * fmant y * 2 ^ (Z.max 0 e))
              (2 ^ (Z.max 0 (- e))).

(** [float(n)] for an [int] that a float holds exactly. *)
Definition float_of_small (n : Z) : pyfloat :=
  mkfloat (n <? 0) (Z.abs n) 0.

(** [round(x)]: the nearest [int], ties to even. *)
Definition py_round (x : pyfloat) : Z :=
  let a := if fexp x <? 0 then rne_div (fmant x) (2 ^ (- fexp x))
           else fmant x * 2 ^ fexp x in
  if fneg x then - a else a.

(** [round((a / b) * 100)] *)
Definition percent_of (a b : Z) : option Z :=
  match true_div a b with
  | None => None
  | Some q =>
      match fmul q (float_of_small 100) with
      | None => None
      | Some p => Some (py_round p)
      end
  end.

End PyNum.

(** * [datetime] *)

Module PyDate.

Record datetime : Type := mkdt {
  year : Z; month : Z; day : Z; hour : Z; minute : Z
}.

Definition is_leap (y : Z) : bool :=
  ((y mod 4 =? 0) && negb (y mod 100 =? 0)) || (y mod 400 =? 0).

Definition days_in_month (y m : Z) : Z :=
  if m =? 2 then (if is_leap y then 29 else 28)
  else if (m =? 4) || (m =? 6) || (m =? 9) || (m =? 11) then 30
  else 31.

(** The range checks of the [datetime] constructor. *)
Definition valid_date (y m d h mi : Z) : bool :=
  (1 <=? y) && (y <=? 9999) && (1 <=? m) && (m <=? 12) &&
  (1 <=? d) && (d <=? days_in_month y m) &&
  (0 <=? h) && (h <=? 23) && (0 <=? mi) && (mi <=? 59).

(** [datetime(y, m, d, h, mi)]; [None] is [ValueError]. *)
Definition make_datetime (y m d h mi : Z) : option datetime :=
  if valid_date y m d h mi then Some (mkdt y m d h mi) else None.

(** [datetime(1900, 1, 1)] *)
Definition sentinel : datetime := mkdt 1900 1 1 0 0.

Definition lex2 (c1 c2 : comparison) : comparison :=
  match c1 with Eq => c2 | _ => c1 end.

(** Comparison of two instants, field by field. *)
Definition dt_compare (a b : datetime) : comparison :=
  lex2 (year a ?= year b)
    (lex2 (month a ?= month b)
       (lex2 (day a ?= day b)
          (lex2 (hour a ?= hour b) (minute a ?= minute b)))).

Definition dt_ltb (a b : datetime) : bool :=
  match dt_compare a b with Lt => true | _ => false end.

Definition dt_lt (a b : datetime) : Prop := dt_compare a b = Lt.

End PyDate.

(** * The record store: directories of text files *)

Module FS.
Import PyStr.

(** An entry of a directory: a sub-directory, or a file with its body
    ([None]: the file cannot be opened or decoded). *)
Inductive node : Type :=
| Dir : node
| File : option string -> node.

(** A directory, in the order [os.listdir] enumerates it. *)
Definition directory : Type := list (string * node).

Definition names (d : directory) : list string := map fst d.

Fixpoint lookup (name : string) (d : directory) : option node :=
  match d with
  | [] => None
  | (n, x) :: d' => if (n =? name)%string then Some x else lookup name d'
  end.

(** [os.path.exists(os.path.join(d, name))] *)
Definition exists_in (name : string) (d : directory) : bool :=
  match lookup name d with Some _ => true | None => false end.

(** [os.path.isfile] *)
Definition is_file (x : node) : bool :=
  match x with File _ => true | Dir => false end.

(** [open(path).read()]; [None] when it raises. *)
Definition read (x : node) : option string :=
  match x with File b => b | Dir => None end.

Definition remove (name : string) (d : directory) : directory :=
  filter (fun e => negb (fst e =? name)%string) d.

(** [open(path, 'w').write(body)]: an existing entry keeps its place,
    a new one is added. *)
Fixpoint write (name body : string) (d : directory) : directory :=
  match d with
  | [] => [(name, File (Some body))]
  | (n, x) :: d' =>
      if (n =? name)%string then (n, File (Some body)) :: d'
      else (n, x) :: write name body d'
  end.

(** The two directories one pass of the Resolver touches: the class
    folder and [Records/Duplicates]. *)
Record store : Type := mkstore {
  class_dir : directory;
  dup_dir : directory
}.

End FS.

(** * [find_duplicates.py] *)

Module FindDuplicates.
Import PyStr PyNum PyDate FS.

(** [parse_filename]: [(class_number, student_id, timestamp, filename)]
    or [None]. *)
Definition parse_filename (filename : string)
  : option (string * string * string * string) :=
  if negb (startswith "SpeakingTest_" filename)
     || negb (endswith ".txt" filename)
  then None
  else
    let name := replace ".txt" "" filename in
    match split "_" name with
    | p0 :: class_number :: student_id :: timestamp :: _ =>
        if (p0 =? "SpeakingTest")%string
        then Some (class_number, student_id, timestamp, filename)
        else None
    | _ => None
    end.

(** [normalize_student_id].  On an all-digit string [int] fails only
    beyond [int_max_str_digits] digits (lemmas [py_int_isdigit] and
    [py_int_long]); the code has no handler for that and the exception
    leaves the scan.  A file name, of 255 bytes at most, holds no such
    identifier: the [None] branch only keeps the function total, and the
    properties of the function itself are stated within the limit. *)
Definition normalize_student_id (student_id : string) : string :=
  if isdigit student_id
  then match py_int student_id with
       | Some n => str_of_Z n
       | None => student_id
       end
  else student_id.

(** The body of the [try] block of [get_timestamp_for_sorting]:
    [None] when it raises or falls through without returning. *)
Definition try_timestamp (timestamp_str : string) : option datetime :=
  match split "." timestamp_str with
  | [y; m; d; time] =>
      let y := if (len y =? 2)%nat then "20" ++ y else y in
      let hm := if (4 <=? len time)%nat
                then (slice 0 2 time, slice 2 4 time)
                else ("00", "00") in
      match py_int y, py_int m, py_int d,
            py_int (fst hm), py_int (snd hm) with
      | Some y', Some m', Some d', Some h', Some mi' =>
          make_datetime y' m' d' h' mi'
      | _, _, _, _, _ => None
      end
  | _ => None
  end.

(** [get_timestamp_for_sorting] *)
Definition get_timestamp_for_sorting (timestamp_str : string) : datetime :=
  match try_timestamp timestamp_str with
  | Some dt => dt
  | None => sentinel
  end.

(** The dictionary built for every scanned file.  [filepath] is
    [os.path.join(class_folder, filename)]: within one class folder the
    file name stands for it. *)
Record file_info : Type := mkinfo {
  fi_filename : string;
  fi_class : string;
  fi_student_id : string;
  fi_timestamp : string;
  fi_datetime : datetime
}.

Definition key : Type := (string * string)%type.

Definition key_eqb (a b : key) : bool :=
  ((fst a =? fst b)%string && (snd a =? snd b)%string).

(** [student_files[key].append(v)] on a [defaultdict(list)]; the
    dictionary keeps its keys in insertion order. *)
Fixpoint dict_append (k : key) (v : file_info)
         (d : list (key * list file_info)) : list (key * list file_info) :=
  match d with
  | [] => [(k, [v])]
  | (k', vs) :: d' =>
      if key_eqb k k' then (k', (vs ++ [v])%list) :: d'
      else (k', vs) :: dict_append k v d'
  end.

(** One turn of the scanning loop. *)
Definition scan_entry (student_files : list (key * list file_info))
           (e : string * node) : list (key * list file_info) :=
  let (filename, x) := e in
  if negb (is_file x) then student_files
  else if contains "_PROCESSED.txt" filename then student_files
  else
    match parse_filename filename with
    | None => student_files
    | Some (class_number, student_id, timestamp, _) =>
        let normalized_id := normalize_student_id student_id in
        dict_append (class_number, normalized_id)
          (mkinfo filename class_number student_id timestamp
                  (get_timestamp_for_sorting timestamp))
          student_files
    end.

Definition scan (d : directory) : list (key * list file_info) :=
  fold_left scan_entry d [].

(** [files.sort(key=lambda x: x['datetime'])]: ascending and stable,
    an element goes in front of the first element that is not older. *)
Fixpoint insert_by_datetime (x : file_info) (l : list file_info)
  : list file_info :=
  match l with
  | [] => [x]
  | y :: l' =>
      if dt_ltb (fi_datetime y) (fi_datetime x)
      then y :: insert_by_datetime x l'
      else x :: l
  end.

Fixpoint sort_by_datetime (l : list file_info) : list file_info :=
  match l with
  | [] => []
  | x :: l' => insert_by_datetime x (sort_by_datetime l')
  end.

(** An element of the returned list.  The source tuple is
    [(filepath, filename, class, student_id, timestamp, is_duplicate)]. *)
Definition dup_row : Type := (file_info * bool)%type.

(** [enumerate(files)] with [is_duplicate = (i < len(files) - 1)]. *)
Fixpoint mark (files : list file_info) : list dup_row :=
  match files with
  | [] => []
  | [x] => [(x, false)]
  | x :: rest => (x, true) :: mark rest
  end.

Definition bucket_rows (b : key * list file_info) : list dup_row :=
  if (1 <? length (snd b))%nat
  then mark (sort_by_datetime (snd b))
  else [].

(** [find_duplicates_in_folder] *)
Definition find_duplicates_in_folder (class_folder : directory)
  : list dup_row :=
  flat_map bucket_rows (scan class_folder).

(** The [while os.path.exists(dest_path)] loop, with the number of
    turns it may still take. *)
Fixpoint free_dest (fuel counter : nat) (base ext : string)
         (dups : directory) : option string :=
  match fuel with
  | O => None
  | S fuel' =>
      let dest := base ++ "_dup" ++ str_of_nat counter ++ ext in
      if exists_in dest dups
      then free_dest fuel' (S counter) base ext dups
      else Some dest
  end.

(** The destination chosen for [filename].  One turn more than the
    folder has entries always finds a free name (lemma
    [free_dest_total]); the fall-back is never reached. *)
Definition dest_path (filename : string) (dups : directory) : string :=
  if exists_in filename dups
  then
    let (base, ext) := splitext filename in
    match free_dest (S (length dups)) 1 base ext dups with
    | Some dest => dest
    | None => filename
    end
  else filename.

(** [shutil.move(filepath, dest_path)]; [None] when it raises: the
    source is gone, or the file is held ([can_move] false). *)
Definition move (can_move : string -> bool) (filename dest : string)
           (st : store) : option store :=
  match lookup filename (class_dir st) with
  | Some x =>
      if can_move filename
      then Some (mkstore (remove filename (class_dir st))
                         ((dup_dir st ++ [(dest, x)])%list))
      else None
  | None => None
  end.

(** [move_duplicates]: the store after the loop and [moved_count]. *)
Fixpoint move_duplicates (can_move : string -> bool)
         (duplicates : list dup_row) (st : store) : store * nat :=
  match duplicates with
  | [] => (st, O)
  | (fi, is_duplicate) :: rest =>
      if is_duplicate then
        let dest := dest_path (fi_filename fi) (dup_dir st) in
        match move can_move (fi_filename fi) dest st with
        | Some st' =>
            let (st'', n) := move_duplicates can_move rest st' in
            (st'', S n)
        | None => move_duplicates can_move rest st
        end
      else move_duplicates can_move rest st
  end.

(** [sum(1 for ... is_dup in duplicates if is_dup)] *)
Definition dup_count (duplicates : list dup_row) : nat :=
  length (filter snd duplicates).

(** One class folder in [main]: what was found, the store afterwards
    and the number of files moved. *)
Definition resolve_class (can_move : string -> bool) (st : store)
  : list dup_row * store * nat :=
  let duplicates := find_duplicates_in_folder (class_dir st) in
  match duplicates with
  | [] => (duplicates, st, O)
  | _ =>
      if (0 <? dup_count duplicates)%nat
      then let (st', moved) := move_duplicates can_move duplicates st in
           (duplicates, st', moved)
      else (duplicates, st, O)
  end.

End FindDuplicates.

(** * [speaking_test.py]: the duplicate handling of the application *)

Module SpeakingTest.
Import PyStr PyNum PyDate.

(** The timestamp parsing written out inside
    [find_and_move_duplicates]: the [try] block. *)
Definition try_timestamp (timestamp : string) : option datetime :=
  match split "." timestamp with
  | [y; m; d; time] =>
      let y := if (len y =? 2)%nat then "20" ++ y else y in
      let h := if (2 <=? len time)%nat then slice 0 2 time else "00" in
      let mi := if (4 <=? len time)%nat then slice 2 4 time else "00" in
      match py_int y, py_int m, py_int d, py_int h, py_int mi with
      | Some y', Some m', Some d', Some h', Some mi' =>
          make_datetime y' m' d' h' mi'
      | _, _, _, _, _ => None
      end
  | _ => None
  end.

(** The value bound to [dt]. *)
Definition inline_timestamp (timestamp : string) : datetime :=
  match try_timestamp timestamp with
  | Some dt => dt
  | None => sentinel
  end.

(** A number on [w] digits, zero-filled. *)
Definition pad (w : nat) (n : Z) : string := zfill w (str_of_Z n).

(** [now.strftime("%Y.%m.%d.%H%M")] of [create_output_file].  The
    month, the day, the hour and the minute are zero-filled.  [%Y] is
    left to the C library: some zero-fill the year to four digits, glibc
    prints it as it is; [zero_fills] says which.  From year 1000 on the
    two print the same. *)
Definition strftime_Y (zero_fills : bool) (dt : datetime) : string :=
  (if zero_fills then pad 4 (year dt) else str_of_Z (year dt))
  ++ "." ++ pad 2 (month dt) ++ "." ++ pad 2 (day dt)
  ++ "." ++ pad 2 (hour dt) ++ pad 2 (minute dt).

(** [add_to_class_summary]: [now.strftime("%y.%m.%d.%H%M")] *)
Definition strftime_y (dt : datetime) : string :=
  pad 2 (year dt mod 100) ++ "." ++ pad 2 (month dt) ++ "."
  ++ pad 2 (day dt) ++ "." ++ pad 2 (hour dt) ++ pad 2 (minute dt).

(** [create_output_file]: the name of the record of a sitting. *)
Definition output_filename (zero_fills : bool)
           (class_number student_id : string) (now : datetime) : string :=
  "SpeakingTest_" ++ class_number ++ "_" ++ student_id ++ "_"
  ++ strftime_Y zero_fills now ++ ".txt".

(** [f"{n:02d}"]: two characters at least, zeros after the sign. *)
Definition format_02d (n : Z) : string :=
  if n <? 0 then "-" ++ zfill 1 (str_of_Z (- n)) else zfill 2 (str_of_Z n).

(** [l[i] = v]; a negative index counts from the end, [None] is
    [IndexError]. *)
Definition set_item (i v : Z) (l : list Z) : option (list Z) :=
  let n := Z.of_nat (length l) in
  let j := if i <? 0 then i + n else i in
  if (0 <=? j) && (j <? n)
  then Some (firstn (Z.to_nat j) l ++ v :: skipn (S (Z.to_nat j)) l)%list
  else None.

(** [clicks = [0, 0, 0, 0, 0]; clicks[button - 1] = 1] *)
Definition clicks_of (button : Z) : option (list Z) :=
  set_item (button - 1) 1 [0; 0; 0; 0; 0].

(** The line [save_record] appends to the record; [points] is the
    point value it found for the button and [filename_no_ext] the name
    of the picture shown. *)
Definition record_line (image_num button points : Z)
           (filename_no_ext : string) : option string :=
  match clicks_of button with
  | None => None
  | Some clicks =>
      Some ("Question " ++ format_02d image_num ++ ": "
            ++ str_of_Z points ++ " = "
            ++ join " " (map str_of_Z clicks) ++ " "
            ++ filename_no_ext ++ String "010" "")
  end.

(** [str(int(s)) if s.isdigit() else s], as the roster functions
    write it; [None] is the [ValueError] of [int] on a numeral beyond
    its limit. *)
Definition normalized_id (s : string) : option string :=
  if isdigit s then option_map str_of_Z (py_int s) else Some s.

(** The loop of [lookup_student_in_roster] over the lines of the
    roster: the name found, if any.  An exception in the loop is caught
    by the handler around it, and the function returns [None] then as
    well. *)
Fixpoint lookup_lines (nid : string) (lines : list string)
  : option string :=
  match lines with
  | [] => None
  | line :: rest =>
      let line := strip line in
      if (line =? "")%string then lookup_lines nid rest
      else
        match split1 " " line with
        | roster_id :: tl =>
            match normalized_id roster_id with
            | None => None
            | Some normalized_roster_id =>
                if (nid =? normalized_roster_id)%string
                then Some (match tl with p1 :: _ => p1 | [] => "" end)
                else lookup_lines nid rest
            end
        | [] => lookup_lines nid rest
        end
  end.

(** [lookup_student_in_roster]; the roster is the text of the roster
    file, [None] when there is no such file.  The result is the name or
    Python's [None]; the outer [None] is the exception that leaves the
    function when the identifier asked for is beyond the limit of
    [int]. *)
Definition lookup_student_in_roster (roster : option string)
           (student_id : string) : option (option string) :=
  match roster with
  | None => Some None
  | Some body =>
      match normalized_id student_id with
      | None => None
      | Some nid => Some (lookup_lines nid (split "010" body))
      end
  end.

(** The key [get_sort_key] gives a line. *)
Inductive sort_key : Type :=
| Num : Z -> sort_key
| Inf : sort_key.       (* [float('inf')] *)

(** [get_sort_key]; [None] when [int] raises. *)
Definition get_sort_key (line : string) : option sort_key :=
  match split1 " " line with
  | p0 :: _ =>
      if isdigit p0 then option_map Num (py_int p0) else Some Inf
  | [] => Some Inf
  end.

Definition key_ltb (a b : sort_key) : bool :=
  match a, b with
  | Num x, Num y => x <? y
  | Num _, Inf => true
  | Inf, _ => false
  end.

(** The keys of the lines, computed once for each line before the
    sort; [None] when one of them raises. *)
Fixpoint keyed (l : list string) : option (list (sort_key * string)) :=
  match l with
  | [] => Some []
  | x :: l' =>
      match get_sort_key x, keyed l' with
      | Some k, Some r => Some ((k, x) :: r)
      | _, _ => None
      end
  end.

(** [updated_roster.sort(key=get_sort_key)]: ascending and stable, a
    line goes in front of the first line whose key is not smaller. *)
Fixpoint insert_by_key (x : sort_key * string)
         (l : list (sort_key * string)) : list (sort_key * string) :=
  match l with
  | [] => [x]
  | y :: l' =>
      if key_ltb (fst y) (fst x) then y :: insert_by_key x l'
      else x :: l
  end.

Fixpoint sort_keyed (l : list (sort_key * string))
  : list (sort_key * string) :=
  match l with
  | [] => []
  | x :: l' => insert_by_key x (sort_keyed l')
  end.

Definition sort_by_key (l : list string) : option (list string) :=
  option_map (fun kl => map snd (sort_keyed kl)) (keyed l).

(** The lines read from the roster file: stripped, the empty ones
    left out. *)
Definition roster_lines (body : string) : list string :=
  filter (fun l => negb (l =? "")%string) (map strip (split "010" body)).

(** The first loop of [update_roster]: the lines with the entry of
    the student replaced, and whether one was; [None] when [int] raises
    on an identifier of the roster. *)
Fixpoint update_lines (nid entry : string) (roster : list string)
  : option (list string * bool) :=
  match roster with
  | [] => Some ([], false)
  | line :: rest =>
      match split1 " " line with
      | roster_id :: _ =>
          match normalized_id roster_id, update_lines nid entry rest with
          | Some normalized_roster_id, Some (updated, found) =>
              if (nid =? normalized_roster_id)%string
              then Some (entry :: updated, true)
              else Some (line :: updated, found)
          | _, _ => None
          end
      | [] => update_lines nid entry rest
      end
  end.

(** [update_roster]: the text of the roster file afterwards; [None]
    when an exception leaves the function. *)
Definition update_roster (roster : option string)
           (student_id student_name : string) : option string :=
  let lines := match roster with
               | Some body => roster_lines body
               | None => []
               end in
  let formatted_id :=
    if isdigit student_id then zfill 2 student_id else student_id in
  let entry := formatted_id ++ " " ++ student_name in
  match normalized_id student_id with
  | None => None
  | Some nid =>
      match update_lines nid entry lines with
      | None => None
      | Some (updated, found) =>
          let updated :=
            if found then updated else (updated ++ [entry])%list in
          option_map
            (fun sorted =>
               String.concat "" (map (fun l => l ++ String "010" "") sorted))
            (sort_by_key updated)
      end
  end.

(** The key of the dictionary of [find_and_move_duplicates]:
    [str(int(student_id)) if student_id.isdigit() else student_id] on
    the identifier of a file name, as [normalize_student_id] of
    [find_duplicates.py] has it. *)
Definition normalized (s : string) : string :=
  if isdigit s
  then match py_int s with Some n => str_of_Z n | None => s end
  else s.

Import FS.

(** The dictionary [find_and_move_duplicates] builds for a scanned
    file: [filepath] (within one class folder the file name stands for
    it), [filename] and [datetime]. *)
Record scanned : Type := mkscanned {
  sc_filename : string;
  sc_datetime : datetime
}.

(** [student_files[key].append(v)], the keys in insertion order. *)
Fixpoint files_append (k : string * string) (v : scanned)
         (d : list (string * string * list scanned))
  : list (string * string * list scanned) :=
  match d with
  | [] => [(k, [v])]
  | (k', vs) :: d' =>
      if (fst k =? fst k')%string && (snd k =? snd k')%string
      then (k', (vs ++ [v])%list) :: d'
      else (k', vs) :: files_append k v d'
  end.

(** One turn of the loop over the files of a class folder. *)
Definition scan_file (student_files : list (string * string * list scanned))
           (e : string * node) : list (string * string * list scanned) :=
  let (filename, x) := e in
  if negb (is_file x) || contains "_PROCESSED.txt" filename
  then student_files
  else if startswith "SpeakingTest_" filename && endswith ".txt" filename
  then
    match split "_" (replace ".txt" "" filename) with
    | _ :: class_number :: student_id :: timestamp :: _ =>
        files_append (class_number, normalized student_id)
          (mkscanned filename (inline_timestamp timestamp)) student_files
    | _ => student_files
    end
  else student_files.

(** [files.sort(key=lambda x: x['datetime'])], ascending and stable. *)
Fixpoint insert_scanned (x : scanned) (l : list scanned) : list scanned :=
  match l with
  | [] => [x]
  | y :: l' =>
      if dt_ltb (sc_datetime y) (sc_datetime x)
      then y :: insert_scanned x l'
      else x :: l
  end.

Fixpoint sort_scanned (l : list scanned) : list scanned :=
  match l with
  | [] => []
  | x :: l' => insert_scanned x (sort_scanned l')
  end.

(** The loop [for file_info in files[:-1]] on the list it is given:
    the destination is chosen as in [find_duplicates.py], a move that
    raises is passed over. *)
Fixpoint move_older (can_move : string -> bool) (files : list scanned)
         (acc : store * nat) : store * nat :=
  match files with
  | [] => acc
  | f :: rest =>
      let (st, total_moved) := acc in
      let dest := FindDuplicates.dest_path (sc_filename f) (dup_dir st) in
      match FindDuplicates.move can_move (sc_filename f) dest st with
      | Some st' => move_older can_move rest (st', S total_moved)
      | None => move_older can_move rest (st, total_moved)
      end
  end.

(** One class folder in [find_and_move_duplicates]: the store and
    [total_moved] afterwards. *)
Definition class_pass (can_move : string -> bool) (acc : store * nat)
  : store * nat :=
  let student_files := fold_left scan_file (class_dir (fst acc)) [] in
  fold_left
    (fun acc (b : string * string * list scanned) =>
       if (1 <? length (snd b))%nat
       then move_older can_move (removelast (sort_scanned (snd b))) acc
       else acc)
    student_files acc.

(** [f.readlines()]: the lines with their line breaks. *)
Fixpoint readlines (s : string) : list string :=
  match s with
  | EmptyString => []
  | String c s' =>
      if Ascii.eqb c "010" then String c "" :: readlines s'
      else match readlines s' with
           | [] => [String c ""]
           | l :: ls => String c l :: ls
           end
  end.

(** [question_scores[q_num] = points]: an old key keeps its place. *)
Fixpoint scores_set (q p : Z) (d : list (Z * Z)) : list (Z * Z) :=
  match d with
  | [] => [(q, p)]
  | (q', p') :: d' =>
      if q' =? q then (q', p) :: d' else (q', p') :: scores_set q p d'
  end.

(** One line of the loop of [calculate_score]: the dictionary
    afterwards.  What [int] rejects is passed over. *)
Definition score_step (question_scores : list (Z * Z)) (line : string)
  : list (Z * Z) :=
  if startswith "Question" line then
    match split ":" line with
    | p0 :: p1 :: _ =>
        match py_int (strip (replace "Question" "" p0)) with
        | None => question_scores
        | Some q_num =>
            let rest := strip p1 in
            if contains "=" rest then
              match split "=" rest with
              | point_str :: _ =>
                  match py_int (strip point_str) with
                  | Some points => scores_set q_num points question_scores
                  | None => question_scores
                  end
              | [] => question_scores
              end
            else question_scores
        end
    | _ => question_scores
    end
  else question_scores.

(** The dictionary [calculate_score] builds from the lines. *)
Definition question_scores (lines : list string) : list (Z * Z) :=
  fold_left score_step lines [].

(** [calculate_score] of the application:
    [(total_score, max_score, percentage)].  [output_file] is the text
    of the record, [None] when it cannot be read; [point_values] the
    configured values, [None] when the attribute is missing; the outer
    [None] is [OverflowError]. *)
Definition calculate_score (point_values : option (list (Z * Z)))
           (output_file : option string) : option (Z * Z * Z) :=
  match output_file with
  | None => Some (0, 0, 0)
  | Some content =>
      let question_scores := question_scores (readlines content) in
      let num_questions := Z.of_nat (length question_scores) in
      if num_questions =? 0 then Some (0, 0, 0)
      else
        let max_point_value :=
          match point_values with
          | Some (v :: vs) => fold_left Z.max (map snd vs) (snd v)
          | _ => 5
          end in
        let total_score := fold_left Z.add (map snd question_scores) 0 in
        let max_score := num_questions * max_point_value in
        if 0 <? max_score then
          match percent_of total_score max_score with
          | Some percentage => Some (total_score, max_score, percentage)
          | None => None
          end
        else Some (total_score, max_score, 0)
  end.

End SpeakingTest.

(** * Regular expressions, as [re] matches them

    The patterns of the scripts are sequences of literals and of greedy
    repetitions of a character class, some of them captured.  Matching
    backtracks as [re] does: a repetition first takes all it can and
    gives characters back one at a time while the rest fails. *)

Module Re.
Import PyStr.

Inductive cls : Type :=
| Digit          (* \d *)
| Space          (* \s *)
| DigitOrSpace   (* [\d\s] *)
| AnyChar.       (* . *)

Definition in_cls (k : cls) (c : ascii) : bool :=
  match k with
  | Digit => is_digit c
  | Space => is_space c
  | DigitOrSpace => is_digit c || is_space c
  | AnyChar => negb (Ascii.eqb c "010")
  end.

Inductive item : Type :=
| Lit : string -> item                (* the text itself *)
| Star : cls -> item                  (* k*   *)
| Plus : cls -> item                  (* k+   *)
| Group : cls -> item.                (* (k+) *)

Section Greedy.
Context {R : Type}.
Variable p : ascii -> bool.

(** Zero or more characters of the class, longest first, then the
    continuation [k] on what was taken and what is left. *)
Fixpoint greedy (k : string -> string -> option R) (s : string)
  : option R :=
  match s with
  | String c s' =>
      if p c then
        match greedy (fun m r => k (String c m) r) s' with
        | Some x => Some x
        | None => k EmptyString s
        end
      else k EmptyString s
  | EmptyString => k EmptyString s
  end.

(** One or more. *)
Definition greedy1 (k : string -> string -> option R) (s : string)
  : option R :=
  match s with
  | String c s' =>
      if p c then greedy (fun m r => k (String c m) r) s' else None
  | EmptyString => None
  end.
End Greedy.

(** [re.match(pattern, s)]: the groups of the first match found at
    the start of [s], or [None]. *)
Fixpoint match_items (items : list item) (s : string)
  : option (list string) :=
  match items with
  | [] => Some []
  | Lit l :: rest =>
      if String.prefix l s then match_items rest (drop (len l) s)
      else None
  | Star k :: rest =>
      greedy (in_cls k) (fun _ r => match_items rest r) s
  | Plus k :: rest =>
      greedy1 (in_cls k) (fun _ r => match_items rest r) s
  | Group k :: rest =>
      greedy1 (in_cls k)
        (fun m r => option_map (cons m) (match_items rest r)) s
  end.

(** [re.search(pattern, s)]: the match at the leftmost position that
    has one. *)
Fixpoint search (items : list item) (s : string) : option (list string) :=
  match match_items items s with
  | Some g => Some g
  | None =>
      match s with
      | String _ s' => search items s'
      | EmptyString => None
      end
  end.

End Re.

(** * [process_and_compile.py] *)

Module ProcessAndCompile.
Import PyStr PyNum PyDate FS Re.

(** [(question_num, points, binary_string, filename)] *)
Definition answer : Type := (Z * Z * string * string)%type.

(** The header test of [parse_incomplete_test]. *)
Definition has_header (content : string) : bool :=
  contains (repeat_char "=" 20) content
  || contains "Total Questions:" content
  || contains "Student:" content.

(** [r'Question\s+(\d+):\s+(\d+)\s+=\s+([\d\s]+)\s+(.+)'] *)
Definition question_re : list item :=
  [Lit "Question"; Plus Space; Group Digit; Lit ":"; Plus Space;
   Group Digit; Plus Space; Lit "="; Plus Space; Group DigitOrSpace;
   Plus Space; Group AnyChar].

(** What one line of the body does to the loop. *)
Inductive line_result : Type :=
| Skipped : line_result              (* nothing appended *)
| Entry : answer -> line_result      (* [questions.append(...)] *)
| Raised : line_result.              (* an exception leaves the loop *)

Definition parse_line (line : string) : line_result :=
  let line := strip line in
  if startswith "Question" line then
    match match_items question_re line with
    | Some [g1; g2; g3; g4] =>
        match py_int g1, py_int g2 with
        | Some q_num, Some points =>
            Entry (q_num, points, strip g3, strip g4)
        | _, _ => Raised
        end
    | _ => Skipped
    end
  else Skipped.

Fixpoint parse_lines (lines : list string) : option (list answer) :=
  match lines with
  | [] => Some []
  | l :: rest =>
      match parse_line l with
      | Raised => None
      | Skipped => parse_lines rest
      | Entry a => option_map (cons a) (parse_lines rest)
      end
  end.

(** [parse_incomplete_test], on what the file holds:
    [(questions, has_header)]; [None] when an exception escapes. *)
Definition parse_incomplete_test (file : node)
  : option (list answer * bool) :=
  match read file with
  | None => Some ([], true)
  | Some content =>
      if has_header content then Some ([], true)
      else option_map (fun q => (q, false))
                      (parse_lines (split "010" content))
  end.

(** [question_dict[q_num] = points]: an old key keeps its place. *)
Fixpoint dict_set (q p : Z) (d : list (Z * Z)) : list (Z * Z) :=
  match d with
  | [] => [(q, p)]
  | (q', p') :: d' =>
      if q' =? q then (q', p) :: d' else (q', p') :: dict_set q p d'
  end.

Definition question_dict (questions : list answer) : list (Z * Z) :=
  fold_left (fun d (a : answer) =>
               let '(q_num, points, _, _) := a in dict_set q_num points d)
            questions [].

Definition sum (l : list Z) : Z := fold_left Z.add l 0.

(** [max(l) if l else 5] *)
Definition max_or_5 (l : list Z) : Z :=
  match l with
  | [] => 5
  | x :: l' => fold_left Z.max l' x
  end.

(** [calculate_score]:
    [(total_score, max_score, percentage, total_questions)]; [None]
    when the float arithmetic raises [OverflowError]. *)
Definition calculate_score (questions : list answer)
  : option (Z * Z * Z * Z) :=
  let d := question_dict questions in
  match d with
  | [] => Some (0, 0, 0, 0)
  | _ =>
      let all_points := map snd d in
      let max_point_value := max_or_5 all_points in
      let total_questions := Z.of_nat (length d) in
      let total_score := sum (map snd d) in
      let max_score := total_questions * max_point_value in
      if 0 <? max_score then
        match percent_of total_score max_score with
        | Some percentage =>
            Some (total_score, max_score, percentage, total_questions)
        | None => None
        end
      else Some (total_score, max_score, 0, total_questions)
  end.

(** [extract_info_from_filename]; [None] for [(None, None, None)]. *)
Definition extract_info_from_filename (filename : string)
  : option (string * string * string) :=
  let name := replace ".txt" "" filename in
  match split "_" name with
  | p0 :: p1 :: p2 :: p3 :: _ =>
      if (p0 =? "SpeakingTest")%string then Some (p1, p2, p3) else None
  | _ => None
  end.

(** An item of the point scale: [position: (points, name)]. *)
Definition scale_item : Type := (Z * (Z * string))%type.

(** [(-a[1][0], a[0]) < (-b[1][0], b[0])] *)
Definition scale_ltb (a b : scale_item) : bool :=
  let ka := - fst (snd a) in
  let kb := - fst (snd b) in
  (ka <? kb) || ((ka =? kb) && (fst a <? fst b)).

(** [sorted(point_scale.items(), key=...)], stable. *)
Fixpoint insert_scale (x : scale_item) (l : list scale_item)
  : list scale_item :=
  match l with
  | [] => [x]
  | y :: l' =>
      if scale_ltb y x then y :: insert_scale x l' else x :: l
  end.

Fixpoint sorted_scale (l : list scale_item) : list scale_item :=
  match l with
  | [] => []
  | x :: l' => insert_scale x (sorted_scale l')
  end.

Definition nl : string := String "010" EmptyString.

Definition scale_line (it : scale_item) : string :=
  let '(_, (points, name)) := it in
  if negb (points =? 0) || negb (name =? "")%string
  then str_of_Z points ++ " = " ++ name ++ nl
  else "".

(** The header [generate_complete_report] builds. *)
Definition report_header (original_filename student_id : string)
           (total_score max_score percentage total_questions : Z)
           (point_scale : list scale_item) : string :=
  original_filename ++ nl
  ++ (if (student_id =? "")%string then ""
      else "Student: "
           ++ (if isdigit student_id then zfill 2 student_id
               else student_id)
           ++ nl)
  ++ repeat_char "=" 67 ++ nl
  ++ "Total Questions: " ++ str_of_Z total_questions
  ++ "   Max Score: " ++ str_of_Z max_score
  ++ "   Score: " ++ str_of_Z total_score
  ++ "   Percentage: " ++ str_of_Z percentage ++ "%" ++ nl
  ++ repeat_char "=" 67 ++ nl
  ++ String.concat "" (map scale_line (sorted_scale point_scale))
  ++ nl.

(** [open(path, 'w')] on the name of a sub-directory raises. *)
Definition write_file (name body : string) (d : directory)
  : option directory :=
  match lookup name d with
  | Some Dir => None
  | _ => Some (write name body d)
  end.

(** [generate_complete_report]: the class folder after the file was
    rewritten; [None] when reading or writing raises. *)
Definition generate_complete_report
           (original_file : string) (questions : list answer)
           (class_number student_id timestamp_str : string)
           (total_score max_score percentage total_questions : Z)
           (point_scale : list scale_item) (d : directory)
  : option directory :=
  match lookup original_file d with
  | None => None
  | Some x =>
      match read x with
      | None => None
      | Some original_content =>
          let header :=
            report_header original_file student_id total_score
                          max_score percentage total_questions
                          point_scale in
          write_file original_file (header ++ original_content) d
      end
  end.

(** The fields the header loop of [compile_class_summary] assigns. *)
Record header_fields : Type := mkfields {
  h_student_id : option string;      (* [None] is Python's [None] *)
  h_student_name : string;
  h_total_score : Z;
  h_max_score : Z;
  h_percentage : Z
}.

Definition initial_fields : header_fields :=
  mkfields None "" 0 0 0.

(** [int(m.group(1)) if m else old]; [None] when [int] raises. *)
Definition int_group (m : option (list string)) (old : Z) : option Z :=
  match m with
  | Some (g :: _) => py_int g
  | _ => Some old
  end.

(** [r'Score:\s*(\d+)'], [r'Max Score:\s*(\d+)'],
    [r'Percentage:\s*(\d+)%'] *)
Definition score_re : list item := [Lit "Score:"; Star Space; Group Digit].
Definition max_re : list item :=
  [Lit "Max Score:"; Star Space; Group Digit].
Definition pct_re : list item :=
  [Lit "Percentage:"; Star Space; Group Digit; Lit "%"].

(** One line of the header loop; [None] when it raises. *)
Definition header_line (f : header_fields) (line : string)
  : option header_fields :=
  if startswith "Student:" line then
    match split1 " " (strip (replace "Student:" "" line)) with
    | p0 :: rest =>
        Some (mkfields (Some p0)
                       (match rest with p1 :: _ => p1 | [] => "" end)
                       (h_total_score f) (h_max_score f) (h_percentage f))
    | [] => None
    end
  else if contains "Total Questions:" line && contains "Score:" line then
    match int_group (search score_re line) (h_total_score f),
          int_group (search max_re line) (h_max_score f),
          int_group (search pct_re line) (h_percentage f) with
    | Some t, Some m, Some p =>
        Some (mkfields (h_student_id f) (h_student_name f) t m p)
    | _, _, _ => None
    end
  else Some f.

Fixpoint header_loop (f : header_fields) (lines : list string)
  : option header_fields :=
  match lines with
  | [] => Some f
  | l :: rest =>
      match header_line f l with
      | Some f' => header_loop f' rest
      | None => None
      end
  end.

(** The extraction of the header fields from a body. *)
Definition extract_header_fields (content : string)
  : option header_fields :=
  header_loop initial_fields (split "010" content).

Record entry : Type := mkentry {
  e_student_id : string;
  e_student_name : string;
  e_total_score : Z;
  e_max_score : Z;
  e_percentage : Z;
  e_timestamp : string
}.

(** The body of the [try] of the collecting loop, for one file that
    passed the name tests: the entry to append, if any.  Whatever
    raises is caught and the file is passed over. *)
Definition entry_of (filename : string) (x : node) : option entry :=
  match read x with
  | None => None
  | Some content =>
      match extract_header_fields content with
      | None => None
      | Some f =>
          match h_student_id f, extract_info_from_filename filename with
          | Some student_id, Some (_, _, timestamp_str) =>
              if negb (student_id =? "")%string
                 && negb (timestamp_str =? "")%string
              then Some (mkentry student_id (h_student_name f)
                                 (h_total_score f) (h_max_score f)
                                 (h_percentage f) timestamp_str)
              else None
          | _, _ => None
          end
      end
  end.

Definition name_selected (filename : string) : bool :=
  startswith "SpeakingTest_" filename && endswith ".txt" filename
  && negb (contains "_Unprocessed.txt" filename
           || contains "_PROCESSED.txt" filename).

Fixpoint collect (d : directory) : list entry :=
  match d with
  | [] => []
  | (filename, x) :: d' =>
      if name_selected filename then
        match entry_of filename x with
        | Some e => e :: collect d'
        | None => collect d'
        end
      else collect d'
  end.

(** [date_str], from the first entry; [today] is
    [datetime.now().strftime("%y.%m.%d")]. *)
Definition date_of (first_ts today : string) : string :=
  match split "." first_ts with
  | yy :: mm :: dd :: _ =>
      let yy := if (len yy =? 4)%nat then last_n 2 yy else yy in
      yy ++ "." ++ mm ++ "." ++ dd
  | _ => today
  end.

Definition entry_line (date_str : string) (e : entry) : string :=
  let student_display :=
    if isdigit (e_student_id e) then zfill 2 (e_student_id e)
    else ljust 2 (e_student_id e) in
  let name_display :=
    if (e_student_name e =? "")%string then ljust 20 ""
    else take 20 (ljust 20 (e_student_name e)) in
  let score_display :=
    rjust 10 (str_of_Z (e_total_score e) ++ "/"
              ++ str_of_Z (e_max_score e)) in
  let percent_display := rjust 5 (str_of_Z (e_percentage e) ++ "%") in
  let ts_parts := split "." (e_timestamp e) in
  let time_part :=
    if (4 <=? length ts_parts)%nat then take 4 (last ts_parts "")
    else "0000" in
  date_str ++ "." ++ time_part ++ ":   Student " ++ student_display
  ++ " " ++ name_display ++ ":  " ++ score_display ++ " = "
  ++ percent_display ++ nl.

Definition summary_body (class_number date_str : string)
           (test_entries : list entry) : string :=
  "Class " ++ class_number ++ " - Speaking Test Summary" ++ nl
  ++ "Date: 20" ++ replace "." "-" date_str ++ nl
  ++ repeat_char "=" 80 ++ nl ++ nl
  ++ String.concat "" (map (entry_line date_str) test_entries).

(** [compile_class_summary]: the class folder afterwards, the name of
    the summary file ([None] when none is written) and the number of
    entries; the outer [None] is an exception raised by the write. *)
Definition compile_class_summary (today : string)
           (class_folder : directory) (class_number : string)
  : option (directory * option string * nat) :=
  let test_entries := collect class_folder in
  match test_entries with
  | [] => Some (class_folder, None, O)
  | first :: _ =>
      let date_str := date_of (e_timestamp first) today in
      let summary_file :=
        class_number ++ "_SpeakingTest." ++ date_str ++ ".txt" in
      match write_file summary_file
              (summary_body class_number date_str test_entries)
              class_folder with
      | Some d' => Some (d', Some summary_file, length test_entries)
      | None => None
      end
  end.

(** [r'(\d+)\s*=\s*(.+)'] *)
Definition scale_re : list item :=
  [Group Digit; Star Space; Lit "="; Star Space; Group AnyChar].

(** The body of the innermost [if] of [get_point_scale_from_directory]:
    the scale after a line of the legend; [None] when [int] raises.
    The new position [len(point_scale) + 1] is no key yet, so the
    assignment adds an item. *)
Definition scale_entry (point_scale : list scale_item) (line : string)
  : option (list scale_item) :=
  match match_items scale_re (strip line) with
  | Some [g1; g2] =>
      match py_int g1 with
      | None => None
      | Some points =>
          let name := strip g2 in
          if existsb (fun v => fst (snd v) =? points) point_scale
          then Some point_scale
          else Some (point_scale
                     ++ [(Z.of_nat (length point_scale) + 1,
                          (points, name))])%list
      end
  | _ => Some point_scale
  end.

(** The loop over the lines of one file: the scale reached, and
    whether the loop ended without an exception. *)
Fixpoint scale_loop (in_scale_section : bool)
         (point_scale : list scale_item) (lines : list string)
  : list scale_item * bool :=
  match lines with
  | [] => (point_scale, true)
  | line :: rest =>
      if contains (repeat_char "=" 20) line then
        if in_scale_section then (point_scale, true)
        else scale_loop true point_scale rest
      else if in_scale_section && contains "=" line
              && negb (contains "Total Questions" line)
      then match scale_entry point_scale line with
           | Some point_scale' =>
               scale_loop in_scale_section point_scale' rest
           | None => (point_scale, false)
           end
      else scale_loop in_scale_section point_scale rest
  end.

Definition default_scale : list scale_item :=
  [(1, (5, "Correct")); (2, (0, "Incorrect")); (3, (3, "Fluent"));
   (4, (2, "Partial")); (5, (1, "Attempted"))].

(** The loop over the files; [point_scale] lives across the files, an
    exception in one file passes to the next one. *)
Fixpoint scale_files (point_scale : list scale_item) (d : directory)
  : list scale_item :=
  match d with
  | [] => default_scale
  | (file, x) :: d' =>
      if endswith ".txt" file && startswith "SpeakingTest_" file then
        match read x with
        | None => scale_files point_scale d'
        | Some content =>
            let (point_scale', finished) :=
              scale_loop false point_scale (split "010" content) in
            if finished then
              match point_scale' with
              | [] => scale_files point_scale' d'
              | _ => point_scale'
              end
            else scale_files point_scale' d'
        end
      else scale_files point_scale d'
  end.

(** [get_point_scale_from_directory] *)
Definition get_point_scale_from_directory (class_folder : directory)
  : list scale_item :=
  scale_files [] class_folder.

(** [os.rename(src, dst)] inside one folder; [None] when it raises.
    An existing file [dst] is replaced where the platform does so
    ([replaces], POSIX) and makes the call raise where it does not
    (Windows); a directory [dst] makes it raise on both. *)
Definition rename (replaces : bool) (src dst : string) (d : directory)
  : option directory :=
  match lookup src d with
  | None => None
  | Some x =>
      if (src =? dst)%string then Some d
      else
        match lookup dst d with
        | None => Some (remove src d ++ [(dst, x)])%list
        | Some Dir => None
        | Some (File _) =>
            if replaces
            then Some (remove src (remove dst d) ++ [(dst, x)])%list
            else None
        end
  end.

(** What one turn of the file loop of [main] comes to. *)
Inductive file_outcome : Type :=
| Passed : file_outcome              (* the file is left as it is *)
| Completed : store -> file_outcome  (* the end of the body is reached *)
| Failed : store -> file_outcome.    (* an exception leaves [main] *)

(** The body of the loop over the files of a class folder in [main],
    on the class folder and [Records/Duplicates]. *)
Definition process_file (replaces : bool) (can_move : string -> bool)
           (point_scale : list scale_item) (filename : string)
           (st : store) : file_outcome :=
  if negb (startswith "SpeakingTest_" filename)
     || negb (endswith ".txt" filename)
  then Passed
  else if contains "_Unprocessed.txt" filename
          || contains "_PROCESSED.txt" filename
  then Passed
  else
    match (match lookup filename (class_dir st) with
           | Some x => parse_incomplete_test x
           | None => Some ([], true)
           end) with
    | None => Failed st
    | Some (questions, has_header) =>
        if negb has_header
           && negb (match questions with [] => true | _ => false end)
        then
          match extract_info_from_filename filename with
          | None => Passed
          | Some (class_number, student_id, timestamp_str) =>
              if (class_number =? "")%string || (student_id =? "")%string
              then Passed
              else
                match calculate_score questions with
                | None => Failed st
                | Some (total_score, max_score, percentage,
                        total_questions) =>
                    let unprocessed_name :=
                      replace ".txt" "_Unprocessed.txt" filename in
                    match rename replaces filename unprocessed_name
                                 (class_dir st) with
                    | None => Failed st
                    | Some d1 =>
                        match generate_complete_report filename questions
                                class_number student_id timestamp_str
                                total_score max_score percentage
                                total_questions point_scale d1 with
                        | None => Failed (mkstore d1 (dup_dir st))
                        | Some d2 =>
                            let dest :=
                              FindDuplicates.dest_path unprocessed_name (dup_dir st) in
                            match FindDuplicates.move can_move unprocessed_name dest
                                       (mkstore d2 (dup_dir st)) with
                            | Some st' => Completed st'
                            | None => Failed (mkstore d2 (dup_dir st))
                            end
                        end
                    end
                end
          end
        else Passed
    end.

End ProcessAndCompile.

(** * The vocabulary of the properties

    The notions the properties below are stated and proved with: the
    shapes and conditions the specification names, and the views of the
    data the proofs go through. *)

Import PyStr PyNum PyDate FS Re FindDuplicates ProcessAndCompile.

(** No character of [s] is [sep]. *)
Definition free_of (sep : ascii) (s : string) : bool :=
  forallb_str (fun c => negb (Ascii.eqb c sep)) s.

(** The integers [0 .. n-1]. *)
Definition below (n : Z) : list Z := map Z.of_nat (seq 0 (Z.to_nat n)).

(** [int(s) == n] *)
Definition is_int (s : string) (n : Z) : bool :=
  match py_int s with Some v => v =? n | None => false end.

(** What [strftime] prints for a two-digit field. *)
Definition pad2_ok (n : Z) : bool :=
  let s := SpeakingTest.pad 2 n in
  (len s =? 2)%nat && free_of "." s && is_int s n
  && is_int ("20" ++ s) (2000 + n).

(** What [strftime] prints for [%Y]: from 1000 on the zero-filled year
    is the year as [str] prints it. *)
Definition pad4_ok (n : Z) : bool :=
  let s := SpeakingTest.pad 4 n in
  (len s =? 4)%nat && free_of "." s && is_int s n
  && ((n <? 1000) || (s =? str_of_Z n)%string).

(** The year field as [int] reads it: a two-character year gets the
    century in front. *)
Definition year_text (y : string) : string :=
  if (len y =? 2)%nat then "20" ++ y else y.

(** The malformed timestamps as the specification lists them: a wrong
    number of components, a field that is not a number, or numbers
    that are no calendar instant. *)
Definition spec_malformed (s : string) : Prop :=
  match split "." s with
  | [y; m; d; t] =>
      py_int (year_text y) = None \/ py_int m = None \/ py_int d = None
      \/ py_int t = None
      \/ (exists y' m' d' h' mi',
             py_int (year_text y) = Some y' /\ py_int m = Some m'
             /\ py_int d = Some d' /\ py_int (slice 0 2 t) = Some h'
             /\ py_int (slice 2 4 t) = Some mi'
             /\ valid_date y' m' d' h' mi' = false)
  | _ => True
  end.

(** The float a primitive binary64 value stands for; [None] for an
    infinity or a NaN. *)
Definition of_binary64 (x : PrimFloat.float) : option pyfloat :=
  match Prim2SF x with
  | S754_zero s => Some (mkfloat s 0 0)
  | S754_finite s m e => Some (mkfloat s (Zpos m) e)
  | _ => None
  end.

(** Two floats of the model stand for the same number. *)
Definition same_float (x y : option pyfloat) : bool :=
  match x, y with
  | Some a, Some b =>
      let e := Z.min (fexp a) (fexp b) in
      Bool.eqb (fneg a) (fneg b)
      && (fmant a * 2 ^ (fexp a - e) =? fmant b * 2 ^ (fexp b - e))
  | None, None => true
  | _, _ => false
  end.

(** [a / b] and [(a / b) * 100] computed by the machine's binary64
    division and multiplication, for operands a float holds exactly. *)
Definition machine_div (a b : Z) : PrimFloat.float :=
  PrimFloat.div (PrimFloat.of_uint63 (Uint63.of_Z a))
                (PrimFloat.of_uint63 (Uint63.of_Z b)).

Definition machine_times_100 (a b : Z) : PrimFloat.float :=
  PrimFloat.mul (machine_div a b) (PrimFloat.of_uint63 (Uint63.of_Z 100)).

(** The model agrees with the machine on the score [a] out of [b]. *)
Definition agrees_with_machine (a b : Z) : bool :=
  same_float (true_div a b) (of_binary64 (machine_div a b))
  && same_float
       (match true_div a b with
        | Some q => fmul q (float_of_small 100)
        | None => None
        end)
       (of_binary64 (machine_times_100 a b)).

(** [d.get(q)] *)
Fixpoint dict_get (q : Z) (d : list (Z * Z)) : option Z :=
  match d with
  | [] => None
  | (q', p) :: d' => if q' =? q then Some p else dict_get q d'
  end.

(** The points of the last answer line for question [q]. *)
Fixpoint last_points (q : Z) (questions : list answer) : option Z :=
  match questions with
  | [] => None
  | (q', p, _, _) :: rest =>
      match last_points q rest with
      | Some x => Some x
      | None => if q' =? q then Some p else None
      end
  end.

(** The point value of an answer. *)
Definition points_of (a : answer) : Z := snd (fst (fst a)).

(** Every character of [m] is of the class [k]. *)
Definition all_in (k : cls) (m : string) : bool :=
  forallb_str (in_cls k) m.

(** [parses items s gs]: a prefix of [s] is a word of the pattern
    [items], read with the groups [gs]. *)
Fixpoint parses (items : list item) (s : string) (gs : list string)
  : Prop :=
  match items with
  | [] => gs = []
  | Lit l :: rest => exists t, s = l ++ t /\ parses rest t gs
  | Star k :: rest =>
      exists m t, s = m ++ t /\ all_in k m = true /\ parses rest t gs
  | Plus k :: rest =>
      exists m t, s = m ++ t /\ m <> "" /\ all_in k m = true
                  /\ parses rest t gs
  | Group k :: rest =>
      exists m t gs', s = m ++ t /\ m <> "" /\ all_in k m = true
                      /\ gs = m :: gs' /\ parses rest t gs'
  end.

(** A prefix of [s] is a word of the pattern. *)
Definition accepts (items : list item) (s : string) : Prop :=
  exists gs, parses items s gs.

(** A line that sets the score fields. *)
Definition summary_line (line : string) : bool :=
  negb (startswith "Student:" line)
  && contains "Total Questions:" line && contains "Score:" line.

(** The number the pattern finds on the line has more digits than
    [int] converts. *)
Definition overlong (items : list item) (line : string) : bool :=
  match search items line with
  | Some (g :: _) => negb (int_fits g)
  | _ => false
  end.

(** A summary line on which [int] raises. *)
Definition raising_line (line : string) : bool :=
  summary_line line
  && (overlong score_re line || overlong max_re line
      || overlong pct_re line).

(** A qualifying record in the words of the specification: the name
    parses, it is not in an unprocessed or quarantine naming state, and
    the body is headed. *)
Definition qualifying (filename : string) (x : node) : Prop :=
  FindDuplicates.parse_filename filename <> None
  /\ contains "_Unprocessed.txt" filename = false
  /\ contains "_PROCESSED.txt" filename = false
  /\ exists content, read x = Some content /\ has_header content = true.

(** The answers the lines of a body contribute, line by line. *)
Definition entries_of (lines : list string) : list answer :=
  flat_map (fun l => match parse_line l with
                     | Entry a => [a]
                     | _ => []
                     end) lines.

(** An answer line whose question number or point value has more
    digits than [int] converts. *)
Definition long_number (line : string) : bool :=
  match match_items question_re (strip line) with
  | Some (g1 :: g2 :: _) => negb (int_fits g1) || negb (int_fits g2)
  | _ => false
  end.

(** What is left of [s] after the text [p], if [s] starts with it. *)
Definition after (p s : string) : option string :=
  if String.prefix p s then Some (drop (len p) s) else None.

(** [s] without its leading digits. *)
Fixpoint skip_digits (s : string) : string :=
  match s with
  | String c s' => if is_digit c then skip_digits s' else s
  | EmptyString => s
  end.

(** What is left of [s] after an [<int>]: one digit or more. *)
Definition int_token (s : string) : option string :=
  match s with
  | String c s' => if is_digit c then Some (skip_digits s') else None
  | EmptyString => None
  end.

(** What is left of [s] after a 0/1 token. *)
Definition bit_token (s : string) : option string :=
  match s with
  | String c s' =>
      if Ascii.eqb c "0" || Ascii.eqb c "1" then Some s' else None
  | EmptyString => None
  end.

(** One reading after another. *)
Definition andthen (x : option string) (f : string -> option string)
  : option string :=
  match x with Some r => f r | None => None end.

(** The shape of an answer line in the words of the specification:
    [Question <int>: <int> = <5 space-separated 0/1 tokens> <label>],
    the label not empty. *)
Definition spec_shape (line : string) : bool :=
  match
    andthen (after "Question " line) (fun r =>
    andthen (int_token r) (fun r =>
    andthen (after ": " r) (fun r =>
    andthen (int_token r) (fun r =>
    andthen (after " = " r) (fun r =>
    andthen (bit_token r) (fun r =>
    andthen (after " " r) (fun r =>
    andthen (bit_token r) (fun r =>
    andthen (after " " r) (fun r =>
    andthen (bit_token r) (fun r =>
    andthen (after " " r) (fun r =>
    andthen (bit_token r) (fun r =>
    andthen (after " " r) (fun r =>
    andthen (bit_token r) (fun r =>
    after " " r))))))))))))))
  with
  | Some label => negb (label =? "")%string
  | None => false
  end.

(** The name tried at turn [k] of the loop. *)
Definition candidate (base ext : string) (k : nat) : string :=
  base ++ "_dup" ++ str_of_nat k ++ ext.

(** The dictionary key of a scanned record:
    [(class_number, normalized_id)]. *)
Definition key_of (i : file_info) : key :=
  (fi_class i, normalize_student_id (fi_student_id i)).

(** What the scanning loop records for an entry, if anything. *)
Definition info_of (e : string * node) : option file_info :=
  let (filename, x) := e in
  if negb (is_file x) then None
  else if contains "_PROCESSED.txt" filename then None
  else match parse_filename filename with
       | None => None
       | Some (c, s, t, _) =>
           Some (mkinfo filename c s t (get_timestamp_for_sorting t))
       end.

(** The records of a folder, in scan order. *)
Definition infos (d : directory) : list file_info :=
  flat_map (fun e => match info_of e with
                     | Some i => [i]
                     | None => []
                     end) d.

(** The dictionary after one more record, and after a list of them. *)
Definition add_info (sf : list (key * list file_info)) (i : file_info)
  : list (key * list file_info) :=
  dict_append (key_of i) i sf.

Definition group (l : list file_info) : list (key * list file_info) :=
  fold_left add_info l [].

(** The records of [l] that belong to the student [k], in order. *)
Definition bucket (k : key) (l : list file_info) : list file_info :=
  filter (fun i => key_eqb (key_of i) k) l.

(** The dictionary [sf] holds, key by key, the records of [l]. *)
Definition grouped (sf : list (key * list file_info))
           (l : list file_info) : Prop :=
  NoDup (map fst sf)
  /\ (forall k vs, In (k, vs) sf -> vs = bucket k l /\ vs <> [])
  /\ (forall i, In i l -> In (key_of i) (map fst sf)).

(** The names of the files marked duplicates. *)
Definition flagged (rows : list dup_row) : list string :=
  map (fun r => fi_filename (fst r)) (filter snd rows).

(** The folder without the files named [ns]. *)
Definition remove_all (ns : list string) (d : directory) : directory :=
  fold_left (fun d n => remove n d) ns d.

(** The value [int] reads from the digits [d], after the digits that
    made [acc]. *)
Fixpoint uint_value (d : uint) (acc : Z) : Z :=
  match d with
  | Nil => acc
  | D0 l => uint_value l (10 * acc)
  | D1 l => uint_value l (10 * acc + 1)
  | D2 l => uint_value l (10 * acc + 2)
  | D3 l => uint_value l (10 * acc + 3)
  | D4 l => uint_value l (10 * acc + 4)
  | D5 l => uint_value l (10 * acc + 5)
  | D6 l => uint_value l (10 * acc + 6)
  | D7 l => uint_value l (10 * acc + 7)
  | D8 l => uint_value l (10 * acc + 8)
  | D9 l => uint_value l (10 * acc + 9)
  end.

(** The record a student keeps: the newest one, and of several equally
    new ones the one scanned last. *)
Fixpoint newest (l : list file_info) : option file_info :=
  match l with
  | [] => None
  | x :: l' =>
      match newest l' with
      | Some y => if dt_ltb (fi_datetime y) (fi_datetime x)
                  then Some x else Some y
      | None => Some x
      end
  end.

(** Ascending by instant. *)
Fixpoint ascending (l : list file_info) : Prop :=
  match l with
  | [] => True
  | x :: l' =>
      (forall y, In y l' -> dt_ltb (fi_datetime y) (fi_datetime x) = false)
      /\ ascending l'
  end.

(** [t] does not go on with a character of the class [p]. *)
Definition stops (p : ascii -> bool) (t : string) : bool :=
  match t with
  | EmptyString => true
  | String c _ => negb (p c)
  end.

(** The characters [str] prints an [int] with. *)
Definition int_char (c : ascii) : bool := is_digit c || Ascii.eqb c "-".

(** The score line of a header. *)
Definition score_line (total_questions max_score total_score percentage : Z)
  : string :=
  "Total Questions: " ++ str_of_Z total_questions
  ++ "   Max Score: " ++ str_of_Z max_score
  ++ "   Score: " ++ str_of_Z total_score
  ++ "   Percentage: " ++ str_of_Z percentage ++ "%".

(** A body as the records of a class folder have it: without a header,
    or with the header [generate_complete_report] writes. *)
Definition standard_body (body : string) : Prop :=
  contains (repeat_char "=" 20) body = false
  \/ exists f s t m p c scale content,
       contains (repeat_char "=" 20) f = false
       /\ contains (repeat_char "=" 20) s = false
       /\ body = report_header f s t m p c scale ++ content.

(** What the application keeps of a record the script scanned. *)
Definition scanned_of (i : file_info) : SpeakingTest.scanned :=
  SpeakingTest.mkscanned (fi_filename i) (fi_datetime i).

Definition scanned_dict (sf : list (key * list file_info))
  : list (string * string * list SpeakingTest.scanned) :=
  map (fun b => (fst b, map scanned_of (snd b))) sf.

(** What [save_record] is called with: the question, the button, the
    points of the button and the name of the picture. *)
Definition click : Type := (Z * Z * Z * string)%type.

(** A click whose line both programs read: the question number and
    the points are numbers [int] converts. *)
Definition plain_click (r : click) : Prop :=
  let '(image_num, button, points, label) := r in
  1 <= button <= 5 /\ 0 <= image_num /\ 0 <= points
  /\ int_fits (str_of_Z image_num) = true
  /\ int_fits (str_of_Z points) = true
  /\ label <> ""
  /\ forallb_str (fun c => negb (is_space c)) label = true
  /\ free_of ":" label = true.

(** The record after the clicks [rs], written to an empty file. *)
Fixpoint written (rs : list click) : option string :=
  match rs with
  | [] => Some ""
  | (image_num, button, points, label) :: rest =>
      match SpeakingTest.record_line image_num button points label,
            written rest with
      | Some line, Some text => Some (line ++ text)
      | _, _ => None
      end
  end.

(** The answer a click stands for:
    [(question_num, points, binary_string, filename)]. *)
Definition answer_of (r : click) : answer :=
  let '(image_num, button, points, label) := r in
  (image_num, points,
   match SpeakingTest.clicks_of button with
   | Some clicks => join " " (map str_of_Z clicks)
   | None => ""
   end,
   label).

(** * Lemmas *)

(** ** Strings *)

Section StringFacts.

Lemma app_nil_r_str (s : string) : s ++ "" = s.
Proof. induction s; simpl; congruence. Qed.

Lemma app_assoc_str (a b c : string) : (a ++ b) ++ c = a ++ (b ++ c).
Proof. induction a; simpl; congruence. Qed.

Lemma len_app (a b : string) : len (a ++ b) = (len a + len b)%nat.
Proof. unfold len. induction a; simpl; auto. Qed.

Lemma take_app (a b : string) : take (len a) (a ++ b) = a.
Proof. unfold len. induction a; simpl; congruence. Qed.

Lemma drop_app (a b : string) : drop (len a) (a ++ b) = b.
Proof. unfold len. induction a; simpl; auto. Qed.

Lemma take_all (a : string) (n : nat) : (len a <= n)%nat -> take n a = a.
Proof.
  unfold len. revert n. induction a; intros [|n] H; simpl in *;
    try reflexivity; try lia.
  f_equal. apply IHa. lia.
Qed.

Lemma app_inv_head_str (a b c : string) : a ++ b = a ++ c -> b = c.
Proof. induction a; simpl; intros H; [assumption|]. inversion H; auto. Qed.

Lemma app_inv_tail_str (a b c : string) : a ++ c = b ++ c -> a = b.
Proof.
  revert b. induction a as [|x a IH]; intros [|y b] H; simpl in *.
  - reflexivity.
  - exfalso. apply (f_equal len) in H. simpl in H.
    change (len c = S (len (b ++ c))) in H. rewrite len_app in H. lia.
  - exfalso. apply (f_equal len) in H.
    change (S (len (a ++ c)) = len c) in H. rewrite len_app in H. lia.
  - inversion H. f_equal. auto.
Qed.

Lemma prefix_app (p s : string) : String.prefix p (p ++ s) = true.
Proof.
  induction p as [|c p IH]; simpl.
  - destruct s; reflexivity.
  - destruct (ascii_dec c c); [assumption | congruence].
Qed.

Lemma prefix_split (p s : string) :
  String.prefix p s = true -> exists t, s = p ++ t.
Proof.
  revert s. induction p as [|c p IH]; intros s H.
  - exists s. reflexivity.
  - destruct s as [|c' s]; simpl in H; [discriminate|].
    destruct (ascii_dec c c'); [|discriminate]. subst.
    destruct (IH _ H) as [t ->]. exists t. reflexivity.
Qed.

Lemma contains_cons (n : string) (c : ascii) (h : string) :
  contains n (String c h) = String.prefix n (String c h) || contains n h.
Proof. reflexivity. Qed.

Lemma contains_here (n h : string) :
  String.prefix n h = true -> contains n h = true.
Proof.
  intros H. destruct h; [simpl in *|rewrite contains_cons];
    rewrite H; reflexivity.
Qed.

Lemma contains_app_r (n a b : string) :
  contains n b = true -> contains n (a ++ b) = true.
Proof.
  intros H. induction a as [|c a IH]; [assumption|].
  change (String c a ++ b) with (String c (a ++ b)).
  rewrite contains_cons, IH. apply orb_true_r.
Qed.

Lemma prefix_app_l (n a b : string) :
  String.prefix n a = true -> String.prefix n (a ++ b) = true.
Proof.
  intros H. destruct (prefix_split _ _ H) as [t ->].
  rewrite app_assoc_str. apply prefix_app.
Qed.

Lemma contains_app_l (n a b : string) :
  contains n a = true -> contains n (a ++ b) = true.
Proof.
  induction a as [|c a IH]; intros H.
  - simpl in H. rewrite orb_false_r in H. apply contains_here.
    change b with ("" ++ b). apply prefix_app_l. assumption.
  - rewrite contains_cons in H.
    change (String c a ++ b) with (String c (a ++ b)).
    rewrite contains_cons.
    apply orb_true_iff in H. destruct H as [H|H].
    + change (String c (a ++ b)) with (String c a ++ b).
      rewrite (prefix_app_l _ _ _ H). reflexivity.
    + rewrite (IH H). apply orb_true_r.
Qed.

Lemma split_free (sep : ascii) (a : string) :
  free_of sep a = true -> split sep a = [a].
Proof.
  unfold free_of. induction a as [|c a IH]; simpl; intros H; auto.
  apply andb_true_iff in H. destruct H as [Hc Ha].
  apply negb_true_iff in Hc. rewrite Hc, (IH Ha). reflexivity.
Qed.

Lemma split_app_sep (sep : ascii) (a b : string) :
  free_of sep a = true ->
  split sep (a ++ String sep b) = a :: split sep b.
Proof.
  unfold free_of. induction a as [|c a IH]; simpl; intros H.
  - rewrite Ascii.eqb_refl. reflexivity.
  - apply andb_true_iff in H. destruct H as [Hc Ha].
    apply negb_true_iff in Hc. rewrite Hc, (IH Ha). reflexivity.
Qed.

Lemma split_nonempty (sep : ascii) (s : string) : split sep s <> [].
Proof.
  induction s as [|c s IH]; simpl; [discriminate|].
  destruct (Ascii.eqb c sep); [discriminate|].
  destruct (split sep s); discriminate.
Qed.

(** The first piece of a split starts the string. *)
Lemma split_head (sep : ascii) (s p : string) (ps : list string) :
  split sep s = p :: ps -> exists b, s = p ++ b.
Proof.
  revert p ps. induction s as [|c s IH]; simpl; intros p ps H.
  - inversion H. exists "". reflexivity.
  - destruct (Ascii.eqb c sep).
    + inversion H. exists (String c s). reflexivity.
    + destruct (split sep s) as [|q qs] eqn:E.
      * inversion H. exists s. reflexivity.
      * inversion H; subst. destruct (IH _ _ eq_refl) as [b ->].
        exists b. reflexivity.
Qed.

(** Every piece of a split lies inside the string. *)
Lemma split_In (sep : ascii) (s l : string) :
  In l (split sep s) -> exists a b, s = a ++ l ++ b.
Proof.
  revert l. induction s as [|c s IH]; simpl; intros l H.
  - destruct H as [<-|[]]. exists "", "". reflexivity.
  - destruct (Ascii.eqb c sep).
    + destruct H as [<-|H].
      * exists "", (String c s). reflexivity.
      * destruct (IH _ H) as (a & b & ->).
        exists (String c a), b. reflexivity.
    + destruct (split sep s) as [|p ps] eqn:E.
      * destruct H as [<-|[]]. exists "", s. reflexivity.
      * destruct H as [<-|H].
        -- destruct (split_head _ _ _ _ E) as [b ->].
           exists "", b. reflexivity.
        -- destruct (IH _ (or_intror H)) as (a & b & ->).
           exists (String c a), b. reflexivity.
Qed.

End StringFacts.

(** ** Integer literals *)

Section IntFacts.

Lemma digit_not_space (c : ascii) : is_digit c = true -> is_space c = false.
Proof.
  destruct c as [[] [] [] [] [] [] [] []]; vm_compute; congruence.
Qed.

Lemma digit_not_sign (c : ascii) :
  is_digit c = true -> c <> "+"%char /\ c <> "-"%char /\ c <> "."%char.
Proof.
  destruct c as [[] [] [] [] [] [] [] []]; vm_compute;
    intros H; repeat split; congruence.
Qed.

Lemma digit_val_nonneg (c : ascii) : is_digit c = true -> 0 <= digit_val c.
Proof.
  unfold is_digit, digit_val. intros H.
  apply andb_true_iff in H. destruct H as [H _].
  apply Nat.leb_le in H. lia.
Qed.

Lemma rstrip_no_space (s : string) :
  forallb_str (fun c => negb (is_space c)) s = true -> rstrip s = s.
Proof.
  induction s as [|c s IH]; simpl; intros H; [reflexivity|].
  apply andb_true_iff in H. destruct H as [Hc Hs].
  rewrite (IH Hs). apply negb_true_iff in Hc. rewrite Hc.
  destruct s; reflexivity.
Qed.

Lemma lstrip_no_space (s : string) :
  forallb_str (fun c => negb (is_space c)) s = true -> lstrip s = s.
Proof.
  destruct s as [|c s]; simpl; intros H; [reflexivity|].
  apply andb_true_iff in H. destruct H as [Hc _].
  apply negb_true_iff in Hc. rewrite Hc. reflexivity.
Qed.

Lemma digits_no_space (s : string) :
  forallb_str is_digit s = true ->
  forallb_str (fun c => negb (is_space c)) s = true.
Proof.
  induction s as [|c s IH]; simpl; intros H; [reflexivity|].
  apply andb_true_iff in H. destruct H as [Hc Hs].
  rewrite (digit_not_space _ Hc), (IH Hs). reflexivity.
Qed.

Lemma strip_digits (s : string) :
  forallb_str is_digit s = true -> strip s = s.
Proof.
  intros H. apply digits_no_space in H. unfold strip.
  rewrite (lstrip_no_space _ H). apply rstrip_no_space, H.
Qed.

Lemma int_digits_total (s : string) :
  forallb_str is_digit s = true ->
  forall prev acc, 0 <= acc -> (prev = true \/ s <> "") ->
  exists v, int_digits prev acc s = Some v /\ 0 <= v.
Proof.
  induction s as [|c s IH]; cbn [int_digits forallb_str];
    intros H prev acc Hacc Hne.
  - destruct Hne as [->|Hne]; [|congruence]. eauto.
  - apply andb_true_iff in H. destruct H as [Hc Hs]. rewrite Hc.
    pose proof (digit_val_nonneg _ Hc).
    apply IH; auto. lia.
Qed.

Lemma int_space_is_space (c : ascii) :
  is_int_space c = true -> is_space c = true.
Proof.
  destruct c as [[] [] [] [] [] [] [] []]; vm_compute; congruence.
Qed.

Lemma not_int_space (c : ascii) :
  is_space c = false -> is_int_space c = false.
Proof.
  intros H. destruct (is_int_space c) eqn:E; [|reflexivity].
  apply int_space_is_space in E. congruence.
Qed.

Lemma int_strip_no_space (s : string) :
  forallb_str (fun c => negb (is_space c)) s = true -> int_strip s = s.
Proof.
  intros H. unfold int_strip.
  assert (L : int_lstrip s = s).
  { destruct s as [|c s]; [reflexivity|]. simpl in H |- *.
    apply andb_true_iff in H. destruct H as [Hc _].
    apply negb_true_iff in Hc. now rewrite (not_int_space _ Hc). }
  rewrite L. clear L.
  induction s as [|c s IH]; [reflexivity|].
  simpl in H. apply andb_true_iff in H. destruct H as [Hc Hs].
  cbn [int_rstrip]. rewrite (IH Hs).
  apply negb_true_iff in Hc. rewrite (not_int_space _ Hc).
  destruct s; reflexivity.
Qed.

Lemma int_strip_digits (s : string) :
  forallb_str is_digit s = true -> int_strip s = s.
Proof. intros H. apply int_strip_no_space, digits_no_space, H. Qed.

(** In a text of digits every character counts. *)
Lemma count_digits_all (s : string) :
  forallb_str is_digit s = true -> count_digits s = Z.of_nat (len s).
Proof.
  induction s as [|c s IH]; [reflexivity|].
  cbn [forallb_str count_digits len String.length]. intros H.
  apply andb_true_iff in H. destruct H as [Hc Hs].
  rewrite Hc, (IH Hs). unfold len. lia.
Qed.

Lemma count_digits_nonneg (s : string) : 0 <= count_digits s.
Proof.
  induction s as [|c s IH]; cbn [count_digits]; [lia|].
  destruct (is_digit c); lia.
Qed.

(** A text of digits has no sign to take off. *)
Lemma py_int_literal (s : string) :
  forallb_str is_digit s = true -> py_int s = int_literal s.
Proof.
  intros H. unfold py_int. rewrite (int_strip_digits _ H).
  destruct s as [|c s]; [reflexivity|].
  assert (Hc : is_digit c = true)
    by (simpl in H; apply andb_true_iff in H; tauto).
  destruct (digit_not_sign _ Hc) as (Hp & Hm & _).
  destruct c as [[] [] [] [] [] [] [] []]; try reflexivity; congruence.
Qed.

(** [int] fails on what [\d+] or [isdigit] accepted only beyond the
    limit of the conversion. *)
Lemma py_int_digits (s : string) :
  forallb_str is_digit s = true -> s <> "" -> int_fits s = true ->
  exists v, py_int s = Some v /\ 0 <= v.
Proof.
  intros H Hne F. rewrite (py_int_literal _ H). unfold int_literal.
  rewrite F. apply int_digits_total; auto; lia.
Qed.

Lemma py_int_long (s : string) :
  forallb_str is_digit s = true -> int_fits s = false -> py_int s = None.
Proof.
  intros H F. rewrite (py_int_literal _ H). unfold int_literal.
  now rewrite F.
Qed.

Lemma py_int_isdigit (s : string) :
  isdigit s = true -> int_fits s = true ->
  exists v, py_int s = Some v /\ 0 <= v.
Proof.
  intros H F. destruct s as [|c s]; [discriminate|].
  apply py_int_digits; [exact H|congruence|exact F].
Qed.

Lemma below_In (n z : Z) : 0 <= z < n -> In z (below n).
Proof.
  intros H. unfold below. apply in_map_iff. exists (Z.to_nat z).
  split; [lia|]. apply in_seq. lia.
Qed.

Lemma is_int_true (s : string) (n : Z) :
  is_int s n = true -> py_int s = Some n.
Proof.
  unfold is_int. destruct (py_int s); [|discriminate].
  intros H. apply Z.eqb_eq in H. congruence.
Qed.

Lemma pad2_all : forallb pad2_ok (below 100) = true.
Proof. vm_compute. reflexivity. Qed.

Lemma pad4_all : forallb pad4_ok (below 10000) = true.
Proof. vm_compute. reflexivity. Qed.

Lemma pad2_facts (n : Z) :
  0 <= n < 100 ->
  let s := SpeakingTest.pad 2 n in
  len s = 2%nat /\ free_of "." s = true /\ py_int s = Some n
  /\ py_int ("20" ++ s) = Some (2000 + n).
Proof.
  intros H. pose proof pad2_all as A.
  rewrite forallb_forall in A.
  specialize (A n (below_In 100 n H)).
  unfold pad2_ok in A. cbv zeta in *.
  repeat (apply andb_true_iff in A; destruct A as [A ?]).
  apply Nat.eqb_eq in A. auto using is_int_true.
Qed.

Lemma pad4_facts (n : Z) :
  0 <= n < 10000 ->
  let s := SpeakingTest.pad 4 n in
  len s = 4%nat /\ free_of "." s = true /\ py_int s = Some n
  /\ (1000 <= n -> s = str_of_Z n).
Proof.
  intros H. pose proof pad4_all as A.
  rewrite forallb_forall in A.
  specialize (A n (below_In 10000 n H)).
  unfold pad4_ok in A. cbv zeta in *.
  repeat (apply andb_true_iff in A; destruct A as [A ?]).
  apply Nat.eqb_eq in A.
  repeat split; auto using is_int_true.
  intros B.
  match goal with
  | X : (_ || _) = true |- _ =>
      apply orb_true_iff in X; destruct X as [X|X];
      [apply Z.ltb_lt in X; lia|now apply String.eqb_eq in X]
  end.
Qed.

End IntFacts.

(** ** Timestamps *)

Section Timestamps.
Import FindDuplicates.

(** [get_timestamp_for_sorting] on a timestamp of four components whose
    last has at least four characters. *)
Lemma timestamp_long (s y m d t : string) :
  split "." s = [y; m; d; t] -> (4 <= len t)%nat ->
  get_timestamp_for_sorting s =
  match py_int (year_text y), py_int m, py_int d,
        py_int (slice 0 2 t), py_int (slice 2 4 t) with
  | Some y', Some m', Some d', Some h', Some mi' =>
      match make_datetime y' m' d' h' mi' with
      | Some dt => dt
      | None => sentinel
      end
  | _, _, _, _, _ => sentinel
  end.
Proof.
  intros E L. unfold get_timestamp_for_sorting, try_timestamp, year_text.
  rewrite E. apply Nat.leb_le in L. rewrite L. cbn [fst snd].
  destruct (py_int _), (py_int m), (py_int d), (py_int (slice 0 2 t)),
    (py_int (slice 2 4 t)); reflexivity.
Qed.

(** The same with a shorter last component: it is not read at all. *)
Lemma timestamp_short (s y m d t : string) :
  split "." s = [y; m; d; t] -> (len t < 4)%nat ->
  get_timestamp_for_sorting s =
  match py_int (year_text y), py_int m, py_int d with
  | Some y', Some m', Some d' =>
      match make_datetime y' m' d' 0 0 with
      | Some dt => dt
      | None => sentinel
      end
  | _, _, _ => sentinel
  end.
Proof.
  intros E L. unfold get_timestamp_for_sorting, try_timestamp, year_text.
  rewrite E. apply Nat.leb_gt in L. rewrite L. cbn [fst snd].
  change (py_int "00") with (Some 0).
  destruct (py_int _), (py_int m), (py_int d); reflexivity.
Qed.

Lemma timestamp_count (s : string) :
  length (split "." s) <> 4%nat -> get_timestamp_for_sorting s = sentinel.
Proof.
  intros H. unfold get_timestamp_for_sorting, try_timestamp.
  destruct (split "." s) as [|y [|m [|d [|t [|x l]]]]]; simpl in H;
    try reflexivity. congruence.
Qed.

Lemma valid_date_bounds (y m d h mi : Z) :
  valid_date y m d h mi = true ->
  1 <= y <= 9999 /\ 1 <= m <= 12 /\ 1 <= d <= 31
  /\ 0 <= h <= 23 /\ 0 <= mi <= 59.
Proof.
  unfold valid_date. intros H.
  repeat (apply andb_true_iff in H; destruct H as [H ?]).
  repeat match goal with
         | X : (_ <=? _) = true |- _ => apply Z.leb_le in X
         end.
  assert (days_in_month y m <= 31).
  { unfold days_in_month.
    repeat match goal with |- context [if ?b then _ else _] =>
                             destruct b end; lia. }
  lia.
Qed.

Lemma split_timestamp (a b c e : string) :
  free_of "." a = true -> free_of "." b = true ->
  free_of "." c = true -> free_of "." e = true ->
  split "." (a ++ "." ++ b ++ "." ++ c ++ "." ++ e) = [a; b; c; e].
Proof.
  intros Ha Hb Hc He.
  change (a ++ "." ++ b ++ "." ++ c ++ "." ++ e)
    with (a ++ String "." (b ++ String "." (c ++ String "." e))).
  rewrite !split_app_sep by assumption.
  rewrite split_free by assumption. reflexivity.
Qed.

Lemma free_of_app (sep : ascii) (a b : string) :
  free_of sep a = true -> free_of sep b = true ->
  free_of sep (a ++ b) = true.
Proof.
  unfold free_of. induction a; simpl; intros Ha Hb; [assumption|].
  apply andb_true_iff in Ha. destruct Ha as [H1 H2].
  rewrite H1. simpl. auto.
Qed.

Lemma slices_of_hhmm (h mi : string) :
  len h = 2%nat -> len mi = 2%nat ->
  slice 0 2 (h ++ mi) = h /\ slice 2 4 (h ++ mi) = mi.
Proof.
  intros Hh Hm. unfold slice.
  change (2 - 0)%nat with 2%nat. change (4 - 2)%nat with 2%nat.
  change (drop 0 (h ++ mi)) with (h ++ mi).
  rewrite <- Hh. rewrite take_app, drop_app. split; [reflexivity|].
  apply take_all. lia.
Qed.

(** A timestamp as the application prints it reads back as the
    instant printed. *)
Lemma strftime_Y_padded (zero_fills : bool) (dt : datetime) :
  1 <= year dt <= 9999 ->
  zero_fills = true \/ 1000 <= year dt ->
  SpeakingTest.strftime_Y zero_fills dt = SpeakingTest.strftime_Y true dt.
Proof.
  intros B [->|Y]; [reflexivity|]. destruct zero_fills; [reflexivity|].
  unfold SpeakingTest.strftime_Y.
  destruct (pad4_facts (year dt) ltac:(lia)) as (_ & _ & _ & E).
  cbv zeta in E. now rewrite (E Y).
Qed.

Lemma strftime_Y_roundtrip (zero_fills : bool) (dt : datetime) :
  valid_date (year dt) (month dt) (day dt) (hour dt) (minute dt) = true ->
  zero_fills = true \/ 1000 <= year dt ->
  get_timestamp_for_sorting (SpeakingTest.strftime_Y zero_fills dt) = dt.
Proof.
  intros V Z. 
  rewrite (strftime_Y_padded zero_fills dt)
    by (try exact Z; apply valid_date_bounds in V; tauto).
  clear Z zero_fills.
  destruct dt as [y m d h mi]. cbn [year month day hour minute] in V.
  destruct (valid_date_bounds _ _ _ _ _ V) as (By & Bm & Bd & Bh & Bmi).
  destruct (pad4_facts y ltac:(lia)) as (Ly & Fy & Iy & _).
  destruct (pad2_facts m ltac:(lia)) as (Lm & Fm & Im & _).
  destruct (pad2_facts d ltac:(lia)) as (Ld & Fd & Id & _).
  destruct (pad2_facts h ltac:(lia)) as (Lh & Fh & Ih & _).
  destruct (pad2_facts mi ltac:(lia)) as (Lmi & Fmi & Imi & _).
  destruct (slices_of_hhmm _ _ Lh Lmi) as (S1 & S2).
  unfold SpeakingTest.strftime_Y. cbn [year month day hour minute].
  cbv iota.
  rewrite (timestamp_long _ _ _ _ _
             (split_timestamp _ _ _ _ Fy Fm Fd (free_of_app _ _ _ Fh Fmi))).
  - unfold year_text. rewrite Ly. cbn [Nat.eqb].
    rewrite Iy, Im, Id, S1, S2, Ih, Imi.
    unfold make_datetime. rewrite V. reflexivity.
  - rewrite len_app. lia.
Qed.

Lemma strftime_y_roundtrip (dt : datetime) :
  valid_date (year dt) (month dt) (day dt) (hour dt) (minute dt) = true ->
  2000 <= year dt <= 2099 ->
  get_timestamp_for_sorting (SpeakingTest.strftime_y dt) = dt.
Proof.
  intros V Y. destruct dt as [y m d h mi].
  cbn [year month day hour minute] in V, Y.
  destruct (valid_date_bounds _ _ _ _ _ V) as (By & Bm & Bd & Bh & Bmi).
  destruct (pad2_facts (y mod 100) ltac:(apply Z.mod_pos_bound; lia))
    as (Ly & Fy & _ & Iy).
  destruct (pad2_facts m ltac:(lia)) as (Lm & Fm & Im & _).
  destruct (pad2_facts d ltac:(lia)) as (Ld & Fd & Id & _).
  destruct (pad2_facts h ltac:(lia)) as (Lh & Fh & Ih & _).
  destruct (pad2_facts mi ltac:(lia)) as (Lmi & Fmi & Imi & _).
  destruct (slices_of_hhmm _ _ Lh Lmi) as (S1 & S2).
  unfold SpeakingTest.strftime_y. cbn [year month day hour minute].
  rewrite (timestamp_long _ _ _ _ _
             (split_timestamp _ _ _ _ Fy Fm Fd (free_of_app _ _ _ Fh Fmi))).
  - unfold year_text. rewrite Ly. cbn [Nat.eqb].
    rewrite Iy, Im, Id, S1, S2, Ih, Imi.
    assert (Q : y / 100 = 20)
      by (symmetry; apply Z.div_unique with (y - 2000); lia).
    pose proof (Z.div_mod y 100 ltac:(lia)) as DM. rewrite Q in DM.
    replace (2000 + y mod 100) with y by lia.
    unfold make_datetime. rewrite V. reflexivity.
  - rewrite len_app. lia.
Qed.

(** The scripts and the application agree on every timestamp whose
    last component has fewer than two or at least four characters. *)
Lemma timestamps_agree (s : string) :
  (forall y m d t, split "." s = [y; m; d; t] ->
                   (len t < 2)%nat \/ (4 <= len t)%nat) ->
  SpeakingTest.inline_timestamp s = get_timestamp_for_sorting s.
Proof.
  intros H.
  unfold SpeakingTest.inline_timestamp, SpeakingTest.try_timestamp,
    get_timestamp_for_sorting, try_timestamp.
  destruct (split "." s) as [|y [|m [|d [|t [|x l]]]]]; try reflexivity.
  destruct (H _ _ _ _ eq_refl) as [L|L].
  - assert (L2 : (2 <=? len t)%nat = false) by (apply Nat.leb_gt; lia).
    assert (L4 : (4 <=? len t)%nat = false) by (apply Nat.leb_gt; lia).
    rewrite L2, L4. reflexivity.
  - assert (L2 : (2 <=? len t)%nat = true) by (apply Nat.leb_le; lia).
    assert (L4 : (4 <=? len t)%nat = true) by (apply Nat.leb_le; lia).
    rewrite L2, L4. reflexivity.
Qed.

End Timestamps.

(** ** The float arithmetic of the percentage *)

Section Percent.

Lemma rne_div_bounds (a d N : Z) :
  0 <= a -> 0 < d -> a <= N * d -> 0 <= rne_div a d <= N.
Proof.
  intros Ha Hd HN. unfold rne_div.
  pose proof (Z.div_mod a d ltac:(lia)) as DM.
  pose proof (Z.mod_pos_bound a d Hd) as MB.
  assert (0 <= a / d) by (apply Z.div_pos; lia).
  assert (a / d <= N) by nia.
  destruct (2 * (a mod d) <? d) eqn:E1; [lia|].
  apply Z.ltb_ge in E1.
  assert (a / d < N) by nia.
  destruct (d <? 2 * (a mod d)); [lia|].
  destruct (Z.even (a / d)); lia.
Qed.

Lemma ilog2_ratio_le (n d : Z) :
  ilog2_ratio n d <= Z.log2 n - Z.log2 d.
Proof.
  unfold ilog2_ratio.
  destruct (if Z.log2 n - Z.log2 d <? 0 then _ else _); lia.
Qed.

(** Rounding a ratio [n/d] that is at most the integer [N] and well
    below [2^52] gives a float that is at most [N]: its exponent is not
    positive and its significand at most [N] at that exponent. *)
Lemma round_ratio_le (neg : bool) (n d N : Z) :
  0 <= n -> 0 < d -> n <= N * d -> Z.log2 n - Z.log2 d <= 51 ->
  exists m e,
    round_ratio neg n d = Some (mkfloat neg m e)
    /\ e <= 0 /\ 0 <= m <= N * 2 ^ (- e).
Proof.
  intros Hn Hd HN HL. unfold round_ratio.
  destruct (n =? 0) eqn:E0.
  - exists 0, 0. apply Z.eqb_eq in E0. subst n.
    change (2 ^ (- 0)) with 1. split; [reflexivity|lia].
  - apply Z.eqb_neq in E0.
    pose proof (ilog2_ratio_le n d) as IL.
    set (e := Z.max (ilog2_ratio n d - 52) (-1074)).
    assert (He : e < 0) by (unfold e; lia).
    assert (Hlt : (e <? 0) = true) by (apply Z.ltb_lt; lia).
    rewrite Hlt.
    assert (P : 0 < 2 ^ (- e)) by (apply Z.pow_pos_nonneg; lia).
    destruct (rne_div_bounds (n * 2 ^ (- e)) d (N * 2 ^ (- e)))
      as [B1 B2]; [nia|lia|nia|].
    assert (O1 : (971 <? e) = false) by (apply Z.ltb_ge; lia).
    assert (O2 : (e =? 971) = false) by (apply Z.eqb_neq; lia).
    rewrite O1, O2. simpl.
    eexists _, e. split; [reflexivity|]. split; lia.
Qed.

Lemma py_round_le (m e N : Z) :
  e <= 0 -> 0 <= m <= N * 2 ^ (- e) ->
  0 <= py_round (mkfloat false m e) <= N.
Proof.
  intros He Hm. unfold py_round. cbn [fneg fmant fexp].
  destruct (e <? 0) eqn:E.
  - assert (0 < 2 ^ (- e)) by (apply Z.pow_pos_nonneg; lia).
    apply rne_div_bounds; lia.
  - apply Z.ltb_ge in E. assert (e = 0) by lia. subst e.
    change (2 ^ (- 0)) with 1 in Hm. change (2 ^ 0) with 1. lia.
Qed.

(** The model of the float arithmetic computes what binary64 hardware
    computes: on every score out of every maximum up to 60, and on some
    operands near the limits of exact integers. *)
Lemma model_agrees_with_machine :
  forallb (fun b => forallb (fun a => agrees_with_machine a (b + 1))
                            (below (b + 2)))
          (below 60) = true
  /\ forallb (fun ab => agrees_with_machine (fst ab) (snd ab))
       [(1, 3); (2 ^ 53 - 1, 3); (1, 2 ^ 53 - 1); (2 ^ 52 + 1, 2 ^ 53 - 1);
        (7, 2 ^ 40 + 1); (123456789, 987654321); (2 ^ 53 - 1, 2 ^ 53 - 2);
        (2 ^ 53 - 2, 2 ^ 53 - 1)] = true.
Proof. split; vm_compute; reflexivity. Qed.

(** The percentage of a score that is within its maximum. *)
Lemma percent_of_bounds (t m : Z) :
  0 <= t <= m -> 0 < m ->
  exists p, percent_of t m = Some p /\ 0 <= p <= 100.
Proof.
  intros Ht Hm. unfold percent_of, true_div.
  assert (E : (m =? 0) = false) by (apply Z.eqb_neq; lia). rewrite E.
  assert (S : (Z.sgn t * Z.sgn m =? -1) = false).
  { apply Z.eqb_neq. rewrite (Z.sgn_pos m) by lia.
    pose proof (Z.sgn_nonneg t). lia. }
  rewrite S, (Z.abs_eq t), (Z.abs_eq m) by lia.
  destruct (round_ratio_le false t m 1) as (m1 & e1 & R1 & He1 & Hm1);
    try lia.
  { pose proof (Z.log2_le_mono t m ltac:(lia)). lia. }
  rewrite R1. unfold fmul, float_of_small.
  cbn [fneg fmant fexp xorb]. change (100 <? 0) with false.
  change (Z.abs 100) with 100.
  rewrite Z.add_0_r, (Z.max_l 0 e1), (Z.max_r 0 (- e1)) by lia.
  rewrite Z.pow_0_r, Z.mul_1_r.
  assert (P : 0 < 2 ^ (- e1)) by (apply Z.pow_pos_nonneg; lia).
  destruct (round_ratio_le false (m1 * 100) (2 ^ (- e1)) 100)
    as (m2 & e2 & R2 & He2 & Hm2); try lia.
  { rewrite Z.log2_pow2 by lia.
    destruct (Z.eq_dec m1 0) as [->|NZ]; [simpl; lia|].
    assert (Z.log2 (m1 * 100) <= Z.log2 (100 * 2 ^ (- e1)))
      by (apply Z.log2_le_mono; lia).
    rewrite Z.log2_mul_pow2 in H by lia.
    change (Z.log2 100) with 6 in H. lia. }
  rewrite R2. eexists. split; [reflexivity|].
  apply py_round_le; assumption.
Qed.

End Percent.

(** ** Scores *)

Section Scores.
Import ProcessAndCompile.

Lemma dict_get_set (q q' p : Z) (d : list (Z * Z)) :
  dict_get q (dict_set q' p d) = if q' =? q then Some p else dict_get q d.
Proof.
  induction d as [|[k v] d IH]; simpl.
  - reflexivity.
  - destruct (k =? q') eqn:E; simpl.
    + apply Z.eqb_eq in E. subst k. destruct (q' =? q); reflexivity.
    + destruct (k =? q) eqn:E2; [|exact IH].
      apply Z.eqb_eq in E2. subst k. rewrite Z.eqb_sym, E. reflexivity.
Qed.

Lemma fold_dict_get (q : Z) (questions : list answer) :
  forall d,
    dict_get q
      (fold_left (fun d (a : answer) =>
                    let '(q_num, points, _, _) := a in
                    dict_set q_num points d) questions d)
    = match last_points q questions with
      | Some x => Some x
      | None => dict_get q d
      end.
Proof.
  induction questions as [|[[[q' p] b] f] rest IH]; intros d; simpl.
  - reflexivity.
  - rewrite IH, dict_get_set.
    destruct (last_points q rest); [reflexivity|].
    destruct (q' =? q); reflexivity.
Qed.

(** Last write wins: the dictionary holds, for every question number,
    the points of its last line. *)
Lemma question_dict_last (q : Z) (questions : list answer) :
  dict_get q (question_dict questions) = last_points q questions.
Proof.
  unfold question_dict. rewrite fold_dict_get.
  destruct (last_points q questions); reflexivity.
Qed.

Lemma dict_set_values (P : Z -> Prop) (q p : Z) (d : list (Z * Z)) :
  P p -> Forall P (map snd d) -> Forall P (map snd (dict_set q p d)).
Proof.
  intros Hp. induction d as [|[k v] d IH]; simpl; intros H.
  - constructor; auto.
  - inversion H; subst. destruct (k =? q); simpl; constructor; auto.
Qed.

Lemma question_dict_values (P : Z -> Prop) (questions : list answer) :
  Forall (fun a => P (points_of a)) questions ->
  Forall P (map snd (question_dict questions)).
Proof.
  unfold question_dict. intros H.
  assert (G : forall d, Forall P (map snd d) ->
              Forall P (map snd
                (fold_left (fun d (a : answer) =>
                              let '(q_num, points, _, _) := a in
                              dict_set q_num points d) questions d))).
  { induction H as [|[[[q p] b] f] rest Ha _ IH]; intros d Hd; simpl.
    - assumption.
    - apply IH. apply dict_set_values; assumption. }
  apply G. constructor.
Qed.

Lemma sum_from (l : list Z) (a : Z) :
  fold_left Z.add l a = a + sum l.
Proof.
  unfold sum. revert a. induction l as [|x l IH]; intros a; simpl.
  - lia.
  - rewrite IH, (IH x). lia.
Qed.

Lemma sum_cons (x : Z) (l : list Z) : sum (x :: l) = x + sum l.
Proof. unfold sum at 1. simpl. apply sum_from. Qed.

Lemma fold_max_ge (l : list Z) (a : Z) :
  a <= fold_left Z.max l a /\ Forall (fun x => x <= fold_left Z.max l a) l.
Proof.
  revert a. induction l as [|x l IH]; intros a; simpl.
  - split; [lia|constructor].
  - destruct (IH (Z.max a x)) as [H1 H2]. split; [lia|].
    constructor; [lia|assumption].
Qed.

(** [max(l)] is an upper bound of [l]. *)
Lemma max_or_5_ge (l : list Z) :
  Forall (fun x => x <= max_or_5 l) l.
Proof.
  destruct l as [|x l]; simpl; [constructor|].
  destruct (fold_max_ge l x). constructor; assumption.
Qed.

(** [max(l)] is one of the elements of a non-empty [l]. *)
Lemma max_or_5_In (l : list Z) : l <> [] -> In (max_or_5 l) l.
Proof.
  destruct l as [|x l]; [congruence|]. intros _. simpl.
  revert x. induction l as [|y l IH]; intros x; simpl; [auto|].
  destruct (IH (Z.max x y)) as [H|H].
  - destruct (Z.max_spec x y) as [[_ E]|[_ E]]; rewrite E in *;
      [right; left|left]; exact H.
  - right; right; exact H.
Qed.

Lemma sum_le_length (l : list Z) (M : Z) :
  Forall (fun x => x <= M) l -> sum l <= Z.of_nat (length l) * M.
Proof.
  induction 1 as [|x l Hx _ IH].
  - unfold sum. simpl. lia.
  - rewrite sum_cons. cbn [length]. lia.
Qed.

Lemma sum_nonneg (l : list Z) : Forall (fun x => 0 <= x) l -> 0 <= sum l.
Proof.
  induction 1 as [|x l Hx _ IH].
  - unfold sum. simpl. lia.
  - rewrite sum_cons. lia.
Qed.

(** The score of answers whose points are not negative. *)
Lemma calculate_score_bounds (questions : list answer) :
  Forall (fun a => 0 <= points_of a) questions ->
  exists total_score max_score percentage total_questions,
    calculate_score questions
    = Some (total_score, max_score, percentage, total_questions)
    /\ 0 <= percentage <= 100
    /\ 0 <= total_score <= max_score.
Proof.
  intros H. unfold calculate_score.
  pose proof (question_dict_values _ _ H) as Hv.
  destruct (question_dict questions) as [|e d] eqn:E.
  - exists 0, 0, 0, 0. repeat split; lia.
  - rewrite <- E in *. clear E e d.
    set (d := question_dict questions) in *.
    pose proof (sum_le_length _ _ (max_or_5_ge (map snd d))) as B.
    rewrite length_map in B.
    pose proof (sum_nonneg _ Hv) as N.
    destruct (0 <? Z.of_nat (length d) * max_or_5 (map snd d)) eqn:P.
    + apply Z.ltb_lt in P.
      destruct (percent_of_bounds (sum (map snd d))
                  (Z.of_nat (length d) * max_or_5 (map snd d)))
        as (p & Ep & Bp); [lia|lia|].
      rewrite Ep. eexists _, _, _, _. split; [reflexivity|]. lia.
    + eexists _, _, _, _. split; [reflexivity|]. lia.
Qed.

End Scores.

(** ** The header of a completed record *)

Section Header.
Import ProcessAndCompile.

Lemma lookup_write (name body : string) (d : directory) :
  lookup name (write name body d) = Some (File (Some body)).
Proof.
  induction d as [|[n x] d IH]; simpl.
  - rewrite String.eqb_refl. reflexivity.
  - destruct (n =? name)%string eqn:E; simpl; rewrite E; auto.
Qed.

Lemma lookup_write_other (name other body : string) (d : directory) :
  other <> name ->
  lookup other (write name body d) = lookup other d.
Proof.
  intros Hne. induction d as [|[n x] d IH]; simpl.
  - apply String.eqb_neq in Hne. rewrite String.eqb_sym, Hne. reflexivity.
  - destruct (n =? name)%string eqn:E; simpl.
    + apply String.eqb_eq in E. subst n.
      apply String.eqb_neq in Hne. rewrite String.eqb_sym, Hne.
      reflexivity.
    + destruct (n =? other)%string; auto.
Qed.

Lemma split_app_lines (sep : ascii) (a b : string) :
  split sep (a ++ String sep b) = (split sep a ++ split sep b)%list.
Proof.
  induction a as [|c a IH]; simpl.
  - rewrite Ascii.eqb_refl. reflexivity.
  - destruct (Ascii.eqb c sep); [rewrite IH; reflexivity|].
    rewrite IH. destruct (split sep a) eqn:E; [|reflexivity].
    exfalso. exact (split_nonempty _ _ E).
Qed.




End Header.

(** ** Regular expressions: what a match means *)

Section Regex.

Context {R : Type}.

Lemma greedy_sound (p : ascii -> bool) (s : string) :
  forall (k : string -> string -> option R) (x : R),
    greedy p k s = Some x ->
    exists m t, s = m ++ t /\ forallb_str p m = true /\ k m t = Some x.
Proof.
  induction s as [|c s IH]; intros k x H; cbn [greedy] in H.
  - exists "", "". auto.
  - destruct (p c) eqn:Pc.
    + destruct (greedy p (fun m r => k (String c m) r) s) as [y|] eqn:G.
      * inversion H; subst y.
        destruct (IH _ _ G) as (m & t & -> & Hm & Hk).
        exists (String c m), t. cbn [forallb_str]. rewrite Pc. auto.
      * exists "", (String c s). auto.
    + exists "", (String c s). auto.
Qed.

Lemma greedy_complete (p : ascii -> bool) (m : string) :
  forall (k : string -> string -> option R) (t : string),
    forallb_str p m = true -> k m t <> None ->
    greedy p k (m ++ t) <> None.
Proof.
  induction m as [|c m IH]; intros k t Hm Hk.
  - change ("" ++ t) with t. destruct t as [|c t]; cbn [greedy]; auto.
    destruct (p c); auto.
    destruct (greedy p (fun m r => k (String c m) r) t); [discriminate|auto].
  - cbn [forallb_str] in Hm. apply andb_true_iff in Hm.
    destruct Hm as [Pc Hm].
    change (String c m ++ t) with (String c (m ++ t)). cbn [greedy].
    rewrite Pc.
    pose proof (IH (fun m r => k (String c m) r) t Hm Hk) as G.
    destruct (greedy p (fun m r => k (String c m) r) (m ++ t));
      [discriminate|congruence].
Qed.

Lemma greedy1_sound (p : ascii -> bool) (s : string)
      (k : string -> string -> option R) (x : R) :
  greedy1 p k s = Some x ->
  exists m t, s = m ++ t /\ m <> "" /\ forallb_str p m = true
              /\ k m t = Some x.
Proof.
  unfold greedy1. destruct s as [|c s]; [discriminate|].
  destruct (p c) eqn:Pc; [|discriminate]. intros H.
  destruct (greedy_sound _ _ _ _ H) as (m & t & -> & Hm & Hk).
  exists (String c m), t. cbn [forallb_str]. rewrite Pc.
  repeat split; auto. discriminate.
Qed.

Lemma greedy1_complete (p : ascii -> bool) (m t : string)
      (k : string -> string -> option R) :
  m <> "" -> forallb_str p m = true -> k m t <> None ->
  greedy1 p k (m ++ t) <> None.
Proof.
  destruct m as [|c m]; [congruence|]. intros _ Hm Hk.
  cbn [forallb_str] in Hm. apply andb_true_iff in Hm.
  destruct Hm as [Pc Hm].
  change (String c m ++ t) with (String c (m ++ t)).
  unfold greedy1. rewrite Pc.
  apply (greedy_complete p m (fun m r => k (String c m) r) t Hm Hk).
Qed.

End Regex.

Section RegexMatch.

(** What [re.match] returns is a reading of a prefix. *)
Lemma match_items_sound (items : list item) :
  forall s gs, match_items items s = Some gs -> parses items s gs.
Proof.
  induction items as [|it rest IH]; intros s gs H.
  - simpl in H. inversion H. reflexivity.
  - destruct it as [l|k|k|k]; cbn [match_items] in H; cbn [parses].
    + destruct (String.prefix l s) eqn:P; [|discriminate].
      destruct (prefix_split _ _ P) as [t ->].
      exists t. split; [reflexivity|]. apply IH.
      rewrite <- H. f_equal. symmetry. apply drop_app.
    + destruct (greedy_sound _ _ _ _ H) as (m & t & -> & Hm & Hk).
      exists m, t. repeat split; auto.
    + destruct (greedy1_sound _ _ _ _ H) as (m & t & -> & Hne & Hm & Hk).
      exists m, t. repeat split; auto.
    + destruct (greedy1_sound _ _ _ _ H) as (m & t & -> & Hne & Hm & Hk).
      cbv beta in Hk.
      destruct (match_items rest t) as [gs'|] eqn:E; [|discriminate].
      inversion Hk; subst gs. exists m, t, gs'. repeat split; auto.
Qed.

(** Whenever a prefix is a word of the pattern, [re.match] finds a
    match. *)
Lemma match_items_complete (items : list item) :
  forall s, accepts items s -> match_items items s <> None.
Proof.
  induction items as [|it rest IH]; intros s [gs H].
  - simpl. discriminate.
  - destruct it as [l|k|k|k]; cbn [match_items]; cbn [parses] in H.
    + destruct H as (t & -> & H). rewrite prefix_app.
      replace (drop (len l) (l ++ t)) with t by (symmetry; apply drop_app).
      apply IH. exists gs. exact H.
    + destruct H as (m & t & -> & Hm & H).
      apply greedy_complete; [exact Hm|]. apply IH. exists gs. exact H.
    + destruct H as (m & t & -> & Hne & Hm & H).
      apply greedy1_complete; auto. apply IH. exists gs. exact H.
    + destruct H as (m & t & gs' & -> & Hne & Hm & -> & H).
      apply greedy1_complete; auto.
      pose proof (IH t (ex_intro _ gs' H)) as N.
      destruct (match_items rest t); [discriminate|congruence].
Qed.

Lemma match_items_iff (items : list item) (s : string) :
  match_items items s <> None <-> accepts items s.
Proof.
  split.
  - destruct (match_items items s) as [gs|] eqn:E; [|congruence].
    intros _. exists gs. apply match_items_sound, E.
  - apply match_items_complete.
Qed.

(** What [re.search] returns is a match somewhere in the string. *)
Lemma search_sound (items : list item) (s : string) (gs : list string) :
  search items s = Some gs ->
  exists a b, s = a ++ b /\ match_items items b = Some gs.
Proof.
  induction s as [|c s IH]; cbn [search].
  - destruct (match_items items "") eqn:E; [|discriminate].
    intros H. inversion H; subst. exists "", "". auto.
  - destruct (match_items items (String c s)) eqn:E.
    + intros H. inversion H; subst. exists "", (String c s). auto.
    + intros H. destruct (IH H) as (a & b & -> & M).
      exists (String c a), b. auto.
Qed.

End RegexMatch.

(** ** The class summary *)

Section Summary.
Import ProcessAndCompile.

Lemma split1_nonempty (sep : ascii) (s : string) : split1 sep s <> [].
Proof.
  destruct s as [|c s]; simpl; [discriminate|].
  destruct (Ascii.eqb c sep); [discriminate|].
  destruct (split1 sep s); discriminate.
Qed.

(** The group of [\d+] is a number for [int] when it is within the
    limit, and makes [int] raise when it is not. *)
Lemma digit_group_int (g : string) :
  g <> "" -> all_in Digit g = true -> int_fits g = true ->
  exists v, py_int g = Some v /\ 0 <= v.
Proof. intros Hne H F. apply py_int_digits; assumption. Qed.

Lemma digit_group_long (g : string) :
  all_in Digit g = true -> int_fits g = false -> py_int g = None.
Proof. intros H F. apply py_int_long; assumption. Qed.

Lemma digit_group_cases (g : string) :
  g <> "" -> all_in Digit g = true ->
  (int_fits g = true /\ exists v, py_int g = Some v /\ 0 <= v)
  \/ (int_fits g = false /\ py_int g = None).
Proof.
  intros Hne H. destruct (int_fits g) eqn:F.
  - left. split; [reflexivity|]. now apply digit_group_int.
  - right. split; [reflexivity|]. now apply digit_group_long.
Qed.

(** The three patterns of the summary line capture one group of digits. *)
Lemma field_group (items : list item) (line : string) (gs : list string) :
  items = score_re \/ items = max_re \/ items = pct_re ->
  search items line = Some gs ->
  exists g gs', gs = g :: gs' /\ g <> "" /\ all_in Digit g = true.
Proof.
  intros I E. destruct (search_sound _ _ _ E) as (a & b & _ & M).
  apply match_items_sound in M.
  destruct I as [->|[->| ->]]; cbn [parses score_re max_re pct_re] in M;
    destruct M as (t & _ & m & t' & _ & _ & g & t'' & gs' & _ & Hne & Hg
                   & -> & _); eauto.
Qed.

(** [int(m.group(1)) if m else old] on one of the three patterns. *)
Lemma int_group_cases (items : list item) (line : string) (old : Z) :
  items = score_re \/ items = max_re \/ items = pct_re ->
  (overlong items line = false
   /\ exists v, int_group (search items line) old = Some v
                /\ (search items line = None -> v = old))
  \/ (overlong items line = true
      /\ int_group (search items line) old = None).
Proof.
  intros I. unfold overlong.
  destruct (search items line) as [gs|] eqn:E.
  - destruct (field_group _ _ _ I E) as (g & gs' & -> & Hne & Hg).
    cbn [int_group].
    destruct (digit_group_cases g Hne Hg) as [[F (v & V & _)]|[F V]];
      rewrite F; cbn [negb]; [left|right]; split; auto.
    exists v. split; [exact V|discriminate].
  - left. split; [reflexivity|]. exists old. auto.
Qed.

(** One line of the header loop raises exactly when it is a summary
    line with a number beyond the limit of [int]. *)
Lemma header_line_none (f : header_fields) (line : string) :
  header_line f line = None <-> raising_line line = true.
Proof.
  unfold header_line, raising_line, summary_line.
  destruct (startswith "Student:" line) eqn:S.
  - destruct (split1 " " (strip (replace "Student:" "" line)))
      as [|p0 rest] eqn:E; [exfalso; exact (split1_nonempty _ _ E)|].
    cbn [negb andb]. split; discriminate.
  - cbn [negb andb].
    destruct (contains "Total Questions:" line && contains "Score:" line)
      eqn:C; [|cbn [andb]; split; discriminate].
    cbn [andb].
    destruct (int_group_cases score_re line (h_total_score f)
                ltac:(auto)) as [[O1 (t & -> & _)]|[O1 ->]];
      rewrite O1; [|split; reflexivity].
    destruct (int_group_cases max_re line (h_max_score f)
                ltac:(auto)) as [[O2 (m & -> & _)]|[O2 ->]];
      rewrite O2; [|split; reflexivity].
    destruct (int_group_cases pct_re line (h_percentage f)
                ltac:(auto)) as [[O3 (p & -> & _)]|[O3 ->]];
      rewrite O3; [|split; reflexivity].
    split; discriminate.
Qed.

(** A line of the header loop that does not raise changes the student
    fields only if it starts with [Student:], the score fields only if it
    is a summary line, and each score field only if its pattern is found
    on the line. *)
Lemma header_line_some (f f' : header_fields) (line : string) :
  header_line f line = Some f' ->
  (startswith "Student:" line = false ->
   h_student_id f' = h_student_id f
   /\ h_student_name f' = h_student_name f)
  /\ (startswith "Student:" line = true -> h_student_id f' <> None)
  /\ (summary_line line = false \/ search score_re line = None ->
      h_total_score f' = h_total_score f)
  /\ (summary_line line = false \/ search max_re line = None ->
      h_max_score f' = h_max_score f)
  /\ (summary_line line = false \/ search pct_re line = None ->
      h_percentage f' = h_percentage f).
Proof.
  unfold header_line, summary_line.
  destruct (startswith "Student:" line) eqn:S.
  - destruct (split1 " " (strip (replace "Student:" "" line)))
      as [|p0 rest] eqn:E; [discriminate|].
    intros H. inversion H; subst f'. cbn.
    repeat split; intros; congruence.
  - cbn [negb andb].
    destruct (contains "Total Questions:" line && contains "Score:" line)
      eqn:C.
    + destruct (int_group_cases score_re line (h_total_score f)
                  ltac:(auto)) as [[_ (t & -> & T)]|[_ ->]];
        [|discriminate].
      destruct (int_group_cases max_re line (h_max_score f)
                  ltac:(auto)) as [[_ (m & -> & M)]|[_ ->]];
        [|discriminate].
      destruct (int_group_cases pct_re line (h_percentage f)
                  ltac:(auto)) as [[_ (p & -> & P)]|[_ ->]];
        [|discriminate].
      intros H. inversion H; subst f'. cbn.
      repeat split; try congruence;
        intros [X|X]; try discriminate X; auto.
    + intros H. inversion H; subst f'. repeat split; intros; congruence.
Qed.

(** The header loop raises exactly when one of the lines does. *)
Lemma header_loop_none (lines : list string) :
  forall f, header_loop f lines = None <-> existsb raising_line lines = true.
Proof.
  induction lines as [|l lines IH]; intros f; cbn [header_loop existsb].
  - split; discriminate.
  - destruct (header_line f l) as [f1|] eqn:E.
    + assert (R : raising_line l = false).
      { destruct (raising_line l) eqn:R; [|reflexivity].
        apply (header_line_none f) in R. congruence. }
      rewrite R. cbn [orb]. apply IH.
    + apply header_line_none in E. rewrite E. cbn [orb]. tauto.
Qed.

(** What the header loop returns, when it returns. *)
Lemma header_loop_some (lines : list string) :
  forall f f',
    header_loop f lines = Some f' ->
    ((forall l, In l lines -> startswith "Student:" l = false) ->
     h_student_id f' = h_student_id f
     /\ h_student_name f' = h_student_name f)
    /\ ((forall l, In l lines ->
                   summary_line l = false \/ search score_re l = None) ->
        h_total_score f' = h_total_score f)
    /\ ((forall l, In l lines ->
                   summary_line l = false \/ search max_re l = None) ->
        h_max_score f' = h_max_score f)
    /\ ((forall l, In l lines ->
                   summary_line l = false \/ search pct_re l = None) ->
        h_percentage f' = h_percentage f)
    /\ (h_student_id f' <> None ->
        h_student_id f <> None
        \/ exists l, In l lines /\ startswith "Student:" l = true).
Proof.
  induction lines as [|l lines IH]; intros f f'; cbn [header_loop].
  - intros H. inversion H; subst f'. repeat split; auto.
  - destruct (header_line f l) as [f1|] eqn:E1; [|discriminate].
    intros E.
    destruct (header_line_some _ _ _ E1) as (A1 & A2 & A3 & A4 & A5).
    destruct (IH _ _ E) as (B1 & B2 & B3 & B4 & B5).
    repeat split.
    + destruct B1 as [X _]; [intros; apply H; right; auto|].
      destruct A1 as [Y _]; [apply H; left; auto|]. congruence.
    + destruct B1 as [_ X]; [intros; apply H; right; auto|].
      destruct A1 as [_ Y]; [apply H; left; auto|]. congruence.
    + intros H. rewrite B2 by (intros; apply H; right; auto).
      apply A3, H. left. reflexivity.
    + intros H. rewrite B3 by (intros; apply H; right; auto).
      apply A4, H. left. reflexivity.
    + intros H. rewrite B4 by (intros; apply H; right; auto).
      apply A5, H. left. reflexivity.
    + intros N. destruct (B5 N) as [N1|(l' & I & S)].
      * destruct (startswith "Student:" l) eqn:S.
        -- right. exists l. split; [left; reflexivity|exact S].
        -- left. destruct (A1 eq_refl) as [X _]. congruence.
      * right. exists l'. split; [right; exact I|exact S].
Qed.

(** A body from which a student key was extracted is headed. *)
Lemma student_key_headed (content : string) (f : header_fields) :
  extract_header_fields content = Some f ->
  h_student_id f <> None -> has_header content = true.
Proof.
  unfold extract_header_fields. intros E N.
  destruct (header_loop_some _ _ _ E) as (_ & _ & _ & _ & B).
  destruct (B N) as [X|(l & I & S)]; [exfalso; apply X; reflexivity|].
  destruct (split_In _ _ _ I) as (a & b & ->).
  unfold has_header.
  assert (C : contains "Student:" (a ++ l ++ b) = true).
  { apply contains_app_r, contains_app_l, contains_here. exact S. }
  rewrite C. rewrite !orb_true_r. reflexivity.
Qed.

(** The names the two scripts take for records are the same ones. *)
Lemma extract_info_parse (filename c s t : string) :
  startswith "SpeakingTest_" filename = true ->
  endswith ".txt" filename = true ->
  extract_info_from_filename filename = Some (c, s, t) ->
  FindDuplicates.parse_filename filename = Some (c, s, t, filename).
Proof.
  unfold extract_info_from_filename, FindDuplicates.parse_filename.
  intros -> ->. cbn [negb orb].
  destruct (split "_" (replace ".txt" "" filename))
    as [|p0 [|p1 [|p2 [|p3 l]]]]; try discriminate.
  destruct (p0 =? "SpeakingTest")%string; [|discriminate].
  intros H. inversion H. reflexivity.
Qed.

Lemma entry_qualifies (filename : string) (x : node) (e : entry) :
  name_selected filename = true -> entry_of filename x = Some e ->
  qualifying filename x.
Proof.
  unfold name_selected, entry_of. intros S E.
  apply andb_true_iff in S. destruct S as [S Sm].
  apply andb_true_iff in S. destruct S as [Ss Se].
  apply negb_true_iff, orb_false_iff in Sm. destruct Sm as [Mu Mp].
  destruct (read x) as [content|] eqn:Rd; [|discriminate].
  destruct (extract_header_fields content) as [f|] eqn:X; [|discriminate].
  destruct (h_student_id f) as [sid|] eqn:Sid; [|discriminate].
  destruct (extract_info_from_filename filename) as [[[c s] t]|] eqn:I;
    [|discriminate].
  unfold qualifying. split; [|split; [exact Mu|split; [exact Mp|]]].
  - rewrite (extract_info_parse _ _ _ _ Ss Se I). discriminate.
  - exists content. split; [exact Rd|].
    apply (student_key_headed _ _ X). congruence.
Qed.

Lemma collect_empty (d : directory) :
  (forall filename x, In (filename, x) d -> ~ qualifying filename x) ->
  collect d = [].
Proof.
  induction d as [|[filename x] d IH]; intros H; cbn [collect].
  - reflexivity.
  - rewrite IH by (intros; apply H; right; assumption).
    destruct (name_selected filename) eqn:S; [|reflexivity].
    destruct (entry_of filename x) as [e|] eqn:E; [|reflexivity].
    exfalso. apply (H filename x (or_introl eq_refl)).
    exact (entry_qualifies _ _ _ S E).
Qed.

End Summary.

(** ** Answer lines *)

Section Answers.
Import ProcessAndCompile.

Lemma andthen_some (x : option string) (f : string -> option string)
      (r : string) :
  andthen x f = Some r -> exists y, x = Some y /\ f y = Some r.
Proof. destruct x as [y|]; simpl; [eauto|discriminate]. Qed.

Lemma after_some (p s r : string) : after p s = Some r -> s = p ++ r.
Proof.
  unfold after. destruct (String.prefix p s) eqn:P; [|discriminate].
  intros H. inversion H. destruct (prefix_split _ _ P) as [t ->].
  rewrite drop_app. reflexivity.
Qed.

Lemma skip_digits_split (s : string) :
  exists d, s = d ++ skip_digits s /\ forallb_str is_digit d = true.
Proof.
  induction s as [|c s IH]; simpl.
  - exists "". auto.
  - destruct (is_digit c) eqn:D.
    + destruct IH as (d & E & Hd). exists (String c d). split.
      * change (String c d ++ skip_digits s)
          with (String c (d ++ skip_digits s)). congruence.
      * cbn [forallb_str]. rewrite D. exact Hd.
    + exists "". auto.
Qed.

Lemma int_token_some (s r : string) :
  int_token s = Some r ->
  exists d, s = d ++ r /\ d <> "" /\ all_in Digit d = true.
Proof.
  destruct s as [|c s]; simpl; [discriminate|].
  destruct (is_digit c) eqn:D; [|discriminate].
  intros H. inversion H.
  destruct (skip_digits_split s) as (d & E & Hd).
  exists (String c d). split; [|split].
  - change (String c d ++ skip_digits s)
      with (String c (d ++ skip_digits s)). congruence.
  - discriminate.
  - unfold all_in. cbn [forallb_str in_cls]. rewrite D. exact Hd.
Qed.

Lemma bit_token_some (s r : string) :
  bit_token s = Some r ->
  exists c, s = String c r /\ is_digit c = true.
Proof.
  destruct s as [|c s]; simpl; [discriminate|].
  destruct (Ascii.eqb c "0") eqn:E0.
  - apply Ascii.eqb_eq in E0. subst c. intros H. inversion H.
    exists "0"%char. auto.
  - destruct (Ascii.eqb c "1") eqn:E1; [|discriminate].
    apply Ascii.eqb_eq in E1. subst c. intros H. inversion H.
    exists "1"%char. auto.
Qed.

Lemma rstrip_keeps (c : ascii) (s : string) :
  is_space c = false -> exists r, rstrip (String c s) = String c r.
Proof.
  intros H. simpl. destruct (rstrip s); [rewrite H|]; eauto.
Qed.

Lemma rstrip_app (a b : string) :
  rstrip b <> "" -> rstrip (a ++ b) = a ++ rstrip b.
Proof.
  intros H. induction a as [|c a IH]; [reflexivity|].
  change (String c a ++ b) with (String c (a ++ b)).
  cbn [rstrip]. rewrite IH.
  change (String c a ++ rstrip b) with (String c (a ++ rstrip b)).
  destruct (a ++ rstrip b) eqn:E; [|reflexivity].
  exfalso. destruct a; simpl in E; [auto|discriminate].
Qed.

(** A line that [re.match] accepts gives an entry, or raises when one
    of its two numbers is beyond the limit of [int]; any other line is
    passed over. *)
Lemma parse_line_cases (line : string) :
  (accepts question_re (strip line) /\ long_number line = false
   /\ exists a, parse_line line = Entry a /\ 0 <= points_of a)
  \/ (accepts question_re (strip line) /\ long_number line = true
      /\ parse_line line = Raised)
  \/ (~ accepts question_re (strip line) /\ long_number line = false
      /\ parse_line line = Skipped).
Proof.
  unfold parse_line, long_number.
  destruct (match_items question_re (strip line)) as [gs|] eqn:M.
  - pose proof (match_items_sound _ _ _ M) as P.
    assert (A : accepts question_re (strip line)) by (exists gs; exact P).
    cbn [parses question_re] in P.
    destruct P as (t0 & E0 & w1 & t1 & _ & _ & _ &
                   g1 & t2 & gs1 & _ & N1 & D1 & -> &
                   t3 & _ & w2 & t4 & _ & _ & _ &
                   g2 & t5 & gs2 & _ & N2 & D2 & -> &
                   w3 & t6 & _ & _ & _ & t7 & _ &
                   w4 & t8 & _ & _ & _ &
                   g3 & t9 & gs3 & _ & _ & _ & -> &
                   w5 & t10 & _ & _ & _ &
                   g4 & t11 & gs4 & _ & _ & _ & -> & ->).
    unfold startswith. rewrite E0, prefix_app. rewrite E0 in A.
    destruct (digit_group_cases g1 N1 D1) as [[F1 (q & -> & _)]|[F1 ->]];
      rewrite F1; cbn [negb orb];
      [|right; left; repeat split; auto].
    destruct (digit_group_cases g2 N2 D2) as [[F2 (p & -> & Hp)]|[F2 ->]];
      rewrite F2; cbn [negb orb];
      [|right; left; repeat split; auto].
    left. split; [exact A|]. split; [reflexivity|].
    eexists. split; [reflexivity|exact Hp].
  - right. right. split; [|split; [reflexivity|]].
    + intros A. apply match_items_complete in A. congruence.
    + destruct (startswith "Question" (strip line)); reflexivity.
Qed.

(** The loop over the lines returns the answers of the lines when no
    line raises, and raises when a line does. *)
Lemma parse_lines_entries (lines : list string) :
  existsb long_number lines = false ->
  parse_lines lines = Some (entries_of lines).
Proof.
  induction lines as [|l lines IH]; [reflexivity|].
  cbn [parse_lines entries_of flat_map existsb]. fold (entries_of lines).
  intros H. apply orb_false_iff in H. destruct H as [Hl H].
  destruct (parse_line_cases l)
    as [(_ & _ & a & -> & _)|[(_ & L & _)|(_ & _ & ->)]].
  - rewrite (IH H). reflexivity.
  - congruence.
  - exact (IH H).
Qed.

Lemma parse_lines_raised (lines : list string) :
  existsb long_number lines = true -> parse_lines lines = None.
Proof.
  induction lines as [|l lines IH]; [discriminate|].
  cbn [parse_lines existsb]. intros H.
  destruct (parse_line_cases l)
    as [(_ & L & a & -> & _)|[(_ & _ & ->)|(_ & L & ->)]];
    try reflexivity; rewrite L in H; cbn [orb] in H; rewrite (IH H);
    reflexivity.
Qed.

Lemma parse_lines_some (lines : list string) (q : list answer) :
  parse_lines lines = Some q -> q = entries_of lines.
Proof.
  intros H. destruct (existsb long_number lines) eqn:E.
  - rewrite (parse_lines_raised _ E) in H. discriminate.
  - rewrite (parse_lines_entries _ E) in H. congruence.
Qed.

(** The points of a decoded answer are never negative: [\d+] has no
    sign. *)
Lemma entries_nonneg (lines : list string) :
  Forall (fun a => 0 <= points_of a) (entries_of lines).
Proof.
  induction lines as [|l lines IH]; [constructor|].
  cbn [entries_of flat_map]. fold (entries_of lines).
  destruct (parse_line_cases l)
    as [(_ & _ & a & -> & Ha)|[(_ & _ & ->)|(_ & _ & ->)]].
  - constructor; assumption.
  - exact IH.
  - exact IH.
Qed.

Lemma digit_in_classes (c : ascii) :
  is_digit c = true ->
  in_cls DigitOrSpace c = true /\ in_cls AnyChar c = true.
Proof.
  destruct c as [[] [] [] [] [] [] [] []]; vm_compute; intros H;
    split; congruence.
Qed.

(** A line of the specification's shape, cut before its fifth token:
    [re.match] accepts it whatever follows that token. *)
Lemma shape_accepted (q p : string) (b1 b2 b3 b4 b5 : ascii)
      (tail : string) :
  q <> "" -> all_in Digit q = true -> p <> "" -> all_in Digit p = true ->
  is_digit b1 = true -> is_digit b2 = true -> is_digit b3 = true ->
  is_digit b4 = true -> is_digit b5 = true ->
  accepts question_re
    ("Question " ++ q ++ ": " ++ p ++ " = "
     ++ String b1 (String " " (String b2 (String " " (String b3
        (String " " (String b4 (String " " (String b5 tail))))))))).
Proof.
  intros Nq Dq Np Dp B1 B2 B3 B4 B5.
  destruct (digit_in_classes _ B1) as [C1 _].
  destruct (digit_in_classes _ B2) as [C2 _].
  destruct (digit_in_classes _ B3) as [C3 _].
  destruct (digit_in_classes _ B4) as [C4 _].
  destruct (digit_in_classes _ B5) as [_ C5].
  exists [q; p; String b1 (String " " (String b2 (String " "
            (String b3 (String " " (String b4 ""))))));
          String b5 ""].
  cbn [parses question_re].
  eexists. split; [reflexivity|].
  exists " ". eexists. split; [reflexivity|].
  split; [discriminate|]. split; [reflexivity|].
  exists q. eexists. eexists. split; [reflexivity|].
  split; [exact Nq|]. split; [exact Dq|]. split; [reflexivity|].
  eexists. split; [reflexivity|].
  exists " ". eexists. split; [reflexivity|].
  split; [discriminate|]. split; [reflexivity|].
  exists p. eexists. eexists. split; [reflexivity|].
  split; [exact Np|]. split; [exact Dp|]. split; [reflexivity|].
  exists " ". eexists. split; [reflexivity|].
  split; [discriminate|]. split; [reflexivity|].
  eexists. split; [reflexivity|].
  exists " ". eexists. split; [reflexivity|].
  split; [discriminate|]. split; [reflexivity|].
  exists (String b1 (String " " (String b2 (String " "
            (String b3 (String " " (String b4 ""))))))).
  eexists. eexists. split; [reflexivity|].
  split; [discriminate|].
  split; [unfold all_in; cbn [forallb_str]; rewrite C1, C2, C3, C4;
          reflexivity|].
  split; [reflexivity|].
  exists " ". eexists. split; [reflexivity|].
  split; [discriminate|]. split; [reflexivity|].
  exists (String b5 ""), tail. eexists. split; [reflexivity|].
  split; [discriminate|].
  split; [unfold all_in; cbn [forallb_str]; rewrite C5; reflexivity|].
  split; reflexivity.
Qed.

(** Every line of the specification's shape is one [re.match]
    accepts. *)
Lemma spec_shape_accepted (line : string) :
  spec_shape line = true -> accepts question_re (strip line).
Proof.
  unfold spec_shape.
  destruct (andthen (after "Question " line) _) as [label|] eqn:E;
    [|discriminate].
  intros _.
  repeat match type of E with
         | andthen _ _ = Some _ =>
             apply andthen_some in E;
             let y := fresh "r" in
             let H := fresh "H" in
             destruct E as (y & H & E)
         end.
  apply after_some in H, H1, H3, H5, H7, H9, H11, E.
  apply int_token_some in H0, H2.
  apply bit_token_some in H4, H6, H8, H10, H12.
  destruct H0 as (q & -> & Nq & Dq). destruct H2 as (p & -> & Np & Dp).
  destruct H4 as (b1 & -> & B1). destruct H6 as (b2 & -> & B2).
  destruct H8 as (b3 & -> & B3). destruct H10 as (b4 & -> & B4).
  destruct H12 as (b5 & -> & B5).
  destruct (rstrip_keeps b5 (" " ++ label) (digit_not_space _ B5))
    as [tail Et].
  set (A := "Question " ++ q ++ ": " ++ p ++ " = "
            ++ String b1 (String " " (String b2 (String " " (String b3
               (String " " (String b4 " "))))))).
  assert (EL : line = A ++ String b5 (" " ++ label)).
  { subst. unfold A. rewrite !app_assoc_str. reflexivity. }
  assert (ES : strip line = A ++ String b5 tail).
  { rewrite EL. unfold strip.
    replace (lstrip (A ++ String b5 (" " ++ label)))
      with (A ++ String b5 (" " ++ label)) by reflexivity.
    rewrite rstrip_app; rewrite Et; [reflexivity|discriminate]. }
  rewrite ES. unfold A. rewrite !app_assoc_str.
  apply shape_accepted; assumption.
Qed.

End Answers.

(** ** Quarantine names *)

Section Quarantine.
Import FindDuplicates.

Lemma exists_in_In (name : string) (d : directory) :
  exists_in name d = true <-> In name (names d).
Proof.
  unfold exists_in. induction d as [|[n x] d IH]; simpl.
  - split; [discriminate|tauto].
  - destruct (n =? name)%string eqn:E.
    + apply String.eqb_eq in E. split; auto.
    + apply String.eqb_neq in E. rewrite IH. split; [auto|].
      intros [H|H]; [congruence|exact H].
Qed.

Lemma exists_in_app (name : string) (d d' : directory) :
  exists_in name (d ++ d')%list = exists_in name d || exists_in name d'.
Proof.
  unfold exists_in. induction d as [|[n x] d IH]; simpl; [reflexivity|].
  destruct (n =? name)%string; [reflexivity|exact IH].
Qed.

Lemma str_of_nat_inj (j k : nat) : str_of_nat j = str_of_nat k -> j = k.
Proof.
  unfold str_of_nat. intros H.
  apply (f_equal NilEmpty.uint_of_string) in H.
  rewrite !NilEmpty.usu in H. inversion H as [E].
  rewrite <- (Unsigned.of_to j), <- (Unsigned.of_to k), E. reflexivity.
Qed.

Lemma candidate_inj (base ext : string) : Injective (candidate base ext).
Proof.
  intros j k H. unfold candidate in H.
  apply app_inv_head_str in H. apply (app_inv_head_str "_dup") in H.
  apply app_inv_tail_str in H. apply str_of_nat_inj, H.
Qed.

Lemma free_dest_none (base ext : string) (dups : directory) (fuel : nat) :
  forall counter,
    free_dest fuel counter base ext dups = None ->
    incl (map (candidate base ext) (seq counter fuel)) (names dups).
Proof.
  induction fuel as [|fuel IH]; intros counter H; simpl.
  - intros x [].
  - cbn [free_dest] in H. fold (candidate base ext counter) in H.
    destruct (exists_in (candidate base ext counter) dups) eqn:E;
      [|discriminate].
    intros x [<-|Hx]; [apply exists_in_In, E|exact (IH _ H x Hx)].
Qed.

(** The loop ends: among one name more than the folder has entries,
    one is free. *)
Lemma free_dest_total (base ext : string) (dups : directory) :
  free_dest (S (length dups)) 1 base ext dups <> None.
Proof.
  intros H. apply free_dest_none in H.
  apply NoDup_incl_length in H.
  - rewrite length_map, length_seq in H. unfold names in H.
    rewrite length_map in H. lia.
  - apply Injective_map_NoDup; [apply candidate_inj|apply seq_NoDup].
Qed.

Lemma free_dest_fresh (base ext : string) (dups : directory) (fuel : nat) :
  forall counter dest,
    free_dest fuel counter base ext dups = Some dest ->
    exists_in dest dups = false.
Proof.
  induction fuel as [|fuel IH]; intros counter dest H; [discriminate|].
  cbn [free_dest] in H.
  destruct (exists_in (base ++ "_dup" ++ str_of_nat counter ++ ext) dups)
    eqn:E; [exact (IH _ _ H)|].
  inversion H; subst. exact E.
Qed.

(** The destination chosen in the Duplicates folder is never a name
    that is already there. *)
Lemma dest_path_fresh (filename : string) (dups : directory) :
  exists_in (dest_path filename dups) dups = false.
Proof.
  unfold dest_path. destruct (exists_in filename dups) eqn:E; [|exact E].
  destruct (splitext filename) as [base ext].
  destruct (free_dest (S (length dups)) 1 base ext dups) as [dest|] eqn:F.
  - exact (free_dest_fresh _ _ _ _ _ _ F).
  - exfalso. exact (free_dest_total _ _ _ F).
Qed.

(** A name that is free is kept as it is. *)
Lemma dest_path_free (filename : string) (dups : directory) :
  exists_in filename dups = false -> dest_path filename dups = filename.
Proof. unfold dest_path. intros ->. reflexivity. Qed.

End Quarantine.

(** ** The Duplicate Resolver *)

Section Resolver.
Import FindDuplicates.

Lemma scan_entry_info (sf : list (key * list file_info))
      (e : string * node) :
  scan_entry sf e =
  match info_of e with Some i => add_info sf i | None => sf end.
Proof.
  destruct e as [filename x]. unfold scan_entry, info_of.
  destruct (negb (is_file x)); [reflexivity|].
  destruct (contains "_PROCESSED.txt" filename); [reflexivity|].
  destruct (parse_filename filename) as [[[[c s] t] f]|]; reflexivity.
Qed.

Lemma scan_infos (d : directory) :
  forall sf, fold_left scan_entry d sf = fold_left add_info (infos d) sf.
Proof.
  induction d as [|e d IH]; intros sf; [reflexivity|].
  cbn [fold_left infos flat_map]. fold (infos d).
  rewrite scan_entry_info, fold_left_app.
  destruct (info_of e); apply IH.
Qed.

Lemma scan_group (d : directory) : scan d = group (infos d).
Proof. apply scan_infos. Qed.

Lemma key_eqb_eq (a b : key) : key_eqb a b = true <-> a = b.
Proof.
  destruct a as [a1 a2], b as [b1 b2]. unfold key_eqb. cbn [fst snd].
  rewrite andb_true_iff, !String.eqb_eq. split.
  - intros [-> ->]. reflexivity.
  - intros H. inversion H. auto.
Qed.

Lemma key_eqb_refl (a : key) : key_eqb a a = true.
Proof. apply key_eqb_eq. reflexivity. Qed.

Lemma key_eqb_neq (a b : key) : key_eqb a b = false <-> a <> b.
Proof.
  rewrite <- key_eqb_eq. destruct (key_eqb a b); split; congruence.
Qed.

Lemma dict_append_keys (k : key) (v : file_info)
      (sf : list (key * list file_info)) :
  map fst (dict_append k v sf)
  = if existsb (key_eqb k) (map fst sf) then map fst sf
    else (map fst sf ++ [k])%list.
Proof.
  induction sf as [|[k0 vs0] sf IH]; [reflexivity|].
  cbn [dict_append map fst existsb].
  destruct (key_eqb k k0); [reflexivity|].
  cbn [map fst orb]. rewrite IH.
  destruct (existsb (key_eqb k) (map fst sf)); reflexivity.
Qed.

Lemma existsb_key (k : key) (ks : list key) :
  existsb (key_eqb k) ks = true <-> In k ks.
Proof.
  rewrite existsb_exists. split.
  - intros (x & I & E). apply key_eqb_eq in E. subst. exact I.
  - intros I. exists k. split; [exact I|apply key_eqb_refl].
Qed.

Lemma dict_append_In (k : key) (v : file_info)
      (sf : list (key * list file_info)) :
  NoDup (map fst sf) ->
  forall k' vs',
    In (k', vs') (dict_append k v sf) ->
    (k' <> k /\ In (k', vs') sf)
    \/ (k' = k
        /\ ((exists vs, In (k, vs) sf /\ vs' = (vs ++ [v])%list)
            \/ (~ In k (map fst sf) /\ vs' = [v]))).
Proof.
  induction sf as [|[k0 vs0] sf IH]; intros ND k' vs' H.
  - destruct H as [H|[]]. inversion H; subst. right. split; auto.
  - cbn [dict_append] in H. inversion ND as [|? ? N0 ND']; subst.
    destruct (key_eqb k k0) eqn:E.
    + apply key_eqb_eq in E. subst k0. destruct H as [H|H].
      * inversion H; subst. right. split; [reflexivity|]. left.
        exists vs0. split; [left; reflexivity|reflexivity].
      * left. split; [|right; exact H].
        intros ->. apply N0. apply in_map_iff.
        exists (k, vs'). auto.
    + apply key_eqb_neq in E. destruct H as [H|H].
      * inversion H; subst. left. split; [congruence|left; reflexivity].
      * destruct (IH ND' _ _ H) as [[N I]|[-> [(vs & I & ->)|[N ->]]]].
        -- left. split; [exact N|right; exact I].
        -- right. split; [reflexivity|]. left. exists vs.
           split; [right; exact I|reflexivity].
        -- right. split; [reflexivity|]. right.
           split; [|reflexivity]. cbn [map fst]. intros [X|X]; auto.
Qed.

Lemma bucket_snoc (k : key) (l : list file_info) (i : file_info) :
  bucket k (l ++ [i])
  = (bucket k l ++ if key_eqb (key_of i) k then [i] else [])%list.
Proof. unfold bucket. rewrite filter_app. reflexivity. Qed.

Lemma add_info_grouped (sf : list (key * list file_info))
      (l : list file_info) (i : file_info) :
  grouped sf l -> grouped (add_info sf i) (l ++ [i]).
Proof.
  intros (ND & B & C). unfold add_info.
  split; [|split; [intros k vs H; split|]].
  - rewrite dict_append_keys.
    destruct (existsb (key_eqb (key_of i)) (map fst sf)) eqn:E;
      [exact ND|].
    apply NoDup_app; [exact ND|repeat constructor; auto|].
    intros a Ia [<-|[]].
    apply existsb_key in Ia. congruence.
  - destruct (dict_append_In _ _ _ ND _ _ H)
      as [[N I]|[-> [(vs0 & I & ->)|[N ->]]]].
    + rewrite bucket_snoc.
      assert (E : key_eqb (key_of i) k = false)
        by (apply key_eqb_neq; congruence).
      rewrite E, app_nil_r. apply (B _ _ I).
    + rewrite bucket_snoc, key_eqb_refl.
      destruct (B _ _ I) as [-> _]. reflexivity.
    + rewrite bucket_snoc, key_eqb_refl.
      assert (E : bucket (key_of i) l = []).
      { unfold bucket.
        destruct (filter _ l) as [|j r] eqn:F; [reflexivity|].
        exfalso. assert (Ij : In j (filter
                  (fun i0 => key_eqb (key_of i0) (key_of i)) l))
          by (rewrite F; left; reflexivity).
        apply filter_In in Ij. destruct Ij as [Ij Kj].
        apply key_eqb_eq in Kj. apply N. rewrite <- Kj. apply C, Ij. }
      rewrite E. reflexivity.
  - destruct (dict_append_In _ _ _ ND _ _ H)
      as [[N I]|[-> [(vs0 & I & ->)|[N ->]]]].
    + apply (B _ _ I).
    + destruct vs0; discriminate.
    + discriminate.
  - intros j Ij. rewrite dict_append_keys.
    apply in_app_or in Ij.
    destruct (existsb (key_eqb (key_of i)) (map fst sf)) eqn:E.
    + destruct Ij as [Ij|[<-|[]]]; [apply C, Ij|].
      apply existsb_key, E.
    + apply in_or_app. destruct Ij as [Ij|[<-|[]]];
        [left; apply C, Ij|right; left; reflexivity].
Qed.

Lemma fold_grouped (l : list file_info) :
  forall sf l0, grouped sf l0 ->
                grouped (fold_left add_info l sf) (l0 ++ l).
Proof.
  induction l as [|i l IH]; intros sf l0 G; cbn [fold_left].
  - rewrite app_nil_r. exact G.
  - replace (l0 ++ i :: l)%list with ((l0 ++ [i]) ++ l)%list
      by (rewrite <- app_assoc; reflexivity).
    apply IH, add_info_grouped, G.
Qed.

(** Grouping: every bucket of the dictionary is the non-empty list of
    all scanned records of one student, in scan order, and every
    record is in the bucket of its student. *)
Lemma group_grouped (l : list file_info) : grouped (group l) l.
Proof.
  apply (fold_grouped l [] []).
  split; [constructor|]. split; [intros k vs []|intros i []].
Qed.

Lemma insert_perm (x : file_info) (l : list file_info) :
  Permutation (insert_by_datetime x l) (x :: l).
Proof.
  induction l as [|y l IH]; cbn [insert_by_datetime]; [reflexivity|].
  destruct (dt_ltb (fi_datetime y) (fi_datetime x)); [|reflexivity].
  rewrite IH. apply perm_swap.
Qed.

(** Sorting keeps the records. *)
Lemma sort_perm (l : list file_info) :
  Permutation (sort_by_datetime l) l.
Proof.
  induction l as [|x l IH]; cbn [sort_by_datetime]; [reflexivity|].
  rewrite insert_perm. constructor. exact IH.
Qed.

(** Every record of a sorted bucket is marked a duplicate, but the
    last one. *)
Lemma mark_In (s : list file_info) (x : file_info) :
  In x s -> In (x, true) (mark s) \/ last s x = x.
Proof.
  induction s as [|y s IH]; intros H; [destruct H|].
  destruct s as [|z s].
  - destruct H as [->|[]]. right. reflexivity.
  - destruct H as [->|H].
    + left. left. reflexivity.
    + destruct (IH H) as [I|L].
      * left. right. exact I.
      * right. exact L.
Qed.

Lemma mark_names (s : list file_info) : map fst (mark s) = s.
Proof.
  induction s as [|y s IH]; [reflexivity|].
  destruct s as [|z s]; [reflexivity|].
  change (mark (y :: z :: s)) with ((y, true) :: mark (z :: s)).
  cbn [map fst]. rewrite IH. reflexivity.
Qed.

Lemma last_default (s : list file_info) (a b : file_info) :
  s <> [] -> last s a = last s b.
Proof.
  induction s as [|y s IH]; intros H; [congruence|].
  destruct s as [|z s]; [reflexivity|].
  change (last (z :: s) a = last (z :: s) b). apply IH. discriminate.
Qed.

Lemma two_elements (A : Type) (l : list A) (a b : A) :
  In a l -> In b l -> a <> b -> (1 < length l)%nat.
Proof.
  destruct l as [|x [|y l]]; simpl; intros Ha Hb N; try tauto;
    [|lia].
  destruct Ha as [->|[]], Hb as [->|[]]. congruence.
Qed.

(** Of two different records of one student, one at least is marked
    a duplicate. *)
Lemma rows_flag_pair (l : list file_info) (i j : file_info) :
  In i l -> In j l -> key_of i = key_of j -> i <> j ->
  In (i, true) (flat_map bucket_rows (group l))
  \/ In (j, true) (flat_map bucket_rows (group l)).
Proof.
  intros Ii Ij K N.
  destruct (group_grouped l) as (_ & B & C).
  pose proof (C i Ii) as Ki. apply in_map_iff in Ki.
  destruct Ki as ([k vs] & Ek & Ib). cbn [fst] in Ek. subst k.
  destruct (B _ _ Ib) as [Ev _].
  assert (Vi : In i vs).
  { rewrite Ev. apply filter_In. split; [exact Ii|apply key_eqb_refl]. }
  assert (Vj : In j vs).
  { rewrite Ev. apply filter_In. split; [exact Ij|].
    apply key_eqb_eq. congruence. }
  pose proof (two_elements _ _ _ _ Vi Vj N) as L.
  assert (R : bucket_rows (key_of i, vs) = mark (sort_by_datetime vs)).
  { unfold bucket_rows. cbn [snd]. apply Nat.ltb_lt in L.
    rewrite L. reflexivity. }
  assert (Si : In i (sort_by_datetime vs))
    by (apply (Permutation_in _ (Permutation_sym (sort_perm vs))), Vi).
  assert (Sj : In j (sort_by_datetime vs))
    by (apply (Permutation_in _ (Permutation_sym (sort_perm vs))), Vj).
  assert (Sub : forall r, In r (mark (sort_by_datetime vs)) ->
                          In r (flat_map bucket_rows (group l))).
  { intros r Hr. apply in_flat_map. exists (key_of i, vs).
    split; [exact Ib|]. rewrite R. exact Hr. }
  destruct (mark_In _ _ Si) as [Fi|Li]; [left; apply Sub, Fi|].
  destruct (mark_In _ _ Sj) as [Fj|Lj]; [right; apply Sub, Fj|].
  exfalso. apply N. rewrite <- Li, <- Lj. apply last_default.
  intros E. rewrite E in Si. destruct Si.
Qed.

(** With buckets of one record each, nothing is found. *)
Lemma no_rows (sf : list (key * list file_info)) :
  (forall b, In b sf -> (length (snd b) <= 1)%nat) ->
  flat_map bucket_rows sf = [].
Proof.
  induction sf as [|b sf IH]; intros H; [reflexivity|].
  cbn [flat_map]. rewrite IH by (intros; apply H; right; assumption).
  unfold bucket_rows.
  assert (L : (1 <? length (snd b))%nat = false)
    by (apply Nat.ltb_ge, H; left; reflexivity).
  rewrite L. reflexivity.
Qed.

Lemma remove_In (n : string) (d : directory) (e : string * node) :
  In e (remove n d) <-> In e d /\ fst e <> n.
Proof.
  unfold remove. rewrite filter_In, negb_true_iff, String.eqb_neq.
  reflexivity.
Qed.

Lemma remove_all_In (ns : list string) :
  forall d e, In e (remove_all ns d) <-> In e d /\ ~ In (fst e) ns.
Proof.
  induction ns as [|n ns IH]; intros d e; cbn [remove_all fold_left].
  - simpl. tauto.
  - fold (remove_all ns (remove n d)). rewrite IH, remove_In. simpl.
    split.
    + intros [[I N] M]. split; [exact I|]. intros [X|X]; auto.
    + intros [I M]. repeat split; auto.
Qed.

Lemma move_duplicates_le (can_move : string -> bool)
      (rows : list dup_row) :
  forall st, (snd (move_duplicates can_move rows st) <= dup_count rows)%nat.
Proof.
  unfold dup_count.
  induction rows as [|[fi f] rows IH]; intros st;
    cbn [move_duplicates filter snd]; [simpl; lia|].
  destruct f; cbn [length]; [|apply IH].
  destruct (move can_move _ _ st) as [st'|].
  - specialize (IH st').
    destruct (move_duplicates can_move rows st') as [st'' n].
    cbn [snd] in *. lia.
  - specialize (IH st). lia.
Qed.

(** When every move succeeds, the class folder loses exactly the
    files marked duplicates. *)
Lemma move_duplicates_all (can_move : string -> bool)
      (rows : list dup_row) :
  forall st,
    snd (move_duplicates can_move rows st) = dup_count rows ->
    class_dir (fst (move_duplicates can_move rows st))
    = remove_all (flagged rows) (class_dir st).
Proof.
  unfold dup_count, flagged.
  induction rows as [|[fi f] rows IH]; intros st;
    cbn [move_duplicates filter snd fst]; [reflexivity|].
  destruct f; cbn [length map fst]; [|apply IH].
  cbn [remove_all fold_left].
  fold (remove_all (map (fun r => fi_filename (fst r)) (filter snd rows))
                   (remove (fi_filename fi) (class_dir st))).
  unfold move.
  destruct (lookup (fi_filename fi) (class_dir st)) as [x|] eqn:Lk.
  - destruct (can_move (fi_filename fi)).
    + set (st' := mkstore _ _).
      specialize (IH st').
      destruct (move_duplicates can_move rows st') as [st'' n].
      cbn [fst snd] in *. intros E. apply IH. lia.
    + intros E. pose proof (move_duplicates_le can_move rows st) as L.
      unfold dup_count in L. lia.
  - intros E. pose proof (move_duplicates_le can_move rows st) as L.
    unfold dup_count in L. lia.
Qed.

Lemma info_of_name (e : string * node) (i : file_info) :
  info_of e = Some i -> fi_filename i = fst e.
Proof.
  destruct e as [n x]. unfold info_of.
  destruct (negb (is_file x)); [discriminate|].
  destruct (contains "_PROCESSED.txt" n); [discriminate|].
  destruct (parse_filename n) as [[[[c s] t] f]|]; [|discriminate].
  intros H. inversion H. reflexivity.
Qed.

Lemma infos_In (d : directory) (i : file_info) :
  In i (infos d) <-> exists e, In e d /\ info_of e = Some i.
Proof.
  unfold infos. rewrite in_flat_map. split.
  - intros (e & I & H). exists e. split; [exact I|].
    destruct (info_of e) as [j|]; [|destruct H].
    destruct H as [->|[]]. reflexivity.
  - intros (e & I & H). exists e. split; [exact I|].
    rewrite H. left. reflexivity.
Qed.

(** Different entries of a folder are recorded under different
    names. *)
Lemma infos_NoDup (d : directory) :
  NoDup (names d) -> NoDup (map fi_filename (infos d)).
Proof.
  induction d as [|e d IH]; intros ND; [constructor|].
  cbn [names map] in ND. inversion ND as [|? ? N ND']; subst.
  cbn [infos flat_map]. fold (infos d).
  destruct (info_of e) as [i|] eqn:E; [|apply IH, ND'].
  cbn [app map]. constructor; [|apply IH, ND'].
  intros I. apply in_map_iff in I. destruct I as (j & Ej & Ij).
  apply infos_In in Ij. destruct Ij as (e' & Ie' & He').
  apply N. rewrite <- (info_of_name _ _ E), <- Ej, (info_of_name _ _ He').
  apply in_map, Ie'.
Qed.

Lemma NoDup_map_two (A B : Type) (f : A -> B) (l : list A) :
  NoDup (map f l) -> (1 < length l)%nat ->
  exists a b, In a l /\ In b l /\ f a <> f b.
Proof.
  destruct l as [|a [|b l]]; simpl; intros ND L; try lia.
  exists a, b. repeat split; auto.
  inversion ND as [|? ? N _]; subst. intros E. apply N. left. auto.
Qed.

Lemma keep_distinct {A B : Type} (name : A -> B) (keep : A -> bool) :
  forall xs, NoDup (map name xs) -> NoDup (map name (filter keep xs)).
Proof.
  intros xs. induction xs as [|x xs IH]; intros ND; cbn [filter map].
  - constructor.
  - cbn [map] in ND. apply NoDup_cons_iff in ND. destruct ND as [N ND].
    destruct (keep x); cbn [map]; [|exact (IH ND)].
    apply NoDup_cons_iff. split; [|exact (IH ND)].
    intros I. apply N. apply in_map_iff in I.
    destruct I as (y & E & Iy). apply filter_In in Iy.
    rewrite <- E. apply in_map. tauto.
Qed.

(** After a pass whose moves all succeeded, every student of the class
    folder has one record left, in whatever order the folder is
    scanned again. *)
Lemma clean_after_pass (d d2 : directory) :
  NoDup (names d) ->
  Permutation d2
    (remove_all (flagged (find_duplicates_in_folder d)) d) ->
  forall b, In b (scan d2) -> length (snd b) = 1%nat.
Proof.
  intros ND P [k vs] Ib. cbn [snd].
  rewrite scan_group in Ib.
  destruct (group_grouped (infos d2)) as (_ & B & _).
  destruct (B _ _ Ib) as [Ev Ne].
  destruct (le_lt_dec (length vs) 1) as [L|L].
  { destruct vs as [|x [|y vs]]; simpl in *; try lia. congruence. }
  exfalso.
  assert (ND2 : NoDup (names d2)).
  { apply (Permutation_NoDup
             (Permutation_sym (Permutation_map fst P))).
    clear P. unfold names.
    assert (G : forall ns d0, NoDup (map fst d0) ->
                              NoDup (map fst (remove_all ns d0))).
    { induction ns as [|n ns IHn]; intros d0 H0; [exact H0|].
      cbn [remove_all fold_left]. apply IHn.
      unfold remove. apply keep_distinct, H0. }
    apply G, ND. }
  assert (NDv : NoDup (map fi_filename vs)).
  { rewrite Ev. unfold bucket. apply keep_distinct, infos_NoDup, ND2. }
  destruct (NoDup_map_two _ _ _ _ NDv L) as (i & j & Vi & Vj & N).
  assert (Orig : forall x, In x vs ->
                   In x (infos d) /\ key_of x = k
                   /\ ~ In (fi_filename x)
                        (flagged (find_duplicates_in_folder d))).
  { intros x Vx. rewrite Ev in Vx. apply filter_In in Vx.
    destruct Vx as [Ix Kx]. apply key_eqb_eq in Kx.
    apply infos_In in Ix. destruct Ix as (e & Ie & He).
    apply (Permutation_in _ P) in Ie. apply remove_all_In in Ie.
    destruct Ie as [Ie Nf]. rewrite (info_of_name _ _ He).
    split; [|split; [exact Kx|exact Nf]].
    apply infos_In. exists e. auto. }
  destruct (Orig i Vi) as (Ii & Ki & Fi).
  destruct (Orig j Vj) as (Ij & Kj & Fj).
  assert (Nij : i <> j) by congruence.
  destruct (rows_flag_pair (infos d) i j Ii Ij ltac:(congruence) Nij)
    as [F|F].
  - apply Fi. unfold flagged, find_duplicates_in_folder.
    rewrite scan_group. apply in_map_iff. exists (i, true).
    split; [reflexivity|]. apply filter_In. auto.
  - apply Fj. unfold flagged, find_duplicates_in_folder.
    rewrite scan_group. apply in_map_iff. exists (j, true).
    split; [reflexivity|]. apply filter_In. auto.
Qed.

End Resolver.

(** ** Instants in order *)

Section Order.

Lemma dt_lt_iff (a b : datetime) :
  dt_lt a b <->
  (year a < year b
   \/ (year a = year b
       /\ (month a < month b
           \/ (month a = month b
               /\ (day a < day b
                   \/ (day a = day b
                       /\ (hour a < hour b
                           \/ (hour a = hour b
                               /\ minute a < minute b)))))))).
Proof.
  unfold dt_lt, dt_compare, lex2.
  destruct (Z.compare_spec (year a) (year b));
    destruct (Z.compare_spec (month a) (month b));
    destruct (Z.compare_spec (day a) (day b));
    destruct (Z.compare_spec (hour a) (hour b));
    destruct (Z.compare_spec (minute a) (minute b));
    split; intros; try discriminate; try reflexivity; lia.
Qed.

Lemma dt_lt_trans (a b c : datetime) : dt_lt a b -> dt_lt b c -> dt_lt a c.
Proof. rewrite !dt_lt_iff. lia. Qed.

Lemma dt_lt_irrefl (a : datetime) : ~ dt_lt a a.
Proof. rewrite dt_lt_iff. lia. Qed.

Lemma dt_lt_ltb (a b : datetime) : dt_lt a b -> dt_ltb a b = true.
Proof. unfold dt_lt, dt_ltb. intros ->. reflexivity. Qed.

Lemma dt_lt_not_ltb (a b : datetime) : dt_lt a b -> dt_ltb b a = false.
Proof.
  intros H. unfold dt_ltb.
  destruct (dt_compare b a) eqn:E; try reflexivity.
  exfalso. exact (dt_lt_irrefl _ (dt_lt_trans _ _ _ H E)).
Qed.

End Order.

(** ** One pass, and a second one *)

Section Passes.
Import FindDuplicates.

Lemma dup_count_flagged (rows : list dup_row) :
  dup_count rows = 0%nat -> flagged rows = [].
Proof.
  unfold dup_count, flagged. destruct (filter snd rows); simpl;
    [reflexivity|discriminate].
Qed.

(** What a pass whose moves all succeeded leaves in the class
    folder. *)
Lemma resolve_class_all (can_move : string -> bool) (st st1 : store)
      (rows1 : list dup_row) (moved1 : nat) :
  resolve_class can_move st = (rows1, st1, moved1) ->
  moved1 = dup_count rows1 ->
  rows1 = find_duplicates_in_folder (class_dir st)
  /\ class_dir st1 = remove_all (flagged rows1) (class_dir st).
Proof.
  unfold resolve_class.
  destruct (find_duplicates_in_folder (class_dir st)) as [|r rows] eqn:E.
  - intros H _. inversion H; subst. auto.
  - destruct (0 <? dup_count (r :: rows))%nat eqn:C.
    + pose proof (move_duplicates_all can_move (r :: rows) st) as A.
      destruct (move_duplicates can_move (r :: rows) st) as [st' moved].
      cbn [fst snd] in A. intros H M.
      injection H as E1 E2 E3. subst rows1 st1.
      split; [reflexivity|]. apply A. congruence.
    + intros H _. inversion H; subst. split; [reflexivity|].
      apply Nat.ltb_ge in C.
      rewrite dup_count_flagged by lia. reflexivity.
Qed.

Lemma group_one_key (k : key) (l : list file_info) :
  (forall i, In i l -> key_of i = k) ->
  forall vs, fold_left add_info l [(k, vs)] = [(k, (vs ++ l)%list)].
Proof.
  induction l as [|i l IH]; intros K vs; cbn [fold_left].
  - rewrite app_nil_r. reflexivity.
  - unfold add_info at 2. rewrite (K i (or_introl eq_refl)).
    cbn [dict_append]. rewrite key_eqb_refl.
    rewrite IH by (intros; apply K; right; assumption).
    rewrite <- app_assoc. reflexivity.
Qed.

Lemma perm3 (A : Type) (a b c : A) (l : list A) :
  Permutation l [a; b; c] ->
  l = [a; b; c] \/ l = [a; c; b] \/ l = [b; a; c]
  \/ l = [b; c; a] \/ l = [c; a; b] \/ l = [c; b; a].
Proof.
  intros P. apply Permutation_sym in P.
  assert (Ia : In a l) by (apply (Permutation_in _ P); left; reflexivity).
  apply in_split in Ia. destruct Ia as (l1 & l2 & ->).
  apply Permutation_cons_app_inv in P.
  apply Permutation_length_2_inv in P.
  destruct l1 as [|x [|y [|z l1]]]; cbn [app] in *;
    destruct P as [P|P];
    try (inversion P; subst; tauto);
    try (destruct l2; inversion P; subst; tauto).
Qed.

End Passes.

(** ** Three records of one student *)

Section ThreeRecords.
Import FindDuplicates.

Variables (c s1 s2 s3 : string).
Variables (f1 f2 f3 ts1 ts2 ts3 : string).
Variables (b1 b2 b3 : option string).

Hypothesis P1 : parse_filename f1 = Some (c, s1, ts1, f1).
Hypothesis P2 : parse_filename f2 = Some (c, s2, ts2, f2).
Hypothesis P3 : parse_filename f3 = Some (c, s3, ts3, f3).
Hypothesis Q1 : contains "_PROCESSED.txt" f1 = false.
Hypothesis Q2 : contains "_PROCESSED.txt" f2 = false.
Hypothesis Q3 : contains "_PROCESSED.txt" f3 = false.
Hypothesis S12 : normalize_student_id s1 = normalize_student_id s2.
Hypothesis S23 : normalize_student_id s2 = normalize_student_id s3.
Hypothesis T12 : dt_lt (get_timestamp_for_sorting ts1)
                       (get_timestamp_for_sorting ts2).
Hypothesis T23 : dt_lt (get_timestamp_for_sorting ts2)
                       (get_timestamp_for_sorting ts3).

Let i1 := mkinfo f1 c s1 ts1 (get_timestamp_for_sorting ts1).
Let i2 := mkinfo f2 c s2 ts2 (get_timestamp_for_sorting ts2).
Let i3 := mkinfo f3 c s3 ts3 (get_timestamp_for_sorting ts3).

Lemma three_names_differ : f1 <> f2 /\ f1 <> f3 /\ f2 <> f3.
Proof.
  pose proof (dt_lt_trans _ _ _ T12 T23) as T13.
  repeat split; intros E.
  - rewrite E, P2 in P1. inversion P1; subst.
    exact (dt_lt_irrefl _ T12).
  - rewrite E, P3 in P1. inversion P1; subst.
    exact (dt_lt_irrefl _ T13).
  - rewrite E, P3 in P2. inversion P2; subst.
    exact (dt_lt_irrefl _ T23).
Qed.

Lemma three_infos :
  info_of (f1, File b1) = Some i1 /\ info_of (f2, File b2) = Some i2
  /\ info_of (f3, File b3) = Some i3.
Proof.
  unfold info_of. cbn [is_file negb].
  rewrite Q1, Q2, Q3, P1, P2, P3. auto.
Qed.

(** However the three records are scanned, they come out oldest
    first, the newest one kept. *)
Lemma three_rows (d : directory) :
  Permutation d [(f1, File b1); (f2, File b2); (f3, File b3)] ->
  find_duplicates_in_folder d = [(i1, true); (i2, true); (i3, false)].
Proof.
  intros P.
  pose proof (dt_lt_trans _ _ _ T12 T23) as T13.
  pose proof (dt_lt_ltb _ _ T12) as L12.
  pose proof (dt_lt_ltb _ _ T23) as L23.
  pose proof (dt_lt_ltb _ _ T13) as L13.
  pose proof (dt_lt_not_ltb _ _ T12) as L21.
  pose proof (dt_lt_not_ltb _ _ T23) as L32.
  pose proof (dt_lt_not_ltb _ _ T13) as L31.
  destruct three_infos as (I1 & I2 & I3).
  assert (K : forall i, In i [i1; i2; i3] ->
                        key_of i = (c, normalize_student_id s1)).
  { intros i [<-|[<-|[<-|[]]]]; unfold key_of, i1, i2, i3;
      cbn [fi_class fi_student_id]; congruence. }
  assert (G : forall l, incl l [i1; i2; i3] ->
                forall x r, l = x :: r ->
                group l = [((c, normalize_student_id s1), l)]).
  { intros l Pl x r ->. unfold group. cbn [fold_left].
    unfold add_info at 2. cbn [dict_append].
    rewrite (K x) by (apply Pl; left; reflexivity).
    apply group_one_key. intros i Hi. apply K, Pl. right. exact Hi. }
  unfold find_duplicates_in_folder. rewrite scan_group.
  destruct (perm3 _ _ _ _ _ P) as [E|[E|[E|[E|[E|E]]]]]; subst d;
    cbn [infos flat_map]; rewrite I1, I2, I3; simpl app;
    (erewrite G; [|intros i Hi; simpl in Hi |- *; tauto|reflexivity]);
    unfold bucket_rows, i1, i2, i3 in *;
    set (t1 := get_timestamp_for_sorting ts1) in *;
    set (t2 := get_timestamp_for_sorting ts2) in *;
    set (t3 := get_timestamp_for_sorting ts3) in *;
    simpl;
    rewrite ?L12, ?L23, ?L13, ?L21, ?L32, ?L31; simpl;
    rewrite ?L12, ?L23, ?L13, ?L21, ?L32, ?L31; reflexivity.
Qed.

(** The pass over the three records: the two older ones go to the
    Duplicates folder under names that were free, the newest stays. *)
Lemma three_pass (d dups : directory) (can_move : string -> bool) :
  Permutation d [(f1, File b1); (f2, File b2); (f3, File b3)] ->
  (forall f, can_move f = true) ->
  let dest1 := dest_path f1 dups in
  let dest2 := dest_path f2 (dups ++ [(dest1, File b1)])%list in
  resolve_class can_move (mkstore d dups)
  = ([(i1, true); (i2, true); (i3, false)],
     mkstore [(f3, File b3)]
             (dups ++ [(dest1, File b1); (dest2, File b2)])%list,
     2%nat).
Proof.
  intros P M dest1 dest2.
  unfold resolve_class. cbn [class_dir]. rewrite (three_rows d P).
  change (0 <? dup_count [(i1, true); (i2, true); (i3, false)])%nat
    with true. cbv iota.
  destruct three_names_differ as (N12 & N13 & N23).
  assert (E12 : (f1 =? f2)%string = false) by (apply String.eqb_neq; auto).
  assert (E13 : (f1 =? f3)%string = false) by (apply String.eqb_neq; auto).
  assert (E23 : (f2 =? f3)%string = false) by (apply String.eqb_neq; auto).
  assert (E21 : (f2 =? f1)%string = false)
    by (rewrite String.eqb_sym; exact E12).
  assert (E31 : (f3 =? f1)%string = false)
    by (rewrite String.eqb_sym; exact E13).
  assert (E32 : (f3 =? f2)%string = false)
    by (rewrite String.eqb_sym; exact E23).
  unfold i1, i2, i3.
  destruct (perm3 _ _ _ _ _ P) as [E|[E|[E|[E|[E|E]]]]]; subst d;
    cbn [move_duplicates fi_filename];
    unfold move; cbn [class_dir dup_dir lookup remove filter fst negb];
    fold dest1;
    rewrite ?String.eqb_refl, ?E12, ?E13, ?E23, ?E21, ?E31, ?E32, ?M;
    cbn [class_dir dup_dir lookup remove filter fst negb];
    rewrite ?String.eqb_refl, ?E12, ?E13, ?E23, ?E21, ?E31, ?E32, ?M;
    cbn [class_dir dup_dir lookup remove filter fst negb];
    rewrite ?String.eqb_refl, ?E12, ?E13, ?E23, ?E21, ?E31, ?E32, ?M;
    cbn [negb]; fold dest2; rewrite <- app_assoc; reflexivity.
Qed.

End ThreeRecords.

(** ** Decimal numerals *)

Section Decimals.

Lemma uint_digits (d : uint) :
  forallb_str is_digit (NilEmpty.string_of_uint d) = true.
Proof. induction d; simpl; auto. Qed.

Lemma int_digits_uint (d : uint) :
  forall acc,
    int_digits true acc (NilEmpty.string_of_uint d)
    = Some (uint_value d acc).
Proof.
  induction d; intro acc; simpl; auto;
    rewrite IHd; f_equal; f_equal; unfold digit_val; simpl; lia.
Qed.

Lemma uint_value_pos (d : uint) :
  forall p, uint_value d (Z.pos p) = Z.pos (Pos.of_uint_acc d p).
Proof.
  induction d; intro p; cbn [uint_value Pos.of_uint_acc]; auto;
    rewrite <- IHd; f_equal; lia.
Qed.

Lemma uint_value_zero (d : uint) :
  uint_value d 0 = Z.of_N (Pos.of_uint d).
Proof.
  induction d; simpl; auto; apply (uint_value_pos d).
Qed.

(** A string of digits reads the same whatever came before it. *)
Lemma int_digits_start (c : ascii) (s : string) (acc : Z) :
  is_digit c = true ->
  int_digits false acc (String c s) = int_digits true acc (String c s).
Proof. intro H. simpl. now rewrite H. Qed.

Lemma str_of_Z_digits (n : Z) :
  0 <= n ->
  forallb_str is_digit (str_of_Z n) = true /\ str_of_Z n <> "".
Proof.
  intro H. unfold str_of_Z. destruct n as [|p|p]; try lia.
  - split; [reflexivity | discriminate].
  - simpl. split; [apply uint_digits|].
    pose proof (DecimalPos.Unsigned.to_uint_nonnil p) as N.
    destruct (Pos.to_uint p); try congruence; discriminate.
Qed.

Lemma str_of_Z_isdigit (n : Z) : 0 <= n -> isdigit (str_of_Z n) = true.
Proof.
  intro H. destruct (str_of_Z_digits n H) as [D N].
  unfold isdigit. destruct (str_of_Z n); congruence.
Qed.

Lemma py_int_uint (p : positive) :
  int_digits false 0 (NilEmpty.string_of_uint (Pos.to_uint p))
  = Some (Z.pos p).
Proof.
  pose proof (DecimalPos.Unsigned.to_uint_nonnil p) as N.
  pose proof (uint_digits (Pos.to_uint p)) as D.
  pose proof (int_digits_uint (Pos.to_uint p) 0) as V.
  rewrite uint_value_zero, DecimalPos.Unsigned.of_to in V. simpl in V.
  destruct (NilEmpty.string_of_uint (Pos.to_uint p)) as [|c s] eqn:E.
  - destruct (Pos.to_uint p); try congruence; discriminate.
  - simpl in D. apply andb_true_iff in D. destruct D as [D _].
    rewrite int_digits_start; auto.
Qed.

(** The digits [str] prints read back as the number printed. *)
Lemma int_digits_str (n : Z) :
  0 <= n -> int_digits false 0 (str_of_Z n) = Some n.
Proof.
  intro H. destruct n as [|p|p]; [reflexivity| |lia].
  unfold str_of_Z. simpl. apply py_int_uint.
Qed.

Lemma str_of_Z_neg (p : positive) :
  str_of_Z (Z.neg p) = String "-" (str_of_Z (Z.pos p)).
Proof. reflexivity. Qed.

Lemma str_of_Z_inj (a b : Z) : str_of_Z a = str_of_Z b -> a = b.
Proof.
  assert (P : forall x y, 0 <= x -> 0 <= y ->
                          str_of_Z x = str_of_Z y -> x = y).
  { intros x y Hx Hy E. pose proof (int_digits_str x Hx) as X.
    rewrite E, (int_digits_str y Hy) in X. congruence. }
  assert (M : forall x p, 0 <= x -> str_of_Z x <> str_of_Z (Z.neg p)).
  { intros x p Hx E. destruct (str_of_Z_digits x Hx) as [D _].
    rewrite E, str_of_Z_neg in D. discriminate D. }
  intro H. destruct a as [|p|p], b as [|q|q];
    try (apply P; [lia|lia|exact H]).
  - exfalso. apply (M 0 q); [lia|exact H].
  - exfalso. apply (M (Z.pos p) q); [lia|exact H].
  - exfalso. apply (M 0 p); [lia|now symmetry].
  - exfalso. apply (M (Z.pos q) p); [lia|now symmetry].
  - rewrite !str_of_Z_neg in H. injection H as E.
    apply P in E; [|lia|lia]. congruence.
Qed.

Lemma int_fits_app (a b : string) :
  int_fits (a ++ b) = true -> int_fits a = true /\ int_fits b = true.
Proof.
  assert (E : count_digits (a ++ b) = count_digits a + count_digits b).
  { induction a as [|c a IH]; [reflexivity|].
    change (String c a ++ b) with (String c (a ++ b)).
    cbn [count_digits]. rewrite IH. lia. }
  unfold int_fits. intros H. apply Z.leb_le in H.
  pose proof (count_digits_nonneg a). pose proof (count_digits_nonneg b).
  split; apply Z.leb_le; lia.
Qed.

(** [int(str(n)) == n], for a number [str] prints within the limit of
    [int]. *)
Lemma py_int_str (n : Z) :
  int_fits (str_of_Z n) = true -> py_int (str_of_Z n) = Some n.
Proof.
  intros F. destruct n as [|p|p].
  - reflexivity.
  - destruct (str_of_Z_digits (Z.pos p)) as [D N]; [lia|].
    rewrite (py_int_literal _ D). unfold int_literal. rewrite F.
    apply int_digits_str. lia.
  - rewrite str_of_Z_neg in *.
    destruct (str_of_Z_digits (Z.pos p)) as [D N]; [lia|].
    unfold py_int. rewrite int_strip_no_space.
    + assert (F' : int_fits (str_of_Z (Z.pos p)) = true)
        by (apply (int_fits_app (String "-" "")), F).
      unfold int_literal. rewrite F', int_digits_str by lia. reflexivity.
    + cbn [forallb_str]. rewrite (digits_no_space _ D). reflexivity.
Qed.

(** Zeros in front do not change the number read. *)
Lemma int_digits_zeros (k : nat) (s : string) :
  int_digits true 0 (repeat_char "0" k ++ s) = int_digits true 0 s.
Proof. induction k; simpl; auto. Qed.

Lemma digits_zeros (k : nat) (s : string) :
  forallb_str is_digit s = true ->
  forallb_str is_digit (repeat_char "0" k ++ s) = true.
Proof. intro H. induction k; simpl; auto. Qed.

Lemma py_int_zeros (k : nat) (s : string) :
  isdigit s = true -> int_fits (repeat_char "0" k ++ s) = true ->
  py_int (repeat_char "0" k ++ s) = py_int s.
Proof.
  intros H F.
  assert (D : forallb_str is_digit s = true /\ s <> "").
  { unfold isdigit in H. destruct s; [discriminate|]. split; [exact H|discriminate]. }
  destruct D as [D N].
  pose proof (digits_zeros k s D) as D'.
  assert (R : forall t, forallb_str is_digit t = true -> t <> "" ->
                        int_fits t = true ->
                        py_int t = int_digits true 0 t).
  { intros t Dt Nt Ft. rewrite (py_int_literal _ Dt). unfold int_literal.
    rewrite Ft. destruct t as [|c t]; [congruence|].
    simpl in Dt. apply andb_true_iff in Dt. destruct Dt as [Dc _].
    now apply int_digits_start. }
  rewrite (R _ D'), (R _ D N).
  - apply int_digits_zeros.
  - apply (int_fits_app _ _ F).
  - destruct k; simpl; [exact N | discriminate].
  - exact F.
Qed.

Lemma isdigit_zeros (k : nat) (s : string) :
  isdigit s = true -> isdigit (repeat_char "0" k ++ s) = true.
Proof.
  intro H. destruct k; simpl; [exact H|].
  unfold isdigit in H. destruct s; [discriminate|].
  simpl. clear -H. induction k; simpl; auto.
Qed.

End Decimals.

Section Identity.

Lemma normalize_digits (s : string) :
  isdigit s = true -> int_fits s = true ->
  exists v, py_int s = Some v /\ 0 <= v
            /\ normalize_student_id s = str_of_Z v.
Proof.
  intros H F. destruct (py_int_isdigit s H F) as (v & V & P).
  exists v. unfold normalize_student_id. rewrite H, V. auto.
Qed.

Lemma normalize_same_number (a b : string) :
  isdigit a = true -> isdigit b = true ->
  int_fits a = true -> int_fits b = true ->
  (normalize_student_id a = normalize_student_id b <-> py_int a = py_int b).
Proof.
  intros A B Fa Fb.
  destruct (normalize_digits a A Fa) as (va & Va & _ & Na).
  destruct (normalize_digits b B Fb) as (vb & Vb & _ & Nb).
  rewrite Na, Nb, Va, Vb. split; intro H.
  - f_equal. now apply str_of_Z_inj.
  - congruence.
Qed.

(** What [str] printed is left as it is. *)
Lemma normalize_str (v : Z) :
  0 <= v -> normalize_student_id (str_of_Z v) = str_of_Z v.
Proof.
  intro P. unfold normalize_student_id.
  rewrite str_of_Z_isdigit by exact P.
  destruct (str_of_Z_digits v P) as [D _].
  rewrite (py_int_literal _ D). unfold int_literal.
  destruct (int_fits (str_of_Z v)); [|reflexivity].
  now rewrite int_digits_str.
Qed.

Lemma normalize_idempotent (s : string) :
  normalize_student_id (normalize_student_id s) = normalize_student_id s.
Proof.
  unfold normalize_student_id at 2 3.
  destruct (isdigit s) eqn:D.
  - destruct (py_int s) as [v|] eqn:V.
    + apply normalize_str.
      destruct (int_fits s) eqn:F.
      * destruct (py_int_isdigit s D F) as (v' & V' & P). congruence.
      * unfold isdigit in D. destruct s; [discriminate|].
        rewrite (py_int_long _ D F) in V. discriminate.
    + unfold normalize_student_id. now rewrite D, V.
  - unfold normalize_student_id. now rewrite D.
Qed.

Lemma normalize_zfill (w : nat) (s : string) :
  isdigit s = true -> int_fits (zfill w s) = true ->
  normalize_student_id (zfill w s) = normalize_student_id s.
Proof.
  intros D F. unfold zfill in *.
  apply normalize_same_number; auto using isdigit_zeros, py_int_zeros.
  apply (int_fits_app _ _ F).
Qed.

End Identity.

(** ** Record names *)

Section NameFacts.

Lemma forallb_str_impl (p q : ascii -> bool) (s : string) :
  (forall c, p c = true -> q c = true) ->
  forallb_str p s = true -> forallb_str q s = true.
Proof.
  intro I. induction s as [|c s IH]; simpl; auto.
  intro H. apply andb_true_iff in H. destruct H as [H1 H2].
  rewrite (I c H1). simpl. auto.
Qed.

Lemma forallb_str_app (p : ascii -> bool) (a b : string) :
  forallb_str p (a ++ b) = forallb_str p a && forallb_str p b.
Proof.
  induction a as [|c a IH]; simpl; auto. rewrite IH. apply andb_assoc.
Qed.

Lemma prefix_short (p a b : string) :
  (len p <= len a)%nat -> String.prefix p (a ++ b) = String.prefix p a.
Proof.
  revert a. induction p as [|c p IH]; intros a H; destruct a as [|x a];
    simpl in *; auto; try lia.
  - now destruct b.
  - destruct (ascii_dec c x); auto. apply IH. lia.
Qed.

(** A text that does not hold [sep] cannot lie across a [sep]. *)
Lemma prefix_sep (sep : ascii) (n a b : string) :
  free_of sep n = true ->
  String.prefix n (a ++ String sep b) = String.prefix n a.
Proof.
  revert a. induction n as [|y n IH]; intros a F; destruct a as [|x a];
    simpl in *; auto.
  - apply andb_true_iff in F. destruct F as [F _].
    destruct (ascii_dec y sep) as [E|E]; auto.
    subst. now rewrite Ascii.eqb_refl in F.
  - apply andb_true_iff in F. destruct F as [_ F].
    destruct (ascii_dec y x); auto.
Qed.

Lemma contains_sep (sep : ascii) (n a b : string) :
  free_of sep n = true ->
  contains n (a ++ String sep b) = contains n a || contains n b.
Proof.
  intro F. induction a as [|x a IH].
  - change ("" ++ String sep b) with (String sep b).
    rewrite contains_cons. f_equal.
    destruct n as [|y n]; [reflexivity|].
    simpl in *. apply andb_true_iff in F. destruct F as [F _].
    destruct (ascii_dec y sep) as [E|E]; auto.
    subst. now rewrite Ascii.eqb_refl in F.
  - change (String x a ++ String sep b) with (String x (a ++ String sep b)).
    rewrite !contains_cons, IH, orb_assoc. f_equal. f_equal.
    apply (prefix_sep sep n (String x a) b F).
Qed.

Lemma replace_none (old new s : string) :
  contains old s = false -> replace old new s = s.
Proof.
  unfold replace. induction s as [|c s IH]; intro H; [reflexivity|].
  rewrite contains_cons in H. apply orb_false_iff in H. destruct H as [P C].
  cbn [replace_from]. rewrite P. now rewrite IH.
Qed.

Lemma replace_skip (old new s : string) (k : nat) :
  (len s <= k)%nat -> replace_from k old new s = "".
Proof.
  revert k. induction s as [|c s IH]; intros k H; [reflexivity|].
  simpl in H. destruct k; [lia|]. simpl. apply IH. lia.
Qed.

(** Removing [.txt] takes the extension off a name that holds no other
    [.txt]. *)
Lemma replace_txt (a : string) :
  contains ".txt" (a ++ ".tx") = false ->
  replace ".txt" "" (a ++ ".txt") = a.
Proof.
  unfold replace. induction a as [|c a IH]; intro H; [reflexivity|].
  change (String c a ++ ".tx") with (String c (a ++ ".tx")) in H.
  rewrite contains_cons in H. apply orb_false_iff in H. destruct H as [P C].
  change (String c a ++ ".txt") with (String c (a ++ ".txt")).
  cbn [replace_from].
  replace (String c (a ++ ".txt")) with (String c (a ++ ".tx") ++ "t").
  - rewrite prefix_short.
    + rewrite P.
      replace (String c (a ++ ".tx") ++ "t") with (String c (a ++ ".txt")).
      * now rewrite IH.
      * simpl. now rewrite app_assoc_str.
    + change (len ".txt" <= len (String c a ++ ".tx"))%nat. rewrite len_app. simpl. lia.
  - simpl. now rewrite app_assoc_str.
Qed.

Lemma drop_len_app (a b : string) : drop (len a) (a ++ b) = b.
Proof. apply drop_app. Qed.

Lemma endswith_app (p a : string) : endswith p (a ++ p) = true.
Proof.
  unfold endswith, last_n. rewrite len_app.
  replace (len a + len p - len p)%nat with (len a) by lia.
  rewrite drop_app, String.eqb_refl, andb_true_r.
  apply Nat.leb_le. lia.
Qed.

Lemma take_drop (n : nat) (s : string) : take n s ++ drop n s = s.
Proof.
  revert s. induction n; intro s; destruct s; simpl; auto. now rewrite IHn.
Qed.

Lemma endswith_split (p s : string) :
  endswith p s = true -> exists a, s = a ++ p.
Proof.
  unfold endswith, last_n. intro H. apply andb_true_iff in H.
  destruct H as [_ H]. apply String.eqb_eq in H.
  exists (take (len s - len p) s).
  rewrite <- H at 2. symmetry. apply take_drop.
Qed.

(** No [.txt] starts inside a text without a [t]. *)
Lemma no_txt_before (ts : string) :
  free_of "t" ts = true -> contains ".txt" (ts ++ ".tx") = false.
Proof.
  induction ts as [|c ts IH]; intro F; [reflexivity|].
  simpl in F. apply andb_true_iff in F. destruct F as [Fc F].
  change (String c ts ++ ".tx") with (String c (ts ++ ".tx")).
  rewrite contains_cons, (IH F), orb_false_r.
  destruct ts as [|d ts]; cbn [String.prefix append].
  - destruct (ascii_dec "." c); auto.
  - simpl in F. apply andb_true_iff in F. destruct F as [Fd _].
    destruct (ascii_dec "." c); auto.
    destruct (ascii_dec "t" d) as [E|E]; auto.
    subst. discriminate.
Qed.

(** The components of a record name are read back, when they are free
    of the separator and no [.txt] occurs before the extension. *)
Lemma name_parts (c s ts : string) :
  free_of "_" c = true -> free_of "_" s = true -> free_of "_" ts = true ->
  contains ".txt" c = false -> contains ".txt" s = false ->
  free_of "t" ts = true ->
  let filename := "SpeakingTest_" ++ c ++ "_" ++ s ++ "_" ++ ts ++ ".txt" in
  startswith "SpeakingTest_" filename = true
  /\ endswith ".txt" filename = true
  /\ split "_" (replace ".txt" "" filename) = ["SpeakingTest"; c; s; ts].
Proof.
  intros Fc Fs Ft Cc Cs Tt filename.
  split; [apply prefix_app|].
  split.
  - unfold filename.
    replace ("SpeakingTest_" ++ c ++ "_" ++ s ++ "_" ++ ts ++ ".txt")
      with (("SpeakingTest_" ++ c ++ "_" ++ s ++ "_" ++ ts) ++ ".txt").
    + apply endswith_app.
    + now rewrite !app_assoc_str.
  - assert (R : replace ".txt" "" filename
                = "SpeakingTest_" ++ c ++ "_" ++ s ++ "_" ++ ts).
    { unfold filename.
      replace ("SpeakingTest_" ++ c ++ "_" ++ s ++ "_" ++ ts ++ ".txt")
        with (("SpeakingTest_" ++ c ++ "_" ++ s ++ "_" ++ ts) ++ ".txt")
        by now rewrite !app_assoc_str.
      apply replace_txt.
      rewrite !app_assoc_str.
      change ("SpeakingTest_" ++ c ++ "_" ++ s ++ "_" ++ ts ++ ".tx")
        with ("SpeakingTest"
              ++ String "_" (c ++ String "_" (s ++ String "_" (ts ++ ".tx")))).
      rewrite !contains_sep by reflexivity.
      rewrite Cc, Cs, (no_txt_before ts Tt). reflexivity. }
    rewrite R.
    change ("SpeakingTest_" ++ c ++ "_" ++ s ++ "_" ++ ts)
      with ("SpeakingTest"
            ++ String "_" (c ++ String "_" (s ++ String "_" ts))).
    rewrite !split_app_sep by (auto; reflexivity).
    now rewrite split_free.
Qed.

Lemma zfill_digits (w : nat) (s : string) :
  forallb_str is_digit s = true -> forallb_str is_digit (zfill w s) = true.
Proof.
  intro H. unfold zfill. rewrite forallb_str_app, H, andb_true_r.
  induction (w - len s)%nat; simpl; auto.
Qed.

Lemma pad_digits (w : nat) (n : Z) :
  0 <= n -> forallb_str is_digit (SpeakingTest.pad w n) = true.
Proof.
  intro H. apply zfill_digits. now apply str_of_Z_digits.
Qed.

Lemma strftime_Y_chars (zero_fills : bool) (dt : datetime) :
  valid_date (year dt) (month dt) (day dt) (hour dt) (minute dt) = true ->
  forallb_str (fun c => is_digit c || Ascii.eqb c ".")
              (SpeakingTest.strftime_Y zero_fills dt) = true.
Proof.
  intro V. apply valid_date_bounds in V.
  assert (P : forall w n, 0 <= n ->
              forallb_str (fun c => is_digit c || Ascii.eqb c ".")
                          (SpeakingTest.pad w n) = true).
  { intros w n H. apply (forallb_str_impl is_digit); [|now apply pad_digits].
    intros c Hc. now rewrite Hc. }
  unfold SpeakingTest.strftime_Y.
  change (str_of_Z (year dt)) with (SpeakingTest.pad 0 (year dt)).
  destruct zero_fills; rewrite !forallb_str_app, !P by lia; reflexivity.
Qed.

End NameFacts.

(** ** The record a student keeps *)

Section Newest.

Lemma dt_ltb_lt (a b : datetime) : dt_ltb a b = true <-> dt_lt a b.
Proof.
  unfold dt_ltb, dt_lt. destruct (dt_compare a b); split; congruence.
Qed.

Lemma dt_ltb_false (a b : datetime) : dt_ltb a b = false <-> ~ dt_lt a b.
Proof.
  rewrite <- dt_ltb_lt. destruct (dt_ltb a b); split; congruence.
Qed.

(** Not newer than something not newer. *)
Lemma dt_not_lt_trans (a b c : datetime) :
  ~ dt_lt b a -> ~ dt_lt c b -> ~ dt_lt c a.
Proof. rewrite !dt_lt_iff. lia. Qed.

Lemma dt_lt_le_trans (a b c : datetime) :
  ~ dt_lt b a -> dt_lt b c -> dt_lt a c.
Proof. rewrite !dt_lt_iff. lia. Qed.

Lemma insert_In (x y : file_info) (l : list file_info) :
  In y (insert_by_datetime x l) <-> y = x \/ In y l.
Proof.
  split; intro H.
  - apply (Permutation_in _ (insert_perm x l)) in H. simpl in H.
    destruct H; auto.
  - apply (Permutation_in _ (Permutation_sym (insert_perm x l))).
    simpl. destruct H; auto.
Qed.

Lemma insert_ascending (x : file_info) (l : list file_info) :
  ascending l -> ascending (insert_by_datetime x l).
Proof.
  induction l as [|y l IH]; intro A; simpl.
  - split; [intros ? []| exact I].
  - destruct A as [A1 A2].
    destruct (dt_ltb (fi_datetime y) (fi_datetime x)) eqn:E; simpl.
    + split; [|auto]. intros z Hz. apply insert_In in Hz.
      destruct Hz as [->|Hz]; auto.
      apply dt_ltb_false. apply dt_ltb_lt in E.
      intro C. apply (dt_lt_irrefl (fi_datetime x)).
      eapply dt_lt_trans; eauto.
    + split; [|split; auto]. intros z [<-|Hz]; auto.
      apply dt_ltb_false. apply dt_ltb_false in E.
      specialize (A1 z Hz). apply dt_ltb_false in A1.
      eapply dt_not_lt_trans; eauto.
Qed.

Lemma sort_ascending (l : list file_info) : ascending (sort_by_datetime l).
Proof.
  induction l; simpl; [exact I | now apply insert_ascending].
Qed.

Lemma ascending_last (y : file_info) (l : list file_info) (z : file_info) :
  ascending (y :: l) ->
  dt_ltb (fi_datetime (last (y :: l) z)) (fi_datetime y) = false.
Proof.
  intros [A _]. destruct l as [|w l].
  - simpl. apply dt_ltb_false, dt_lt_irrefl.
  - apply A. change (last (y :: w :: l) z) with (last (w :: l) z).
    assert (N : w :: l <> []) by discriminate.
    destruct (exists_last N) as (l0 & a & E). rewrite E.
    rewrite last_last. apply in_or_app. right. now left.
Qed.

Lemma last_cons_nonempty (A : Type) (x d : A) (l : list A) :
  l <> [] -> last (x :: l) d = last l d.
Proof. destruct l; [congruence | reflexivity]. Qed.

Lemma insert_nonempty (x : file_info) (l : list file_info) :
  insert_by_datetime x l <> [].
Proof.
  destruct l; simpl; [discriminate|].
  destruct (dt_ltb _ _); discriminate.
Qed.

(** The last of the sorted list after one more insertion. *)
Lemma insert_last (x d : file_info) (l : list file_info) :
  ascending l ->
  last (insert_by_datetime x l) d
  = match l with
    | [] => x
    | _ => if dt_ltb (fi_datetime (last l d)) (fi_datetime x)
           then x else last l d
    end.
Proof.
  induction l as [|y l IH]; intro A; [reflexivity|].
  cbn [insert_by_datetime].
  destruct (dt_ltb (fi_datetime y) (fi_datetime x)) eqn:E.
  - rewrite last_cons_nonempty by apply insert_nonempty.
    rewrite IH by apply A.
    destruct l as [|w l]; [simpl; now rewrite E | reflexivity].
  - change (last (x :: y :: l) d) with (last (y :: l) d).
    pose proof (ascending_last y l d A) as L.
    apply dt_ltb_false in L, E.
    assert (F : dt_ltb (fi_datetime (last (y :: l) d)) (fi_datetime x)
                = false).
    { apply dt_ltb_false. intro C. apply E.
      eapply dt_lt_le_trans; eauto. }
    now rewrite F.
Qed.

Lemma sort_nil (l : list file_info) : sort_by_datetime l = [] -> l = [].
Proof.
  destruct l; simpl; auto. intro H. now apply insert_nonempty in H.
Qed.

(** The last of the sorted records is the one [newest] names. *)
Lemma sort_last (l : list file_info) (d : file_info) :
  l <> [] -> newest l = Some (last (sort_by_datetime l) d).
Proof.
  induction l as [|x l IH]; intro N; [congruence|].
  cbn [sort_by_datetime newest].
  rewrite insert_last by apply sort_ascending.
  destruct l as [|y l]; [reflexivity|].
  rewrite IH by discriminate.
  destruct (sort_by_datetime (y :: l)) eqn:S.
  - apply sort_nil in S. discriminate.
  - now destruct (dt_ltb _ _).
Qed.

Lemma newest_none (l : list file_info) : newest l = None -> l = [].
Proof.
  destruct l; simpl; auto. destruct (newest l); [|discriminate].
  destruct (dt_ltb _ _); discriminate.
Qed.

Lemma newest_In (l : list file_info) (k : file_info) :
  newest l = Some k -> In k l.
Proof.
  revert k. induction l as [|x l IH]; intros k H; simpl in *; [discriminate|].
  destruct (newest l) as [y|].
  - destruct (dt_ltb _ _); injection H as <-; auto.
  - injection H as <-; auto.
Qed.

(** Nothing is newer than the record kept. *)
Lemma newest_max (l : list file_info) (k : file_info) :
  newest l = Some k ->
  forall j, In j l -> ~ dt_lt (fi_datetime k) (fi_datetime j).
Proof.
  revert k. induction l as [|x l IH]; intros k H j Hj; simpl in *;
    [contradiction|].
  destruct (newest l) as [y|] eqn:N.
  - destruct (dt_ltb (fi_datetime y) (fi_datetime x)) eqn:E;
      injection H as <-.
    + destruct Hj as [<-|Hj]; [apply dt_lt_irrefl|].
      apply dt_ltb_lt in E. intro C.
      apply (IH y eq_refl j Hj). eapply dt_lt_trans; eauto.
    + destruct Hj as [<-|Hj]; [now apply dt_ltb_false | now apply IH].
  - injection H as <-. apply newest_none in N. subst.
    destruct Hj as [<-|[]]. apply dt_lt_irrefl.
Qed.

(** What is scanned after the record kept is strictly older. *)
Lemma newest_later (l1 l2 : list file_info) (k : file_info) :
  NoDup (l1 ++ k :: l2) -> newest (l1 ++ k :: l2) = Some k ->
  forall j, In j l2 -> dt_lt (fi_datetime j) (fi_datetime k).
Proof.
  induction l1 as [|x l1 IH]; intros D H j Hj.
  - simpl in H. destruct (newest l2) as [y|] eqn:N.
    + destruct (dt_ltb (fi_datetime y) (fi_datetime k)) eqn:E.
      * apply dt_ltb_lt in E.
        eapply dt_lt_le_trans; [|exact E].
        now apply (newest_max l2 y N).
      * injection H as ->. apply newest_In in N.
        simpl in D. apply NoDup_cons_iff in D. tauto.
    + apply newest_none in N. subst. contradiction.
  - simpl in D. apply NoDup_cons_iff in D. destruct D as [Dx D].
    change (newest (x :: (l1 ++ k :: l2)) = Some k) in H.
    cbn [newest] in H.
    destruct (newest (l1 ++ k :: l2)) as [y|] eqn:N.
    + destruct (dt_ltb _ _).
      * injection H as ->. exfalso. apply Dx, in_or_app. right. now left.
      * injection H as ->. now apply IH.
    + apply newest_none in N. now destruct l1.
Qed.

Lemma mark_false (s : list file_info) (x : file_info) :
  In (x, false) (mark s) <-> s <> [] /\ x = last s x.
Proof.
  induction s as [|y s IH].
  { simpl. split; [tauto | intros [N _]; congruence]. }
  destruct s as [|z s].
  - simpl. split.
    + intros [H|[]]. injection H as ->. split; [discriminate | reflexivity].
    + intros [_ ->]. now left.
  - change (mark (y :: z :: s)) with ((y, true) :: mark (z :: s)).
    change (last (y :: z :: s) x) with (last (z :: s) x).
    split.
    + intros [H|H]; [discriminate|]. apply IH in H.
      split; [discriminate | tauto].
    + intros [_ H]. right. apply IH. split; [discriminate | exact H].
Qed.

Lemma mark_true (s : list file_info) (x : file_info) :
  NoDup s -> In (x, true) (mark s) -> x <> last s x.
Proof.
  induction s as [|y s IH]; intros D H; [contradiction|].
  destruct s as [|z s].
  - simpl in H. destruct H as [H|[]]. discriminate.
  - change (mark (y :: z :: s)) with ((y, true) :: mark (z :: s)) in H.
    change (last (y :: z :: s) x) with (last (z :: s) x).
    apply NoDup_cons_iff in D. destruct D as [Dy D].
    destruct H as [H|H].
    + injection H as ->. intro C. apply Dy. rewrite C.
      assert (N : z :: s <> []) by discriminate.
      destruct (exists_last N) as (l0 & a & E). rewrite E, last_last.
      apply in_or_app. right. now left.
    + now apply IH.
Qed.

Lemma mark_member (s : list file_info) (x : file_info) (b : bool) :
  In (x, b) (mark s) -> In x s.
Proof.
  intro H. rewrite <- (mark_names s). now apply (in_map fst) in H.
Qed.

End Newest.

Section Rows.

Lemma bucket_In (k : key) (l : list file_info) (i : file_info) :
  In i (bucket k l) <-> In i l /\ key_of i = k.
Proof.
  unfold bucket. rewrite filter_In, key_eqb_eq. tauto.
Qed.

(** The rows of a set of records: those of the students with several
    records, the newest of each kept. *)
Lemma rows_spec (l : list file_info) (i : file_info) (b : bool) :
  NoDup l ->
  (In (i, b) (flat_map bucket_rows (group l))
   <-> In i l
       /\ (1 < length (bucket (key_of i) l))%nat
       /\ (b = false <-> newest (bucket (key_of i) l) = Some i)).
Proof.
  intro D. destruct (group_grouped l) as (G1 & G2 & G3).
  assert (S : forall vs, NoDup vs -> vs <> [] ->
                In i vs ->
                (In (i, b) (mark (sort_by_datetime vs))
                 <-> (b = false <-> newest vs = Some i))).
  { intros vs Dv Nv Iv. rewrite (sort_last vs i Nv).
    assert (Ds : NoDup (sort_by_datetime vs)).
    { eapply Permutation_NoDup; [apply Permutation_sym, sort_perm | auto]. }
    assert (Is : In i (sort_by_datetime vs)).
    { eapply Permutation_in; [apply Permutation_sym, sort_perm | auto]. }
    split.
    - intro H. destruct b.
      + pose proof (mark_true _ _ Ds H). split; congruence.
      + apply mark_false in H. destruct H as [_ H]. split; congruence.
    - intro H. destruct b.
      + destruct (mark_In _ _ Is) as [M|M]; auto.
        exfalso. assert (true = false); [|discriminate].
        apply H. now rewrite M.
      + apply mark_false. split.
        * intro C. rewrite C in Is. contradiction.
        * assert (E : Some (last (sort_by_datetime vs) i) = Some i)
            by now apply H.
          congruence. }
  rewrite in_flat_map. split.
  - intros ((k & vs) & Hb & Hr). unfold bucket_rows in Hr. simpl in Hr.
    destruct (1 <? length vs)%nat eqn:L; [|contradiction].
    destruct (G2 k vs Hb) as [E N].
    assert (Iv : In i vs).
    { apply mark_member in Hr.
      eapply Permutation_in; [apply sort_perm | exact Hr]. }
    assert (K : key_of i = k) by (rewrite E in Iv; now apply bucket_In in Iv).
    rewrite K, <- E.
    split; [rewrite E in Iv; now apply bucket_In in Iv|].
    split; [now apply Nat.ltb_lt|].
    apply S; auto. rewrite E. unfold bucket. now apply NoDup_filter.
  - intros (Il & L & H).
    pose proof (G3 i Il) as Hk. apply in_map_iff in Hk.
    destruct Hk as ((k & vs) & Ek & Hb). simpl in Ek. subst k.
    destruct (G2 _ _ Hb) as [E N].
    exists (key_of i, vs). split; [exact Hb|].
    unfold bucket_rows. simpl. rewrite E.
    apply Nat.ltb_lt in L. rewrite L. rewrite <- E.
    apply S; auto.
    + rewrite E. unfold bucket. now apply NoDup_filter.
    + rewrite E. apply bucket_In. auto.
    + now rewrite E.
Qed.

Lemma infos_distinct (d : directory) :
  NoDup (names d) -> NoDup (infos d).
Proof.
  intro D. apply infos_NoDup in D. now apply NoDup_map_inv in D.
Qed.

Lemma folder_rows (d : directory) (i : file_info) (b : bool) :
  NoDup (names d) ->
  (In (i, b) (find_duplicates_in_folder d)
   <-> In i (infos d)
       /\ (1 < length (bucket (key_of i) (infos d)))%nat
       /\ (b = false <-> newest (bucket (key_of i) (infos d)) = Some i)).
Proof.
  intro D. unfold find_duplicates_in_folder. rewrite scan_group.
  apply rows_spec. now apply infos_distinct.
Qed.

Lemma bucket_app (k : key) (l1 l2 : list file_info) :
  bucket k (l1 ++ l2) = (bucket k l1 ++ bucket k l2)%list.
Proof. apply filter_app. Qed.

End Rows.

(** ** Moves into the quarantine folder *)

Section Moves.

Lemma lookup_In (name : string) (d : directory) (x : node) :
  lookup name d = Some x -> In (name, x) d.
Proof.
  induction d as [|[n y] d IH]; simpl; [discriminate|].
  destruct (String.eqb_spec n name) as [->|E].
  - intro H. injection H as ->. now left.
  - intro H. right. auto.
Qed.

Lemma lookup_none (name : string) (d : directory) :
  lookup name d = None <-> ~ In name (names d).
Proof.
  rewrite <- exists_in_In. unfold exists_in.
  destruct (lookup name d); split; congruence.
Qed.

(** A folder is the file taken out and what is left. *)
Lemma remove_perm (name : string) (x : node) (d : directory) :
  NoDup (names d) -> lookup name d = Some x ->
  Permutation d ((name, x) :: remove name d).
Proof.
  induction d as [|[n y] d IH]; intros D H; simpl in *; [discriminate|].
  apply NoDup_cons_iff in D. destruct D as [Dn D].
  destruct (String.eqb_spec n name) as [->|E]; simpl.
  - injection H as ->. apply perm_skip.
    assert (R : remove name d = d); [|now rewrite R].
    unfold remove. apply forallb_filter_id. apply forallb_forall.
    intros [m z] Hm. simpl. apply negb_true_iff. apply String.eqb_neq.
    intro C. subst. apply Dn. now apply (in_map fst) in Hm.
  - eapply perm_trans; [apply perm_skip, IH; auto | apply perm_swap].
Qed.

Lemma remove_names (name : string) (d : directory) :
  NoDup (names d) -> NoDup (names (remove name d)).
Proof. apply keep_distinct. Qed.

Lemma names_app (d d' : directory) :
  names (d ++ d')%list = (names d ++ names d')%list.
Proof. apply map_app. Qed.

Lemma dest_keeps_distinct (filename : string) (x : node) (dups : directory) :
  NoDup (names dups) ->
  NoDup (names (dups ++ [(dest_path filename dups, x)])%list).
Proof.
  intro D. rewrite names_app. simpl.
  apply (Permutation_NoDup (l := dest_path filename dups :: names dups)).
  - apply Permutation_cons_append.
  - constructor; auto.
    pose proof (dest_path_fresh filename dups) as F.
    intro C. apply exists_in_In in C. congruence.
Qed.

(** One pass of [move_duplicates]: what leaves the class folder, what
    arrives in the quarantine folder, and that no body is lost. *)
Lemma move_duplicates_spec (can_move : string -> bool)
      (rows : list dup_row) :
  forall st,
    NoDup (names (class_dir st)) -> NoDup (names (dup_dir st)) ->
    let st' := fst (move_duplicates can_move rows st) in
    (forall e, In e (class_dir st')
               <-> In e (class_dir st)
                   /\ ~ (In (fst e) (flagged rows)
                         /\ can_move (fst e) = true))
    /\ exists added,
         dup_dir st' = (dup_dir st ++ added)%list
         /\ length added = snd (move_duplicates can_move rows st)
         /\ NoDup (names (dup_dir st'))
         /\ Permutation (map snd added ++ map snd (class_dir st'))%list
                        (map snd (class_dir st)).
Proof.
  induction rows as [|[fi b] rows IH]; intros st Dc Dd; cbn zeta.
  - simpl. split; [intro e; unfold flagged; simpl; tauto|].
    exists []. rewrite app_nil_r. auto.
  - cbn [move_duplicates]. destruct b.
    + unfold move.
      destruct (lookup (fi_filename fi) (class_dir st)) as [x|] eqn:L.
      * destruct (can_move (fi_filename fi)) eqn:C.
        -- set (st1 := mkstore (remove (fi_filename fi) (class_dir st))
                         (dup_dir st
                          ++ [(dest_path (fi_filename fi) (dup_dir st), x)])
                         %list).
           specialize (IH st1 (remove_names _ _ Dc)
                          (dest_keeps_distinct _ x _ Dd)).
           cbn zeta in IH. destruct IH as (I1 & added & A1 & A2 & A3 & A4).
           destruct (move_duplicates can_move rows st1) as [st2 n] eqn:M.
           simpl in *. split.
           ++ intro e. rewrite I1, remove_In. unfold flagged. simpl.
              fold (flagged rows). split.
              ** intros ((H1 & H2) & H3). split; auto.
                 intros [[H4|H4] H5]; auto.
              ** intros (H1 & H2). split; [split; auto|].
                 --- intro E. apply H2. split; [now left | now rewrite E].
                 --- intros [H3 H4]. apply H2. auto.
           ++ exists ((dest_path (fi_filename fi) (dup_dir st), x) :: added).
              split; [rewrite A1; now rewrite <- app_assoc|].
              split; [simpl; now rewrite A2|].
              split; [exact A3|]. simpl.
              eapply perm_trans; [apply perm_skip, A4|].
              apply Permutation_sym.
              apply (Permutation_map snd (remove_perm _ _ _ Dc L)).
        -- specialize (IH st Dc Dd). cbn zeta in IH.
           destruct IH as (I1 & added & A).
           split; [|exists added; exact A].
           intro e. rewrite I1. unfold flagged. simpl. fold (flagged rows).
           split; intros (H1 & H2); split; auto.
           ++ intros [[H3|H3] H4]; [congruence | auto].
           ++ intros [H3 H4]. apply H2. auto.
      * specialize (IH st Dc Dd). cbn zeta in IH.
        destruct IH as (I1 & added & A).
        split; [|exists added; exact A].
        intro e. rewrite I1. unfold flagged. simpl. fold (flagged rows).
        split; intros (H1 & H2); split; auto.
        -- intros [[H3|H3] H4]; [|auto].
           apply lookup_none in L. apply L. rewrite H3.
           now apply (in_map fst) in H1.
        -- intros [H3 H4]. apply H2. auto.
    + specialize (IH st Dc Dd). exact IH.
Qed.

End Moves.

Section QuarantineNames.

Lemma splitext_aux_join (s b e : string) :
  splitext_aux s = Some (b, e) -> b ++ e = s.
Proof.
  revert b e. induction s as [|c s IH]; intros b e H; simpl in H;
    [discriminate|].
  destruct (splitext_aux s) as [[b' e']|].
  - injection H as <- <-. simpl. now rewrite (IH b' e' eq_refl).
  - destruct (Ascii.eqb c "."); [|discriminate].
    now injection H as <- <-.
Qed.

(** [splitext] cuts a name in two. *)
Lemma splitext_join (s : string) : fst (splitext s) ++ snd (splitext s) = s.
Proof.
  unfold splitext. destruct (splitext_aux s) as [[b e]|] eqn:E.
  - destruct (all_dots b); simpl.
    + apply app_nil_r_str.
    + now apply splitext_aux_join.
  - simpl. apply app_nil_r_str.
Qed.

(** The loop stops at the first free candidate. *)
Lemma free_dest_least (base ext : string) (dups : directory) (fuel : nat) :
  forall counter dest,
    free_dest fuel counter base ext dups = Some dest ->
    exists k, (counter <= k)%nat
              /\ dest = candidate base ext k
              /\ forall j, (counter <= j < k)%nat ->
                           exists_in (candidate base ext j) dups = true.
Proof.
  induction fuel as [|fuel IH]; intros counter dest H;
    cbn [free_dest] in H; [discriminate|].
  change (base ++ "_dup" ++ str_of_nat counter ++ ext)
    with (candidate base ext counter) in H.
  destruct (exists_in (candidate base ext counter) dups) eqn:E.
  - destruct (IH _ _ H) as (k & K1 & K2 & K3).
    exists k. split; [lia|]. split; auto.
    intros j Hj. destruct (Nat.eq_dec j counter) as [->|N]; auto.
    apply K3. lia.
  - injection H as <-. exists counter. split; [lia|]. split; auto.
    intros j Hj. lia.
Qed.

Lemma dest_path_least (filename : string) (dups : directory) :
  exists_in filename dups = true ->
  exists k, (1 <= k)%nat
            /\ dest_path filename dups
               = candidate (fst (splitext filename))
                           (snd (splitext filename)) k
            /\ forall j, (1 <= j < k)%nat ->
                 exists_in (candidate (fst (splitext filename))
                                      (snd (splitext filename)) j) dups
                 = true.
Proof.
  intro E. unfold dest_path. rewrite E.
  destruct (splitext filename) as [base ext]. cbn [fst snd].
  pose proof (free_dest_total base ext dups) as T.
  destruct (free_dest (S (length dups)) 1 base ext dups) as [dest|] eqn:F;
    [|congruence].
  now apply free_dest_least in F.
Qed.

End QuarantineNames.

(** ** The score as a function of the last answers *)

Section ScoreFacts.

Lemma dict_set_keys (q p : Z) (d : list (Z * Z)) :
  map fst (dict_set q p d)
  = if existsb (Z.eqb q) (map fst d) then map fst d
    else (map fst d ++ [q])%list.
Proof.
  induction d as [|[q' p'] d IH]; simpl; auto.
  rewrite (Z.eqb_sym q q').
  destruct (q' =? q) eqn:E; simpl; auto.
  rewrite IH. now destruct (existsb (Z.eqb q) (map fst d)).
Qed.

Lemma dict_set_NoDup (q p : Z) (d : list (Z * Z)) :
  NoDup (map fst d) -> NoDup (map fst (dict_set q p d)).
Proof.
  intro D. rewrite dict_set_keys.
  destruct (existsb (Z.eqb q) (map fst d)) eqn:E; auto.
  apply (Permutation_NoDup (l := q :: map fst d)).
  - apply Permutation_cons_append.
  - constructor; auto. intro C.
    assert (existsb (Z.eqb q) (map fst d) = true); [|congruence].
    apply existsb_exists. exists q. split; auto. apply Z.eqb_refl.
Qed.

Lemma question_dict_NoDup (questions : list answer) :
  NoDup (map fst (question_dict questions)).
Proof.
  unfold question_dict.
  assert (G : forall d, NoDup (map fst d) ->
                NoDup (map fst
                   (fold_left (fun d (a : answer) =>
                      let '(q_num, points, _, _) := a in
                      dict_set q_num points d) questions d))).
  { induction questions as [|[[[q p] b] f] qs IH]; intros d D; simpl; auto.
    apply IH. now apply dict_set_NoDup. }
  apply G. constructor.
Qed.

Lemma dict_get_In (d : list (Z * Z)) (q p : Z) :
  NoDup (map fst d) -> (In (q, p) d <-> dict_get q d = Some p).
Proof.
  induction d as [|[q' p'] d IH]; intro D; simpl.
  - split; [tauto | discriminate].
  - apply NoDup_cons_iff in D. destruct D as [Dq D].
    destruct (Z.eqb_spec q' q) as [->|N].
    + split.
      * intros [H|H]; [congruence|].
        exfalso. apply Dq. now apply (in_map fst) in H.
      * intro H. left. congruence.
    + rewrite <- (IH D). split; [intros [H|H]; [congruence | auto] | auto].
Qed.

Lemma dict_NoDup (d : list (Z * Z)) : NoDup (map fst d) -> NoDup d.
Proof. apply NoDup_map_inv. Qed.

(** Two dictionaries with the same look-ups hold the same items. *)
Lemma same_lookups (d1 d2 : list (Z * Z)) :
  NoDup (map fst d1) -> NoDup (map fst d2) ->
  (forall q, dict_get q d1 = dict_get q d2) -> Permutation d1 d2.
Proof.
  intros D1 D2 H. apply NoDup_Permutation; auto using dict_NoDup.
  intros [q p]. now rewrite !dict_get_In, H.
Qed.

Lemma sum_perm (l1 l2 : list Z) : Permutation l1 l2 -> sum l1 = sum l2.
Proof.
  induction 1; auto; rewrite ?sum_cons in *; lia.
Qed.

Lemma max_perm (l1 l2 : list Z) :
  Permutation l1 l2 -> max_or_5 l1 = max_or_5 l2.
Proof.
  intro P. destruct l1 as [|x l1].
  - apply Permutation_nil in P. now subst.
  - assert (N1 : x :: l1 <> []) by discriminate.
    assert (N2 : l2 <> []).
    { intro C. subst. apply Permutation_sym, Permutation_nil in P.
      discriminate. }
    pose proof (max_or_5_In _ N1) as I1.
    pose proof (max_or_5_In _ N2) as I2.
    pose proof (max_or_5_ge (x :: l1)) as G1.
    pose proof (max_or_5_ge l2) as G2.
    rewrite Forall_forall in G1, G2.
    apply (Permutation_in _ P) in I1.
    apply (Permutation_in _ (Permutation_sym P)) in I2.
    specialize (G1 _ I2). specialize (G2 _ I1). lia.
Qed.

(** The score is a function of the dictionary's items, whatever their
    order. *)
Lemma score_of_perm (q1 q2 : list answer) :
  Permutation (question_dict q1) (question_dict q2) ->
  calculate_score q1 = calculate_score q2.
Proof.
  intro P. unfold calculate_score.
  destruct (question_dict q1) as [|a d1] eqn:E1.
  - apply Permutation_nil in P. now rewrite P.
  - destruct (question_dict q2) as [|b d2] eqn:E2.
    + apply Permutation_sym, Permutation_nil in P. discriminate.
    + cbv zeta.
      rewrite (Permutation_length P).
      rewrite (max_perm _ _ (Permutation_map snd P)).
      rewrite (sum_perm _ _ (Permutation_map snd P)).
      reflexivity.
Qed.

Lemma score_of_last (q1 q2 : list answer) :
  (forall q, last_points q q1 = last_points q q2) ->
  calculate_score q1 = calculate_score q2.
Proof.
  intro H. apply score_of_perm, same_lookups;
    auto using question_dict_NoDup.
  intro q. now rewrite !question_dict_last.
Qed.

Lemma percent_full (t : Z) : 0 < t -> percent_of t t = Some 100.
Proof.
  intro H. unfold percent_of, true_div.
  destruct (Z.eqb_spec t 0); [lia|].
  replace (Z.sgn t * Z.sgn t =? -1) with false by (symmetry; apply Z.eqb_neq; nia).
  rewrite (Z.abs_eq t) by lia.
  assert (R : round_ratio false t t = Some (mkfloat false (2 ^ 52) (-52))).
  { unfold round_ratio.
    destruct (Z.eqb_spec t 0); [lia|].
    assert (L : ilog2_ratio t t = 0).
    { unfold ilog2_ratio. rewrite Z.sub_diag. cbv zeta.
      change (0 <? 0) with false. cbv iota.
      rewrite Z.pow_0_r, Z.mul_1_r, Z.leb_refl. reflexivity. }
    rewrite L. cbv zeta.
    change (Z.max (0 - 52) (-1074)) with (-52).
    change (-52 <? 0) with true. cbv iota.
    assert (M : rne_div (t * 2 ^ (- -52)) t = 2 ^ 52).
    { unfold rne_div. rewrite (Z.mul_comm t), Z_div_mult by lia.
      rewrite Z_mod_mult. cbv zeta.
      replace (2 * 0 <? t) with true by (symmetry; apply Z.ltb_lt; lia).
      reflexivity. }
    rewrite M. reflexivity. }
  rewrite R. reflexivity.
Qed.

Lemma sum_uniform (P : Z) (l : list Z) :
  Forall (eq P) l -> sum l = Z.of_nat (length l) * P.
Proof.
  induction 1 as [|x l E F IH]; [reflexivity|].
  rewrite sum_cons, IH. subst. simpl length. lia.
Qed.

Lemma max_uniform (P : Z) (l : list Z) :
  Forall (eq P) l -> l <> [] -> max_or_5 l = P.
Proof.
  intros F N. pose proof (max_or_5_In l N) as I.
  rewrite Forall_forall in F. symmetry. now apply F.
Qed.

Lemma dict_set_length (q p : Z) (d : list (Z * Z)) :
  (length d <= length (dict_set q p d) <= S (length d))%nat.
Proof.
  induction d as [|[q' p'] d IH]; simpl; [lia|].
  destruct (q' =? q); simpl; lia.
Qed.

Lemma fold_dict_length (questions : list answer) :
  forall d,
    let r := fold_left (fun d (a : answer) =>
               let '(q_num, points, _, _) := a in
               dict_set q_num points d) questions d in
    (length d <= length r <= length d + length questions)%nat.
Proof.
  induction questions as [|[[[q p] b] f] qs IH]; intro d; simpl; [lia|].
  specialize (IH (dict_set q p d)). simpl in IH.
  pose proof (dict_set_length q p d). lia.
Qed.

Lemma question_dict_length (questions : list answer) :
  (length (question_dict questions) <= length questions)%nat
  /\ (questions <> [] -> question_dict questions <> []).
Proof.
  unfold question_dict. split.
  - pose proof (fold_dict_length questions []) as G. simpl in G. lia.
  - intros N C. destruct questions as [|[[[q p] b] f] qs]; [congruence|].
    simpl in C. pose proof (fold_dict_length qs [(q, p)]) as G.
    cbv zeta in G. rewrite C in G. simpl in G. lia.
Qed.

(** When every answer earned the same points [P]. *)
Lemma score_uniform (P : Z) (questions : list answer) :
  Forall (fun a => points_of a = P) questions -> questions <> [] ->
  exists n,
    1 <= n <= Z.of_nat (length questions)
    /\ calculate_score questions
       = Some (n * P, n * P, if 0 <? P then 100 else 0, n).
Proof.
  intros F N.
  assert (V : Forall (eq P) (map snd (question_dict questions))).
  { apply question_dict_values.
    eapply Forall_impl; [|exact F]. intros a Ha. now symmetry. }
  destruct (question_dict_length questions) as [L1 L2].
  specialize (L2 N).
  exists (Z.of_nat (length (question_dict questions))).
  assert (L3 : (1 <= length (question_dict questions))%nat).
  { destruct (question_dict questions); [congruence | simpl; lia]. }
  split; [lia|].
  unfold calculate_score.
  destruct (question_dict questions) as [|a d] eqn:E; [congruence|].
  cbv zeta.
  rewrite (sum_uniform P _ V).
  rewrite (max_uniform P _ V) by discriminate.
  rewrite length_map.
  set (n := Z.of_nat (length (a :: d))) in *.
  destruct (Z.ltb_spec 0 P) as [HP|HP].
  - replace (0 <? n * P) with true by (symmetry; apply Z.ltb_lt; nia).
    rewrite percent_full by nia. reflexivity.
  - replace (0 <? n * P) with false by (symmetry; apply Z.ltb_ge; nia).
    reflexivity.
Qed.

End ScoreFacts.

(** ** Regular expressions: what a greedy match takes *)

Section RegexSteps.

Context {R : Type}.

(** A repetition that can take no more than [m] and succeeds with it
    takes [m]. *)
Lemma greedy_longest (p : ascii -> bool) (m t : string) :
  forall (k : string -> string -> option R) (x : R),
    forallb_str p m = true -> stops p t = true -> k m t = Some x ->
    greedy p k (m ++ t) = Some x.
Proof.
  induction m as [|c m IH]; intros k x F S K.
  - simpl. destruct t as [|c t]; simpl in *; auto.
    apply negb_true_iff in S. now rewrite S.
  - simpl in F. apply andb_true_iff in F. destruct F as [Fc F].
    simpl. rewrite Fc.
    now rewrite (IH (fun m r => k (String c m) r) x F S K).
Qed.

Lemma greedy1_longest (p : ascii -> bool) (m t : string)
      (k : string -> string -> option R) (x : R) :
  m <> "" -> forallb_str p m = true -> stops p t = true ->
  k m t = Some x -> greedy1 p k (m ++ t) = Some x.
Proof.
  intros N F S K. destruct m as [|c m]; [congruence|].
  simpl in F. apply andb_true_iff in F. destruct F as [Fc F].
  simpl. rewrite Fc.
  now apply (greedy_longest p m t (fun m r => k (String c m) r)).
Qed.

(** A repetition gives back what it took beyond [m] when nothing
    longer lets the rest succeed. *)
Lemma greedy_back (p : ascii -> bool) (m t : string) :
  forall (k : string -> string -> option R) (x : R),
    forallb_str p m = true -> k m t = Some x ->
    (forall m' t', m' <> "" -> t = m' ++ t' ->
                   forallb_str p m' = true -> k (m ++ m') t' = None) ->
    greedy p k (m ++ t) = Some x.
Proof.
  induction m as [|c m IH]; intros k x F K B.
  - simpl. destruct t as [|c t]; simpl; auto.
    destruct (p c) eqn:Pc; auto.
    destruct (greedy p (fun m r => k (String c m) r) t) as [y|] eqn:G; auto.
    apply greedy_sound in G. destruct G as (m1 & t1 & E & F1 & K1).
    assert (C : k ("" ++ String c m1) t1 = None).
    { apply B; [discriminate | simpl; now rewrite E|].
      simpl. now rewrite Pc, F1. }
    simpl in C. congruence.
  - simpl in F. apply andb_true_iff in F. destruct F as [Fc F].
    simpl. rewrite Fc.
    rewrite (IH (fun m r => k (String c m) r) x F K); auto.
Qed.

Lemma greedy1_back (p : ascii -> bool) (m t : string)
      (k : string -> string -> option R) (x : R) :
  m <> "" -> forallb_str p m = true -> k m t = Some x ->
  (forall m' t', m' <> "" -> t = m' ++ t' ->
                 forallb_str p m' = true -> k (m ++ m') t' = None) ->
  greedy1 p k (m ++ t) = Some x.
Proof.
  intros N F K B. destruct m as [|c m]; [congruence|].
  simpl in F. apply andb_true_iff in F. destruct F as [Fc F].
  simpl. rewrite Fc.
  apply (greedy_back p m t (fun m r => k (String c m) r)); auto.
Qed.

End RegexSteps.

Section MatchSteps.

Lemma lit_step (l t : string) (rest : list item) (gs : list string) :
  match_items rest t = Some gs ->
  match_items (Lit l :: rest) (l ++ t) = Some gs.
Proof.
  intro H. cbn [match_items]. now rewrite prefix_app, drop_app.
Qed.

Lemma star_step (k : cls) (m t : string) (rest : list item)
      (gs : list string) :
  all_in k m = true -> stops (in_cls k) t = true ->
  match_items rest t = Some gs ->
  match_items (Star k :: rest) (m ++ t) = Some gs.
Proof.
  intros F S H. cbn [match_items].
  now apply (greedy_longest (in_cls k) m t).
Qed.

Lemma plus_step (k : cls) (m t : string) (rest : list item)
      (gs : list string) :
  m <> "" -> all_in k m = true -> stops (in_cls k) t = true ->
  match_items rest t = Some gs ->
  match_items (Plus k :: rest) (m ++ t) = Some gs.
Proof.
  intros N F S H. cbn [match_items].
  now apply (greedy1_longest (in_cls k) m t).
Qed.

Lemma group_step (k : cls) (m t : string) (rest : list item)
      (gs : list string) :
  m <> "" -> all_in k m = true -> stops (in_cls k) t = true ->
  match_items rest t = Some gs ->
  match_items (Group k :: rest) (m ++ t) = Some (m :: gs).
Proof.
  intros N F S H. cbn [match_items].
  apply (greedy1_longest (in_cls k) m t); auto. now rewrite H.
Qed.

Lemma group_end (k : cls) (m : string) :
  m <> "" -> all_in k m = true -> match_items [Group k] m = Some [m].
Proof.
  intros N F. rewrite <- (app_nil_r_str m) at 1.
  now apply group_step.
Qed.

(** A group gives back what it took beyond [m] when the rest fails
    after anything longer. *)
Lemma group_back (k : cls) (m t : string) (rest : list item)
      (gs : list string) :
  m <> "" -> all_in k m = true ->
  match_items rest t = Some gs ->
  (forall m' t', m' <> "" -> t = m' ++ t' -> match_items rest t' = None) ->
  match_items (Group k :: rest) (m ++ t) = Some (m :: gs).
Proof.
  intros N F H B. cbn [match_items].
  apply (greedy1_back (in_cls k) m t); auto.
  - now rewrite H.
  - intros m' t' N' E _. now rewrite (B m' t' N' E).
Qed.

(** The search passes over a stretch without the first character of
    the pattern. *)
Lemma search_skip (h : ascii) (l : string) (rest : list item)
      (a b : string) :
  free_of h a = true ->
  search (Lit (String h l) :: rest) (a ++ b)
  = search (Lit (String h l) :: rest) b.
Proof.
  induction a as [|c a IH]; intro F; [reflexivity|].
  simpl in F. apply andb_true_iff in F. destruct F as [Fc F].
  change (String c a ++ b) with (String c (a ++ b)).
  cbn [search match_items String.prefix].
  destruct (ascii_dec h c) as [E|E].
  - subst. now rewrite Ascii.eqb_refl in Fc.
  - now apply IH.
Qed.

Lemma search_here (items : list item) (s : string) (gs : list string) :
  match_items items s = Some gs -> search items s = Some gs.
Proof. intro H. destruct s; simpl; now rewrite H. Qed.

End MatchSteps.

(** ** The score line of a header *)

Section ScoreLine.

Lemma str_of_Z_chars (n : Z) : forallb_str int_char (str_of_Z n) = true.
Proof.
  unfold str_of_Z. destruct n as [|p|p]; [reflexivity| |]; simpl.
  - apply (forallb_str_impl is_digit); [|apply uint_digits].
    intros c H. unfold int_char. now rewrite H.
  - apply (forallb_str_impl is_digit); [|apply uint_digits].
    intros c H. unfold int_char. now rewrite H.
Qed.

Lemma int_char_free (h : ascii) (s : string) :
  int_char h = false -> forallb_str int_char s = true ->
  free_of h s = true.
Proof.
  intros H. apply forallb_str_impl. intros c Hc.
  apply negb_true_iff. apply Ascii.eqb_neq. intro E. subst. congruence.
Qed.

Lemma digits_stop (s t : string) :
  forallb_str is_digit s = true -> s <> "" -> forall k,
  (forall c, is_digit c = true -> in_cls k c = false) ->
  stops (in_cls k) (s ++ t) = true.
Proof.
  intros D N k H. destruct s as [|c s]; [congruence|].
  simpl in *. apply andb_true_iff in D. destruct D as [D _].
  now rewrite (H c D).
Qed.

(** What the three searches of the header loop find in a score line:
    the first [Score:] is the one of [Max Score:]. *)
Lemma score_line_searches (C M T P : string) :
  forallb_str int_char C = true -> forallb_str int_char T = true ->
  forallb_str is_digit M = true -> M <> "" ->
  forallb_str is_digit P = true -> P <> "" ->
  let line := "Total Questions: " ++ C ++ "   Max Score: " ++ M
              ++ "   Score: " ++ T ++ "   Percentage: " ++ P ++ "%" in
  search score_re line = Some [M]
  /\ search max_re line = Some [M]
  /\ search pct_re line = Some [P].
Proof.
  intros HC HT HM NM HP NP line.
  assert (SM : forall t, stops (in_cls Space) (M ++ t) = true).
  { intro t. apply digits_stop; auto. intros c Hc. simpl.
    now apply digit_not_space. }
  assert (SP : forall t, stops (in_cls Space) (P ++ t) = true).
  { intro t. apply digits_stop; auto. intros c Hc. simpl.
    now apply digit_not_space. }
  split; [|split].
  - replace line
      with (("Total Questions: " ++ C ++ "   Max ")
            ++ "Score:" ++ " " ++ M ++ "   Score: " ++ T
            ++ "   Percentage: " ++ P ++ "%")
      by (unfold line; now rewrite !app_assoc_str).
    unfold score_re. rewrite search_skip.
    + apply search_here. apply lit_step, star_step; auto.
      apply group_step; auto.
    + change ("Total Questions: " ++ C ++ "   Max ")
        with ("Total Questions: " ++ (C ++ "   Max ")).
      repeat apply free_of_app; try reflexivity; now apply int_char_free.
  - replace line
      with (("Total Questions: " ++ C ++ "   ")
            ++ "Max Score:" ++ " " ++ M ++ "   Score: " ++ T
            ++ "   Percentage: " ++ P ++ "%")
      by (unfold line; now rewrite !app_assoc_str).
    unfold max_re. rewrite search_skip.
    + apply search_here. apply lit_step, star_step; auto.
      apply group_step; auto.
    + change ("Total Questions: " ++ C ++ "   ")
        with ("Total Questions: " ++ (C ++ "   ")).
      repeat apply free_of_app; try reflexivity; now apply int_char_free.
  - replace line
      with (("Total Questions: " ++ C ++ "   Max Score: " ++ M
             ++ "   Score: " ++ T ++ "   ")
            ++ "Percentage:" ++ " " ++ P ++ "%")
      by (unfold line; now rewrite !app_assoc_str).
    unfold pct_re. rewrite search_skip.
    + apply search_here. apply lit_step, star_step; auto.
      apply group_step; auto.
    + change ("Total Questions: " ++ C ++ "   Max Score: " ++ M
              ++ "   Score: " ++ T ++ "   ")
        with ("Total Questions: "
              ++ (C ++ ("   Max Score: "
                        ++ (M ++ ("   Score: " ++ (T ++ "   ")))))).
      assert (HM' : forallb_str int_char M = true).
      { apply (forallb_str_impl is_digit); auto.
        intros c Hc. unfold int_char. now rewrite Hc. }
      repeat apply free_of_app; try reflexivity; now apply int_char_free.
Qed.

End ScoreLine.

(** ** A completed record, read back *)

Section ReadBack.

(** The header loop on a score line: the total it reads is the
    maximum. *)
Lemma header_line_score (f : header_fields) (c m t p : Z) :
  0 <= m -> 0 <= p ->
  int_fits (str_of_Z m) = true -> int_fits (str_of_Z p) = true ->
  header_line f (score_line c m t p)
  = Some (mkfields (h_student_id f) (h_student_name f) m m p).
Proof.
  intros Hm Hp Fm Fp.
  destruct (str_of_Z_digits m Hm) as [Dm Nm].
  destruct (str_of_Z_digits p Hp) as [Dp Np].
  destruct (score_line_searches (str_of_Z c) (str_of_Z m) (str_of_Z t)
              (str_of_Z p) (str_of_Z_chars c) (str_of_Z_chars t)
              Dm Nm Dp Np) as (S1 & S2 & S3).
  fold (score_line c m t p) in S1, S2, S3.
  unfold header_line.
  assert (A : startswith "Student:" (score_line c m t p) = false)
    by reflexivity.
  assert (B : contains "Total Questions:" (score_line c m t p) = true).
  { apply contains_here. apply (prefix_app "Total Questions:"). }
  assert (C : contains "Score:" (score_line c m t p) = true).
  { unfold score_line.
    replace ("Total Questions: " ++ str_of_Z c ++ "   Max Score: "
             ++ str_of_Z m ++ "   Score: " ++ str_of_Z t
             ++ "   Percentage: " ++ str_of_Z p ++ "%")
      with (("Total Questions: " ++ str_of_Z c ++ "   Max ")
            ++ "Score: " ++ str_of_Z m ++ "   Score: " ++ str_of_Z t
            ++ "   Percentage: " ++ str_of_Z p ++ "%")
      by now rewrite !app_assoc_str.
    apply contains_app_r, contains_here. apply (prefix_app "Score:"). }
  rewrite A, B, C, S1, S2, S3. cbn [andb int_group].
  now rewrite !py_int_str by assumption.
Qed.

Lemma free_of_digits (sep : ascii) (s : string) :
  is_digit sep = false -> forallb_str is_digit s = true ->
  free_of sep s = true.
Proof.
  intro H. apply forallb_str_impl. intros c Hc.
  apply negb_true_iff, Ascii.eqb_neq. intro E. subst. congruence.
Qed.

Lemma score_line_one_line (c m t p : Z) :
  free_of "010" (score_line c m t p) = true.
Proof.
  unfold score_line.
  repeat apply free_of_app; try reflexivity;
    apply int_char_free; auto using str_of_Z_chars.
Qed.

Lemma split1_free (sep : ascii) (s : string) :
  free_of sep s = true -> split1 sep s = [s].
Proof.
  induction s as [|c s IH]; intro F; [reflexivity|].
  simpl in F. apply andb_true_iff in F. destruct F as [Fc F].
  simpl. apply negb_true_iff in Fc. rewrite Fc, (IH F). reflexivity.
Qed.

(** No text that starts with a non-digit occurs among digits. *)
Lemma contains_digits (h : ascii) (n s : string) :
  is_digit h = false -> forallb_str is_digit s = true ->
  contains (String h n) s = false.
Proof.
  intros H. induction s as [|c s IH]; intro D; [reflexivity|].
  simpl in D. apply andb_true_iff in D. destruct D as [Dc D].
  rewrite contains_cons, (IH D), orb_false_r.
  cbn [String.prefix]. destruct (ascii_dec h c); auto. subst. congruence.
Qed.

(** The [Student:] line of a numeric identifier. *)
Lemma header_line_student (f : header_fields) (s : string) :
  forallb_str is_digit s = true -> s <> "" ->
  header_line f ("Student: " ++ s)
  = Some (mkfields (Some s) "" (h_total_score f) (h_max_score f)
                   (h_percentage f)).
Proof.
  intros D N. unfold header_line.
  change (startswith "Student:" ("Student: " ++ s)) with true. cbv iota.
  assert (R : replace "Student:" "" ("Student: " ++ s) = " " ++ s).
  { unfold replace.
    change ("Student: " ++ s) with (String "S" ("tudent: " ++ s)).
    cbn [replace_from].
    change (String.prefix "Student:" (String "S" ("tudent: " ++ s)))
      with true.
    cbv iota. cbn [len String.length Nat.sub append replace_from].
    change (String.prefix "Student:" (String " " s)) with false.
    cbv iota. f_equal. apply (replace_none "Student:" "" s).
    now apply contains_digits. }
  rewrite R. unfold strip.
  change (lstrip (" " ++ s)) with (lstrip s).
  rewrite lstrip_no_space, rstrip_no_space by now apply digits_no_space.
  rewrite split1_free; [reflexivity|].
  now apply free_of_digits.
Qed.

Lemma header_loop_app (l1 l2 : list string) (f f1 : header_fields) :
  header_loop f l1 = Some f1 ->
  header_loop f (l1 ++ l2) = header_loop f1 l2.
Proof.
  revert f. induction l1 as [|l l1 IH]; intros f H; simpl in *.
  - now injection H as ->.
  - destruct (header_line f l); [auto | discriminate].
Qed.

(** Lines that are neither a [Student:] line nor a score line leave
    the fields as they are. *)
Lemma header_loop_plain (lines : list string) (f : header_fields) :
  (forall l, In l lines ->
             startswith "Student:" l = false /\ summary_line l = false) ->
  header_loop f lines = Some f.
Proof.
  intro H. destruct (header_loop f lines) as [f'|] eqn:E.
  - destruct (header_loop_some _ _ _ E) as (A & B1 & B2 & B3 & _).
    f_equal.
    destruct A as [A1 A2]; [intros l Hl; now apply H|].
    assert (P : forall (re : list item) l,
                 In l lines ->
                 summary_line l = false \/ search re l = None)
      by (intros re l Hl; left; now apply H).
    pose proof (B1 (P score_re)) as C1.
    pose proof (B2 (P max_re)) as C2.
    pose proof (B3 (P pct_re)) as C3.
    destruct f, f'. simpl in *. congruence.
  - exfalso. apply header_loop_none in E.
    apply existsb_exists in E. destruct E as (l & Hl & R).
    unfold raising_line in R. destruct (H l Hl) as [_ S].
    rewrite S in R. discriminate.
Qed.

Lemma split_line (a b : string) :
  free_of "010" a = true ->
  split "010" (a ++ nl ++ b) = a :: split "010" b.
Proof. intro F. now apply (split_app_sep "010" a b). Qed.

Lemma report_header_shape (f s : string) (t m p c : Z)
      (scale : list scale_item) (content : string) :
  isdigit s = true ->
  report_header f s t m p c scale ++ content
  = f ++ nl
    ++ ("Student: " ++ zfill 2 s) ++ nl
    ++ repeat_char "=" 67 ++ nl
    ++ score_line c m t p ++ nl
    ++ repeat_char "=" 67 ++ nl
    ++ (String.concat "" (map scale_line (sorted_scale scale))
        ++ nl ++ content).
Proof.
  intro D. unfold report_header, score_line. rewrite D.
  destruct (String.eqb_spec s "") as [E|_]; [now subst|].
  rewrite !app_assoc_str. reflexivity.
Qed.

(** A record completed by [generate_complete_report], read by the
    header loop of [compile_class_summary]. *)
Lemma completed_fields (f s : string) (t m p c : Z)
      (scale : list scale_item) (content : string) :
  free_of "010" f = true ->
  startswith "Student:" f = false ->
  contains "Total Questions:" f = false ->
  isdigit s = true -> 0 <= m -> 0 <= p ->
  int_fits (str_of_Z m) = true -> int_fits (str_of_Z p) = true ->
  (forall l,
      In l (split "010"
              (String.concat "" (map scale_line (sorted_scale scale))
               ++ nl ++ content)) ->
      startswith "Student:" l = false /\ summary_line l = false) ->
  extract_header_fields (report_header f s t m p c scale ++ content)
  = Some (mkfields (Some (zfill 2 s)) "" m m p).
Proof.
  intros F1 F2 F3 D Hm Hp Fm Fp Rest.
  assert (Ds : forallb_str is_digit s = true /\ s <> "").
  { unfold isdigit in D. destruct s; [discriminate|].
    split; [exact D | discriminate]. }
  destruct Ds as [Ds Ns].
  assert (Dz : forallb_str is_digit (zfill 2 s) = true)
    by now apply zfill_digits.
  assert (Nz : zfill 2 s <> "").
  { unfold zfill. destruct (2 - len s)%nat; simpl; [exact Ns|discriminate]. }
  rewrite report_header_shape by exact D.
  unfold extract_header_fields.
  rewrite (split_line f) by exact F1.
  rewrite (split_line ("Student: " ++ zfill 2 s)).
  2:{ apply free_of_app; [reflexivity|]. now apply free_of_digits. }
  rewrite (split_line (repeat_char "=" 67)) by reflexivity.
  rewrite (split_line (score_line c m t p)) by apply score_line_one_line.
  rewrite (split_line (repeat_char "=" 67)) by reflexivity.
  cbn [header_loop].
  assert (H0 : header_line initial_fields f = Some initial_fields).
  { unfold header_line. rewrite F2, F3. reflexivity. }
  rewrite H0, header_line_student by auto.
  cbn [h_total_score h_max_score h_percentage initial_fields].
  assert (H2 : forall g, header_line g (repeat_char "=" 67) = Some g)
    by (intro g; reflexivity).
  rewrite H2, header_line_score by auto.
  cbn [h_student_id h_student_name].
  rewrite H2. now apply header_loop_plain.
Qed.

End ReadBack.

(** ** The point scale of a class *)

Section Scale.

Lemma contains_mono (n a l b : string) :
  contains n l = true -> contains n (a ++ l ++ b) = true.
Proof. intro H. now apply contains_app_r, contains_app_l. Qed.

Lemma lines_without (n body l : string) :
  contains n body = false -> In l (split "010" body) ->
  contains n l = false.
Proof.
  intros H I. apply split_In in I. destruct I as (a & b & E).
  destruct (contains n l) eqn:C; auto.
  rewrite E, (contains_mono n a l b C) in H. discriminate.
Qed.

(** Before the first separator line nothing is read. *)
Lemma scale_loop_before (pre rest : list string) (ps : list scale_item) :
  (forall l, In l pre -> contains (repeat_char "=" 20) l = false) ->
  scale_loop false ps (pre ++ rest) = scale_loop false ps rest.
Proof.
  induction pre as [|l pre IH]; intro H; [reflexivity|].
  rewrite <- app_comm_cons. cbn [scale_loop]. rewrite (H l) by now left.
  cbn [andb]. apply IH. intros l' Hl'. apply H. now right.
Qed.

Lemma scale_loop_headless (lines : list string) (ps : list scale_item) :
  (forall l, In l lines -> contains (repeat_char "=" 20) l = false) ->
  scale_loop false ps lines = (ps, true).
Proof.
  intro H. rewrite <- (app_nil_r lines). now rewrite scale_loop_before.
Qed.

(** A text whose first character [a] lacks starts no earlier than
    after [a]. *)
Lemma contains_skip (h : ascii) (n a b : string) :
  free_of h a = true ->
  contains (String h n) (a ++ b) = contains (String h n) b.
Proof.
  induction a as [|c a IH]; intro F; [reflexivity|].
  simpl in F. apply andb_true_iff in F. destruct F as [Fc F].
  change (String c a ++ b) with (String c (a ++ b)).
  rewrite contains_cons, (IH F).
  cbn [String.prefix]. destruct (ascii_dec h c) as [E|E]; auto.
  subst. now rewrite Ascii.eqb_refl in Fc.
Qed.

Lemma separator_skip (a b : string) :
  free_of "=" a = true ->
  contains (repeat_char "=" 20) (a ++ b) = contains (repeat_char "=" 20) b.
Proof. apply (contains_skip "=" (repeat_char "=" 19) a b). Qed.

Lemma zfill_without (w : nat) (s : string) :
  contains (repeat_char "=" 20) (zfill w s)
  = contains (repeat_char "=" 20) s.
Proof.
  unfold zfill. apply separator_skip.
  induction (w - len s)%nat; simpl; auto.
Qed.

Lemma score_line_no_equals (c m t p : Z) :
  contains "=" (score_line c m t p) = false.
Proof.
  assert (G : forall s, free_of "=" s = true -> contains "=" s = false).
  { induction s as [|x s IH]; intro F; [reflexivity|].
    simpl in F. apply andb_true_iff in F. destruct F as [Fx F].
    rewrite contains_cons, (IH F), orb_false_r.
    cbn [String.prefix]. destruct (ascii_dec "=" x) as [E|E].
    - subst. discriminate.
    - reflexivity. }
  apply G. unfold score_line.
  repeat apply free_of_app; try reflexivity;
    apply int_char_free; auto using str_of_Z_chars.
Qed.

Lemma contains_shorter (n m s : string) :
  contains n s = false -> contains (n ++ m) s = false.
Proof.
  induction s as [|c s IH]; simpl.
  - destruct n; simpl; [discriminate | reflexivity].
  - intro H. apply orb_false_iff in H. destruct H as [H1 H2].
    rewrite (IH H2), orb_false_r.
    destruct (String.prefix (n ++ m) (String c s)) eqn:P; auto.
    apply prefix_split in P. destruct P as (t & E).
    rewrite app_assoc_str in E.
    assert (String.prefix n (String c s) = true)
      by (rewrite E; apply prefix_app).
    simpl in *. congruence.
Qed.

Lemma contains_line (n a b : string) :
  free_of "010" n = true ->
  contains n (a ++ nl ++ b) = contains n a || contains n b.
Proof. intro F. now apply (contains_sep "010" n a b). Qed.

Lemma split_lines (a b : string) :
  split "010" (a ++ nl ++ b) = (split "010" a ++ split "010" b)%list.
Proof. apply (split_app_lines "010" a b). Qed.

(** The file loop reads nothing from a standard body. *)
Lemma scale_loop_standard (body : string) (ps : list scale_item) :
  standard_body body ->
  scale_loop false ps (split "010" body) = (ps, true).
Proof.
  intros [H|(f & s & t & m & p & c & scale & content & Hf & Hs & ->)].
  - apply scale_loop_headless. intros l Hl.
    now apply (lines_without _ body).
  - set (student :=
           if (s =? "")%string then ""
           else "Student: " ++ (if isdigit s then zfill 2 s else s) ++ nl).
    assert (E : report_header f s t m p c scale ++ content
                = (f ++ nl ++ student)
                  ++ repeat_char "=" 67 ++ nl
                  ++ score_line c m t p ++ nl
                  ++ repeat_char "=" 67 ++ nl
                  ++ (String.concat "" (map scale_line (sorted_scale scale))
                      ++ nl ++ content)).
    { unfold report_header, score_line, student.
      destruct (s =? "")%string; rewrite !app_assoc_str; reflexivity. }
    rewrite E.
    assert (P : exists pre,
               f ++ nl ++ student = pre ++ nl
               /\ contains (repeat_char "=" 20) pre = false).
    { unfold student. destruct (s =? "")%string.
      - exists f. now rewrite app_nil_r_str.
      - exists (f ++ nl ++ "Student: "
                  ++ (if isdigit s then zfill 2 s else s)).
        split; [now rewrite !app_assoc_str|].
        rewrite contains_line by reflexivity. rewrite Hf. cbn [orb].
        rewrite (separator_skip "Student: ") by reflexivity.
        destruct (isdigit s); [now rewrite zfill_without | exact Hs]. }
    destruct P as (pre & Ep & Cp). rewrite Ep, app_assoc_str.
    rewrite split_lines, scale_loop_before
      by (intros l Hl; now apply (lines_without _ pre)).
    rewrite (split_line (repeat_char "=" 67)) by reflexivity.
    rewrite (split_line (score_line c m t p)) by apply score_line_one_line.
    rewrite (split_line (repeat_char "=" 67)) by reflexivity.
    cbn [scale_loop].
    change (contains (repeat_char "=" 20) (repeat_char "=" 67)) with true.
    cbv iota.
    assert (S1 : contains (repeat_char "=" 20) (score_line c m t p) = false).
    { apply (contains_shorter "=" (repeat_char "=" 19)).
      apply score_line_no_equals. }
    rewrite S1, score_line_no_equals. reflexivity.
Qed.

Lemma scale_files_standard (d : directory) :
  (forall file x body,
      In (file, x) d ->
      endswith ".txt" file && startswith "SpeakingTest_" file = true ->
      read x = Some body -> standard_body body) ->
  scale_files [] d = default_scale.
Proof.
  induction d as [|[file x] d IH]; intro H; [reflexivity|].
  cbn [scale_files].
  assert (IH' : scale_files [] d = default_scale).
  { apply IH. intros file' x' body I R. apply (H file' x' body); auto.
    now right. }
  destruct (endswith ".txt" file && startswith "SpeakingTest_" file) eqn:S;
    auto.
  destruct (read x) as [body|] eqn:R; auto.
  rewrite scale_loop_standard; auto.
  apply (H file x body); auto. now left.
Qed.

End Scale.

(** ** The completion step of [main] *)

Section MainStep.

Lemma lookup_app (name : string) (d d' : directory) :
  lookup name (d ++ d')%list
  = match lookup name d with Some x => Some x | None => lookup name d' end.
Proof.
  induction d as [|[n x] d IH]; simpl; auto.
  destruct (n =? name)%string; auto.
Qed.

Lemma lookup_remove (name : string) (d : directory) :
  lookup name (remove name d) = None.
Proof.
  apply lookup_none. intro C. apply in_map_iff in C.
  destruct C as (e & E & I). apply remove_In in I. tauto.
Qed.

(** After a renaming the old name is gone. *)
Lemma rename_gone (replaces : bool) (src dst : string) (d d1 : directory) :
  src <> dst -> rename replaces src dst d = Some d1 ->
  lookup src d1 = None.
Proof.
  intros N H. unfold rename in H.
  destruct (lookup src d) as [x|]; [|discriminate].
  destruct (String.eqb_spec src dst); [congruence|].
  assert (G : forall d0, lookup src (remove src d0 ++ [(dst, x)])%list = None).
  { intro d0. rewrite lookup_app, lookup_remove. simpl.
    destruct (String.eqb_spec dst src); congruence. }
  destruct (lookup dst d) as [[|b]|].
  - discriminate.
  - destruct replaces; [|discriminate]. injection H as <-. apply G.
  - injection H as <-. apply G.
Qed.

Lemma contains_replaced (old new s : string) :
  old <> "" -> contains old s = true ->
  contains new (replace old new s) = true.
Proof.
  intro N. unfold replace. induction s as [|c s IH]; intro H.
  - simpl in H. destruct old; [congruence | discriminate].
  - cbn [replace_from].
    destruct (String.prefix old (String c s)) eqn:P.
    + apply contains_here, prefix_app.
    + rewrite contains_cons, P in H. simpl in H.
      rewrite contains_cons, (IH H). apply orb_true_r.
Qed.

Lemma endswith_contains (p s : string) :
  endswith p s = true -> contains p s = true.
Proof.
  intro H. apply endswith_split in H. destruct H as (a & ->).
  apply contains_app_r, contains_here.
  rewrite <- (app_nil_r_str p) at 2. apply prefix_app.
Qed.

(** The name the original is renamed to is another name. *)
Lemma unprocessed_differs (filename : string) :
  endswith ".txt" filename = true ->
  contains "_Unprocessed.txt" filename = false ->
  filename <> replace ".txt" "_Unprocessed.txt" filename.
Proof.
  intros E U C.
  assert (H : contains "_Unprocessed.txt"
                (replace ".txt" "_Unprocessed.txt" filename) = true).
  { apply contains_replaced; [discriminate|].
    now apply endswith_contains. }
  rewrite <- C in H. congruence.
Qed.

(** The completion of a record in [main] never reaches its end:
    [generate_complete_report] is given the name the record no longer
    has. *)
Lemma process_file_never (replaces : bool) (can_move : string -> bool)
      (point_scale : list scale_item) (filename : string) (st st' : store) :
  process_file replaces can_move point_scale filename st <> Completed st'.
Proof.
  unfold process_file.
  destruct (startswith "SpeakingTest_" filename); [|discriminate].
  destruct (endswith ".txt" filename) eqn:E; [|discriminate].
  cbn [negb orb].
  destruct (contains "_Unprocessed.txt" filename) eqn:U; [discriminate|].
  destruct (contains "_PROCESSED.txt" filename); [discriminate|].
  cbn [orb].
  destruct (match lookup filename (class_dir st) with
            | Some x => parse_incomplete_test x
            | None => Some ([], true)
            end) as [[questions hh]|]; [|discriminate].
  destruct (negb hh && _); [|discriminate].
  destruct (extract_info_from_filename filename) as [[[c s] ts]|];
    [|discriminate].
  destruct ((c =? "")%string || (s =? "")%string); [discriminate|].
  destruct (calculate_score questions) as [[[[t m] p] q]|]; [|discriminate].
  cbv zeta.
  destruct (rename replaces filename _ (class_dir st)) as [d1|] eqn:R;
    [|discriminate].
  apply rename_gone in R; [|now apply unprocessed_differs].
  unfold generate_complete_report. rewrite R. discriminate.
Qed.

(** A record without header that holds an answer: the original is
    renamed, then the completion raises. *)
Lemma process_file_headless (replaces : bool) (can_move : string -> bool)
      (point_scale : list scale_item) (filename content c s ts : string)
      (st : store) :
  name_selected filename = true ->
  lookup filename (class_dir st) = Some (File (Some content)) ->
  has_header content = false ->
  existsb long_number (split "010" content) = false ->
  entries_of (split "010" content) <> [] ->
  extract_info_from_filename filename = Some (c, s, ts) ->
  c <> "" -> s <> "" ->
  exists_in (replace ".txt" "_Unprocessed.txt" filename) (class_dir st)
  = false ->
  process_file replaces can_move point_scale filename st
  = Failed (mkstore
              (remove filename (class_dir st)
               ++ [(replace ".txt" "_Unprocessed.txt" filename,
                    File (Some content))])%list
              (dup_dir st)).
Proof.
  intros S L H LN Q X Nc Ns F.
  unfold name_selected in S. apply andb_true_iff in S.
  destruct S as [S S3]. apply andb_true_iff in S. destruct S as [S1 S2].
  apply negb_true_iff in S3.
  apply orb_false_iff in S3 as U. destruct U as [U1 U2].
  unfold process_file. rewrite S1, S2. cbn [negb orb].
  rewrite S3, L.
  unfold parse_incomplete_test. cbn [read]. rewrite H.
  rewrite parse_lines_entries by exact LN. cbn [option_map negb andb].
  destruct (entries_of (split "010" content)) as [|a qs] eqn:Eq;
    [congruence|].
  cbn [negb]. rewrite X.
  destruct (String.eqb_spec c ""); [congruence|].
  destruct (String.eqb_spec s ""); [congruence|].
  cbn [orb].
  destruct (calculate_score_bounds (a :: qs)) as (t & m & p & q & Cs & _).
  { rewrite <- Eq. apply entries_nonneg. }
  rewrite Cs. cbv zeta.
  pose proof (unprocessed_differs filename S2 U1) as D.
  assert (R : rename replaces filename
                (replace ".txt" "_Unprocessed.txt" filename) (class_dir st)
              = Some (remove filename (class_dir st)
                      ++ [(replace ".txt" "_Unprocessed.txt" filename,
                           File (Some content))])%list).
  { unfold rename. rewrite L.
    destruct (String.eqb_spec filename
                (replace ".txt" "_Unprocessed.txt" filename));
      [congruence|].
    unfold exists_in in F.
    destruct (lookup (replace ".txt" "_Unprocessed.txt" filename)
                (class_dir st)); [discriminate | reflexivity]. }
  rewrite R.
  assert (G : lookup filename
                (remove filename (class_dir st)
                 ++ [(replace ".txt" "_Unprocessed.txt" filename,
                      File (Some content))])%list = None)
    by (eapply rename_gone; eauto).
  unfold generate_complete_report. rewrite G. reflexivity.
Qed.

End MainStep.

(** ** Compiling a summary again *)

Section Recompile.

(** Writing a file the collecting loop passes over changes nothing
    of what it collects. *)
Lemma collect_write (name body : string) (d : directory) :
  name_selected name = false -> collect (write name body d) = collect d.
Proof.
  intro S. induction d as [|[n x] d IH]; simpl.
  - now rewrite S.
  - destruct (String.eqb_spec n name) as [->|N]; simpl.
    + now rewrite S.
    + now rewrite IH.
Qed.

Lemma write_twice (name body : string) (d : directory) :
  write name body (write name body d) = write name body d.
Proof.
  induction d as [|[n x] d IH]; simpl.
  - now rewrite String.eqb_refl.
  - destruct (String.eqb_spec n name) as [->|N]; simpl.
    + now rewrite String.eqb_refl.
    + destruct (String.eqb_spec n name); [congruence|]. now rewrite IH.
Qed.

(** The summary file of a class is no record, unless the class is
    named like one. *)
Lemma summary_not_selected (class_number date_str : string) :
  startswith "SpeakingTest_" (class_number ++ "_SpeakingTest.") = false ->
  name_selected (class_number ++ "_SpeakingTest." ++ date_str ++ ".txt")
  = false.
Proof.
  intro H. unfold name_selected.
  assert (E : class_number ++ "_SpeakingTest." ++ date_str ++ ".txt"
              = (class_number ++ "_SpeakingTest.") ++ date_str ++ ".txt")
    by now rewrite app_assoc_str.
  assert (P : startswith "SpeakingTest_"
                (class_number ++ "_SpeakingTest." ++ date_str ++ ".txt")
              = false).
  { rewrite E. etransitivity; [|exact H]. unfold startswith.
    apply prefix_short. rewrite len_app. simpl. lia. }
  now rewrite P.
Qed.

(** [compile_class_summary] writes the summary file and nothing else;
    compiling again changes nothing. *)
Lemma compile_stable (today : string) (d d' : directory)
      (class_number summary_file : string) (n : nat) :
  startswith "SpeakingTest_" (class_number ++ "_SpeakingTest.") = false ->
  compile_class_summary today d class_number
  = Some (d', Some summary_file, n) ->
  n = length (collect d)
  /\ (exists body, lookup summary_file d' = Some (File (Some body)))
  /\ (forall other, other <> summary_file -> lookup other d' = lookup other d)
  /\ collect d' = collect d
  /\ compile_class_summary today d' class_number
     = Some (d', Some summary_file, n).
Proof.
  intros H C. unfold compile_class_summary in C.
  destruct (collect d) as [|first rest] eqn:E; [discriminate|].
  cbv zeta in C.
  set (date_str := date_of (e_timestamp first) today) in *.
  set (sf := class_number ++ "_SpeakingTest." ++ date_str ++ ".txt") in *.
  set (body := summary_body class_number date_str (first :: rest)) in *.
  unfold write_file in C.
  assert (W : d' = write sf body d /\ summary_file = sf
              /\ n = length (first :: rest)).
  { destruct (lookup sf d) as [[|b]|]; try discriminate;
      injection C as <- <- <-; auto. }
  destruct W as (-> & -> & ->).
  pose proof (summary_not_selected class_number date_str H) as S.
  fold sf in S.
  assert (K : collect (write sf body d) = first :: rest)
    by now rewrite collect_write.
  split; [reflexivity|].
  split; [exists body; apply lookup_write|].
  split; [intros other N; now apply lookup_write_other|].
  split; [exact K|].
  unfold compile_class_summary. rewrite K. cbv zeta.
  fold date_str. fold sf. fold body.
  unfold write_file. rewrite lookup_write, write_twice. reflexivity.
Qed.

End Recompile.

(** ** The answer lines of the application *)

Section RecordLine.
Import SpeakingTest.

Lemma rstrip_newline (l : string) :
  forallb_str (fun c => negb (is_space c)) l = true ->
  rstrip (l ++ nl) = l.
Proof.
  induction l as [|c l IH]; intro F; [reflexivity|].
  simpl in F. apply andb_true_iff in F. destruct F as [Fc F].
  apply negb_true_iff in Fc.
  change (String c l ++ nl) with (String c (l ++ nl)).
  cbn [rstrip]. rewrite (IH F). destruct l; [now rewrite Fc | reflexivity].
Qed.

Lemma no_space_suffix (m t : string) :
  forallb_str (fun c => negb (is_space c)) (m ++ t) = true ->
  stops is_space t = true.
Proof.
  rewrite forallb_str_app. intro H. apply andb_true_iff in H.
  destruct H as [_ H]. destruct t as [|c t]; [reflexivity|].
  simpl in *. now apply andb_true_iff in H.
Qed.

(** The pattern of an answer line on a line of the application. *)
Lemma question_re_line (Q P : string) (b1 b2 b3 b4 b5 : ascii)
      (label : string) :
  forallb_str is_digit Q = true -> Q <> "" ->
  forallb_str is_digit P = true -> P <> "" ->
  is_digit b1 = true -> is_digit b2 = true -> is_digit b3 = true ->
  is_digit b4 = true -> is_digit b5 = true ->
  label <> "" ->
  forallb_str (fun c => negb (is_space c)) label = true ->
  let bits :=
    String b1 (String " " (String b2 (String " " (String b3
      (String " " (String b4 (String " " (String b5 "")))))))) in
  match_items question_re
    ("Question " ++ Q ++ ": " ++ P ++ " = " ++ bits ++ " " ++ label)
  = Some [Q; P; bits; label].
Proof.
  intros DQ NQ DP NP B1 B2 B3 B4 B5 NL FL bits.
  assert (SD : forall s t, forallb_str is_digit s = true -> s <> "" ->
                           stops (in_cls Space) (s ++ t) = true).
  { intros s t D N. apply digits_stop; auto. intros c Hc. simpl.
    now apply digit_not_space. }
  assert (SL : stops (in_cls Space) label = true).
  { apply (no_space_suffix ""). exact FL. }
  assert (AL : all_in AnyChar label = true).
  { unfold all_in. apply (forallb_str_impl (fun c => negb (is_space c)));
      auto.
    intros c Hc. simpl. apply negb_true_iff. apply negb_true_iff in Hc.
    destruct (Ascii.eqb_spec c "010"); auto. subst. discriminate. }
  change ("Question " ++ Q ++ ": " ++ P ++ " = " ++ bits ++ " " ++ label)
    with ("Question" ++ " " ++ Q ++ ":" ++ " " ++ P ++ " " ++ "=" ++ " "
          ++ bits ++ " " ++ label).
  unfold question_re.
  apply lit_step.
  apply plus_step; [discriminate | reflexivity | now apply SD |].
  apply group_step; [exact NQ | exact DQ | reflexivity |].
  apply lit_step.
  apply plus_step; [discriminate | reflexivity | now apply SD |].
  apply group_step; [exact NP | exact DP | reflexivity |].
  apply plus_step; [discriminate | reflexivity | reflexivity |].
  apply lit_step.
  apply plus_step; [discriminate | reflexivity | |].
  { unfold bits. simpl. now rewrite (digit_not_space b1 B1). }
  apply group_back.
  - discriminate.
  - unfold bits, all_in. simpl. now rewrite B1, B2, B3, B4, B5.
  - apply plus_step; [discriminate | reflexivity | exact SL |].
    now apply group_end.
  - intros m' t' N E. destruct m' as [|c m']; [congruence|].
    simpl in E. injection E as _ E.
    cbn [match_items]. rewrite E in FL.
    apply no_space_suffix in FL.
    destruct t' as [|x t']; [reflexivity|].
    simpl in *. apply negb_true_iff in FL. now rewrite FL.
Qed.

Lemma py_int_zfill (w : nat) (n : Z) :
  0 <= n -> int_fits (zfill w (str_of_Z n)) = true ->
  py_int (zfill w (str_of_Z n)) = Some n.
Proof.
  intros H F. unfold zfill in *. rewrite py_int_zeros.
  - apply py_int_str. apply (int_fits_app _ _ F).
  - now apply str_of_Z_isdigit.
  - exact F.
Qed.

(** Filling to two characters keeps a numeral within the limit. *)
Lemma int_fits_zfill2 (s : string) :
  int_fits s = true -> int_fits (zfill 2 s) = true.
Proof.
  intro F. destruct s as [|c [|c' s]]; [reflexivity| |exact F].
  unfold zfill, int_fits.
  cbn [len String.length Nat.sub repeat_char append count_digits].
  destruct (is_digit c); reflexivity.
Qed.

(** What [parse_incomplete_test] reads from a line [save_record]
    wrote. *)
Lemma record_line_parsed (image_num button points : Z) (label : string) :
  1 <= button <= 5 -> 0 <= image_num -> 0 <= points ->
  int_fits (str_of_Z image_num) = true ->
  int_fits (str_of_Z points) = true ->
  label <> "" ->
  forallb_str (fun c => negb (is_space c)) label = true ->
  exists clicks line,
    clicks_of button = Some clicks
    /\ record_line image_num button points label = Some line
    /\ parse_line line
       = Entry (image_num, points, join " " (map str_of_Z clicks), label).
Proof.
  intros Hb Hq Hp Fq Fp NL FL.
  destruct (str_of_Z_digits points Hp) as [DP NP].
  assert (DQ : forallb_str is_digit (format_02d image_num) = true
               /\ format_02d image_num <> ""
               /\ py_int (format_02d image_num) = Some image_num).
  { unfold format_02d. destruct (Z.ltb_spec image_num 0); [lia|].
    destruct (str_of_Z_digits image_num Hq) as [D N].
    split; [now apply zfill_digits|].
    split; [|now apply py_int_zfill, int_fits_zfill2].
    unfold zfill. destruct (2 - len (str_of_Z image_num))%nat; simpl;
      [exact N | discriminate]. }
  destruct DQ as (DQ & NQ & VQ).
  assert (G : forall b1 b2 b3 b4 b5 : ascii,
             is_digit b1 = true -> is_digit b2 = true ->
             is_digit b3 = true -> is_digit b4 = true ->
             is_digit b5 = true ->
             let bits :=
               String b1 (String " " (String b2 (String " " (String b3
                 (String " " (String b4 (String " " (String b5 ""))))))))
             in
             parse_line ("Question " ++ format_02d image_num ++ ": "
                         ++ str_of_Z points ++ " = " ++ bits ++ " "
                         ++ label ++ nl)
             = Entry (image_num, points, bits, label)).
  { intros b1 b2 b3 b4 b5 B1 B2 B3 B4 B5 bits.
    unfold parse_line.
    assert (S : strip ("Question " ++ format_02d image_num ++ ": "
                       ++ str_of_Z points ++ " = " ++ bits ++ " "
                       ++ label ++ nl)
                = "Question " ++ format_02d image_num ++ ": "
                  ++ str_of_Z points ++ " = " ++ bits ++ " " ++ label).
    { unfold strip.
      change (lstrip ("Question " ++ format_02d image_num ++ ": "
                      ++ str_of_Z points ++ " = " ++ bits ++ " "
                      ++ label ++ nl))
        with ("Question " ++ format_02d image_num ++ ": "
              ++ str_of_Z points ++ " = " ++ bits ++ " " ++ label ++ nl).
      assert (R : rstrip (label ++ nl) = label) by now apply rstrip_newline.
      rewrite <- R at 2.
      rewrite <- !app_assoc_str.
      rewrite (app_assoc_str _ label nl).
      apply rstrip_app. now rewrite R. }
    rewrite S.
    change (startswith "Question"
              ("Question " ++ format_02d image_num ++ ": "
               ++ str_of_Z points ++ " = " ++ bits ++ " " ++ label))
      with true.
    cbv iota.
    pose proof (question_re_line (format_02d image_num) (str_of_Z points)
                  b1 b2 b3 b4 b5 label DQ NQ DP NP B1 B2 B3 B4 B5 NL FL)
      as M.
    cbv zeta in M. fold bits in M. rewrite M, VQ, py_int_str by exact Fp.
    assert (Sb : strip bits = bits).
    { assert (R5 : rstrip (String b5 "") = String b5 "").
      { cbn [rstrip]. now rewrite (digit_not_space b5 B5). }
      unfold strip.
      replace (lstrip bits) with bits
        by (unfold bits; cbn [lstrip];
            now rewrite (digit_not_space b1 B1)).
      change bits
        with (String b1 (String " " (String b2 (String " " (String b3
                (String " " (String b4 " "))))))
              ++ String b5 "") at 1.
      rewrite rstrip_app; rewrite R5; [reflexivity | discriminate]. }
    assert (Sl : strip label = label).
    { unfold strip. now rewrite lstrip_no_space, rstrip_no_space. }
    now rewrite Sb, Sl. }
  unfold record_line.
  assert (C : button = 1 \/ button = 2 \/ button = 3 \/ button = 4
              \/ button = 5) by lia.
  destruct C as [->|[->|[->|[->| ->]]]].
  - exists [1; 0; 0; 0; 0]. eexists. split; [reflexivity|].
    split; [reflexivity|]. apply (G "1" "0" "0" "0" "0")%char; reflexivity.
  - exists [0; 1; 0; 0; 0]. eexists. split; [reflexivity|].
    split; [reflexivity|]. apply (G "0" "1" "0" "0" "0")%char; reflexivity.
  - exists [0; 0; 1; 0; 0]. eexists. split; [reflexivity|].
    split; [reflexivity|]. apply (G "0" "0" "1" "0" "0")%char; reflexivity.
  - exists [0; 0; 0; 1; 0]. eexists. split; [reflexivity|].
    split; [reflexivity|]. apply (G "0" "0" "0" "1" "0")%char; reflexivity.
  - exists [0; 0; 0; 0; 1]. eexists. split; [reflexivity|].
    split; [reflexivity|]. apply (G "0" "0" "0" "0" "1")%char; reflexivity.
Qed.

End RecordLine.

(** ** The roster *)

Section Roster.
Import SpeakingTest.

Lemma rstrip_idem (s : string) : rstrip (rstrip s) = rstrip s.
Proof.
  induction s as [|c s IH]; [reflexivity|].
  cbn [rstrip]. destruct (rstrip s) as [|d r] eqn:E.
  - destruct (is_space c) eqn:Sc; [reflexivity|].
    cbn [rstrip]. now rewrite Sc.
  - cbn [rstrip]. cbn [rstrip] in IH. rewrite IH. reflexivity.
Qed.

Lemma lstrip_start (s : string) :
  lstrip s = "" \/ exists c t, lstrip s = String c t /\ is_space c = false.
Proof.
  induction s as [|c s IH]; [now left|].
  simpl. destruct (is_space c) eqn:Sc; auto.
  right. now exists c, s.
Qed.

Lemma strip_idem (s : string) : strip (strip s) = strip s.
Proof.
  unfold strip.
  assert (L : lstrip (rstrip (lstrip s)) = rstrip (lstrip s)).
  { destruct (lstrip_start s) as [E|(c & t & E & Sc)]; rewrite E.
    - reflexivity.
    - destruct (rstrip_keeps c t Sc) as (r & R). rewrite R.
      simpl. now rewrite Sc. }
  rewrite L. apply rstrip_idem.
Qed.

Lemma rstrip_app_empty (a b : string) :
  rstrip b = "" -> rstrip (a ++ b) = rstrip a.
Proof.
  intro H. induction a as [|c a IH]; [exact H|].
  change (String c a ++ b) with (String c (a ++ b)).
  cbn [rstrip]. now rewrite IH.
Qed.

Lemma split1_app (sep : ascii) (a b : string) :
  free_of sep a = true -> split1 sep (a ++ String sep b) = [a; b].
Proof.
  induction a as [|c a IH]; intro F.
  - simpl. now rewrite Ascii.eqb_refl.
  - simpl in F. apply andb_true_iff in F. destruct F as [Fc F].
    apply negb_true_iff in Fc. simpl. rewrite Fc, (IH F). reflexivity.
Qed.

Lemma no_space_free (sep : ascii) (s : string) :
  is_space sep = true ->
  forallb_str (fun c => negb (is_space c)) s = true -> free_of sep s = true.
Proof.
  intro H. apply forallb_str_impl. intros c Hc.
  apply negb_true_iff, Ascii.eqb_neq. intro E. subst.
  rewrite H in Hc. discriminate.
Qed.

(** The entry of a student, as it is read back. *)
Lemma entry_read (F name : string) :
  F <> "" -> forallb_str (fun c => negb (is_space c)) F = true ->
  let line := strip (F ++ " " ++ name) in
  line <> ""
  /\ exists tl,
       split1 " " line = F :: tl
       /\ match tl with p1 :: _ => p1 | [] => "" end = rstrip name.
Proof.
  intros N S line.
  assert (L : lstrip (F ++ " " ++ name) = F ++ " " ++ name).
  { destruct F as [|c F]; [congruence|].
    simpl in S. apply andb_true_iff in S. destruct S as [Sc _].
    apply negb_true_iff in Sc. simpl. now rewrite Sc. }
  assert (RF : rstrip F = F) by now apply rstrip_no_space.
  assert (FF : free_of " " F = true) by now apply no_space_free.
  unfold line, strip. rewrite L.
  destruct (rstrip name) as [|c r] eqn:R.
  - assert (E : rstrip (F ++ " " ++ name) = F).
    { rewrite rstrip_app_empty; auto.
      change (" " ++ name) with (String " " name).
      cbn [rstrip]. now rewrite R. }
    rewrite E. split; auto. exists []. split; auto.
    now apply split1_free.
  - assert (E : rstrip (F ++ " " ++ name) = F ++ String " " (String c r)).
    { rewrite <- R.
      replace (F ++ " " ++ name) with ((F ++ " ") ++ name)
        by now rewrite app_assoc_str.
      rewrite rstrip_app by (rewrite R; discriminate).
      now rewrite app_assoc_str. }
    rewrite E. split.
    + destruct F; [congruence | discriminate].
    + exists [String c r]. split; auto. now apply split1_app.
Qed.

Lemma insert_key_perm (x : sort_key * string)
      (l : list (sort_key * string)) :
  Permutation (insert_by_key x l) (x :: l).
Proof.
  induction l as [|y l IH]; simpl; auto.
  destruct (key_ltb _ _); auto.
  eapply perm_trans; [apply perm_skip, IH | apply perm_swap].
Qed.

Lemma sort_keyed_perm (l : list (sort_key * string)) :
  Permutation (sort_keyed l) l.
Proof.
  induction l as [|x l IH]; simpl; auto.
  eapply perm_trans; [apply insert_key_perm | now apply perm_skip].
Qed.

Lemma keyed_lines (l : list string) (kl : list (sort_key * string)) :
  keyed l = Some kl -> map snd kl = l.
Proof.
  revert kl. induction l as [|x l IH]; intros kl H; simpl in H.
  - now injection H as <-.
  - destruct (get_sort_key x) as [k|]; [|discriminate].
    destruct (keyed l) as [r|]; [|discriminate].
    injection H as <-. simpl. now rewrite (IH r).
Qed.

(** The sort keeps the lines. *)
Lemma sort_key_perm (l l' : list string) :
  sort_by_key l = Some l' -> Permutation l' l.
Proof.
  unfold sort_by_key. intro H.
  destruct (keyed l) as [kl|] eqn:K; [|discriminate].
  injection H as <-. rewrite <- (keyed_lines _ _ K).
  apply Permutation_map, sort_keyed_perm.
Qed.

(** The lines written are the lines read back, and an empty one. *)
Lemma written_lines (ls : list string) :
  Forall (fun l => free_of "010" l = true) ls ->
  split "010" (String.concat "" (map (fun l => l ++ String "010" "") ls))
  = (ls ++ [""])%list.
Proof.
  assert (C : forall (ls : list string),
             String.concat "" ls = fold_right append "" ls).
  { induction ls0 as [|a [|b ls0] IH]; simpl in *; auto.
    - now rewrite app_nil_r_str.
    - now rewrite IH. }
  rewrite C. induction 1 as [|l ls F _ IH]; [reflexivity|].
  cbn [map fold_right].
  set (R := fold_right append ""
              (map (fun l0 => l0 ++ String "010" "") ls)) in *.
  assert (E : (l ++ String "010" "") ++ R = l ++ String "010" R)
    by (rewrite app_assoc_str; reflexivity).
  rewrite E, split_app_sep by exact F. now rewrite IH.
Qed.

End Roster.

Section RosterTrip.
Import SpeakingTest.

Lemma split_pieces_free (sep : ascii) (s l : string) :
  In l (split sep s) -> free_of sep l = true.
Proof.
  revert l. induction s as [|c s IH]; intros l H; simpl in H.
  - destruct H as [<-|[]]. reflexivity.
  - destruct (Ascii.eqb_spec c sep) as [->|N].
    + destruct H as [<-|H]; [reflexivity | auto].
    + destruct (split sep s) as [|p ps] eqn:E.
      * destruct H as [<-|[]]. simpl.
        apply andb_true_iff. split; auto.
        apply negb_true_iff, Ascii.eqb_neq. exact N.
      * destruct H as [<-|H].
        -- change (free_of sep (String c p))
             with (negb (Ascii.eqb c sep) && free_of sep p).
           rewrite (IH p) by now left.
           apply andb_true_iff. split; auto.
           apply negb_true_iff, Ascii.eqb_neq. exact N.
        -- apply IH. now right.
Qed.

Lemma lstrip_free (sep : ascii) (s : string) :
  free_of sep s = true -> free_of sep (lstrip s) = true.
Proof.
  induction s as [|c s IH]; intro F; [reflexivity|].
  simpl. destruct (is_space c); auto.
  simpl in F. apply andb_true_iff in F. now apply IH.
Qed.

Lemma rstrip_free (sep : ascii) (s : string) :
  free_of sep s = true -> free_of sep (rstrip s) = true.
Proof.
  induction s as [|c s IH]; intro F; [reflexivity|].
  simpl in F. apply andb_true_iff in F. destruct F as [Fc F].
  cbn [rstrip]. specialize (IH F).
  destruct (rstrip s) as [|d r].
  - destruct (is_space c); [reflexivity|].
    change (free_of sep (String c ""))
      with (negb (Ascii.eqb c sep) && true).
    now rewrite Fc.
  - change (free_of sep (String c (String d r)))
      with (negb (Ascii.eqb c sep) && free_of sep (String d r)).
    now rewrite Fc, IH.
Qed.

Lemma strip_free (sep : ascii) (s : string) :
  free_of sep s = true -> free_of sep (strip s) = true.
Proof. intro F. now apply rstrip_free, lstrip_free. Qed.

(** The lines of a roster: stripped, not empty, each on one line. *)
Lemma roster_lines_facts (body l : string) :
  In l (roster_lines body) ->
  l <> "" /\ strip l = l /\ free_of "010" l = true.
Proof.
  unfold roster_lines. intro H. apply filter_In in H.
  destruct H as [H N]. apply in_map_iff in H.
  destruct H as (x & <- & Hx).
  split; [|split].
  - apply negb_true_iff in N. now apply String.eqb_neq in N.
  - apply strip_idem.
  - apply strip_free. now apply (split_pieces_free _ body).
Qed.

Lemma count_digits_app (a b : string) :
  count_digits (a ++ b) = count_digits a + count_digits b.
Proof.
  induction a as [|c a IH]; [reflexivity|].
  change (String c a ++ b) with (String c (a ++ b)).
  cbn [count_digits]. rewrite IH. lia.
Qed.

Lemma fits_le (a b : string) :
  count_digits a <= count_digits b -> int_fits b = true ->
  int_fits a = true.
Proof.
  unfold int_fits. intros L H. apply Z.leb_le in H. apply Z.leb_le. lia.
Qed.

Lemma lstrip_count (s : string) : count_digits (lstrip s) <= count_digits s.
Proof.
  induction s as [|c s IH]; [reflexivity|].
  cbn [lstrip]. destruct (is_space c); [|reflexivity].
  cbn [count_digits]. destruct (is_digit c); lia.
Qed.

Lemma rstrip_count (s : string) : count_digits (rstrip s) <= count_digits s.
Proof.
  induction s as [|c s IH]; [reflexivity|].
  cbn [rstrip]. destruct (rstrip s) as [|d r].
  - destruct (is_space c); cbn [count_digits] in *;
      pose proof (count_digits_nonneg s); destruct (is_digit c); lia.
  - cbn [count_digits] in *. lia.
Qed.

(** Taking the white space off keeps a line within the limit, and so
    does cutting its first word out. *)
Lemma strip_fits (s : string) : int_fits s = true -> int_fits (strip s) = true.
Proof.
  apply fits_le. unfold strip.
  pose proof (rstrip_count (lstrip s)). pose proof (lstrip_count s). lia.
Qed.

Lemma split1_count (sep : ascii) (s tok : string) (tl : list string) :
  split1 sep s = tok :: tl -> count_digits tok <= count_digits s.
Proof.
  revert tok tl. induction s as [|c s IH]; intros tok tl H; simpl in H.
  - injection H as <- <-. reflexivity.
  - destruct (Ascii.eqb c sep).
    + injection H as <- <-. cbn [count_digits].
      pose proof (count_digits_nonneg s). destruct (is_digit c); lia.
    + destruct (split1 sep s) as [|p ps] eqn:E.
      * injection H as <- <-. cbn [count_digits].
        pose proof (count_digits_nonneg s). lia.
      * injection H as <- <-. cbn [count_digits].
        specialize (IH p ps eq_refl). lia.
Qed.

(** Within the limit of [int] the normal form of an identifier exists;
    it is the one [normalize_student_id] gives. *)
Lemma normalized_id_total (s : string) :
  int_fits s = true ->
  exists t, normalized_id s = Some t /\ t = normalize_student_id s.
Proof.
  intro F. unfold normalized_id, normalize_student_id.
  destruct (isdigit s) eqn:D; [|eauto].
  destruct (py_int_isdigit s D F) as (v & -> & _). simpl. eauto.
Qed.

Lemma normalized_id_zfill (s : string) :
  isdigit s = true -> int_fits s = true ->
  normalized_id (zfill 2 s) = normalized_id s.
Proof.
  intros D F.
  destruct (normalized_id_total s F) as (t & -> & ->).
  destruct (normalized_id_total (zfill 2 s) (int_fits_zfill2 s F))
    as (t' & -> & ->).
  f_equal. apply normalize_zfill; [exact D|now apply int_fits_zfill2].
Qed.

(** A line whose identifier has a normal form has a sort key. *)
Lemma get_sort_key_total (l tok t : string) (tl : list string) :
  split1 " " l = tok :: tl -> normalized_id tok = Some t ->
  exists k, get_sort_key l = Some k.
Proof.
  unfold get_sort_key, normalized_id. intros -> H.
  destruct (isdigit tok); [|eauto].
  destruct (py_int tok); [simpl; eauto|discriminate].
Qed.

Lemma sort_by_key_total (l : list string) :
  (forall x, In x l -> exists k, get_sort_key x = Some k) ->
  exists l', sort_by_key l = Some l'.
Proof.
  intro H. unfold sort_by_key.
  assert (K : exists kl, keyed l = Some kl).
  { induction l as [|x l IH]; [now exists []|].
    destruct (H x (or_introl eq_refl)) as (k & Hk).
    destruct IH as (kl & Hkl); [intros; apply H; now right|].
    exists ((k, x) :: kl). simpl. now rewrite Hk, Hkl. }
  destruct K as (kl & ->). simpl. eauto.
Qed.

(** The lines after the first loop: the entry, or a line of another
    student left as it was. *)
Lemma update_lines_spec (nid entry : string) (roster : list string) :
  forall updated found,
    update_lines nid entry roster = Some (updated, found) ->
    (forall l, In l updated ->
               l = entry
               \/ (In l roster
                   /\ exists tok tl t,
                        split1 " " l = tok :: tl
                        /\ normalized_id tok = Some t /\ t <> nid))
    /\ (found = true -> In entry updated).
Proof.
  induction roster as [|line rest IH]; intros updated found H; simpl in H.
  - injection H as <- <-. split; [intros l []| discriminate].
  - destruct (split1 " " line) as [|tok tl] eqn:E.
    + destruct (IH _ _ H) as [I1 I2]. split; auto.
      intros l Hl. destruct (I1 l Hl) as [->|(A & B)]; auto.
      right. split; [now right | exact B].
    + destruct (normalized_id tok) as [t|] eqn:T; [|discriminate].
      destruct (update_lines nid entry rest) as [[u f]|]; [|discriminate].
      destruct (IH u f eq_refl) as [I1 I2].
      destruct (String.eqb_spec nid t) as [Q|Q]; injection H as <- <-.
      * split; [|intros _; now left].
        intros l [<-|Hl]; auto.
        destruct (I1 l Hl) as [->|(A & B)]; auto.
        right. split; [now right | exact B].
      * split.
        -- intros l [<-|Hl].
           ++ right. split; [now left|]. exists tok, tl, t. auto.
           ++ destruct (I1 l Hl) as [->|(A & B)]; auto.
              right. split; [now right | exact B].
        -- intro F. right. auto.
Qed.

(** The first loop does not raise on a roster whose identifiers have
    a normal form. *)
Lemma update_lines_total (nid entry : string) (roster : list string) :
  (forall l, In l roster ->
             exists tok tl t, split1 " " l = tok :: tl
                              /\ normalized_id tok = Some t) ->
  exists updated found,
    update_lines nid entry roster = Some (updated, found).
Proof.
  induction roster as [|line rest IH]; intro H; [simpl; eauto|].
  destruct IH as (u & f & U); [intros; apply H; now right|].
  destruct (H line (or_introl eq_refl)) as (tok & tl & t & E & T).
  simpl. rewrite E, T, U. destruct (nid =? t)%string; eauto.
Qed.

(** The loop of the look-up returns the value of the lines that name
    the student, when they all give the same one. *)
Lemma lookup_lines_hit (nid v : string) (lines : list string) :
  (forall l, In l lines ->
             strip l = ""
             \/ exists tok tl t,
                  split1 " " (strip l) = tok :: tl
                  /\ normalized_id tok = Some t
                  /\ (t <> nid
                      \/ (t = nid
                          /\ match tl with p1 :: _ => p1 | [] => "" end
                             = v))) ->
  (exists l tok tl, In l lines /\ strip l <> ""
                    /\ split1 " " (strip l) = tok :: tl
                    /\ normalized_id tok = Some nid) ->
  lookup_lines nid lines = Some v.
Proof.
  induction lines as [|l lines IH]; intros A (l0 & tok0 & tl0 & I & N & S & Q).
  - contradiction.
  - cbn [lookup_lines].
    destruct (String.eqb_spec (strip l) "") as [E|E].
    + apply IH; [intros; apply A; now right|].
      destruct I as [->|I]; [congruence|].
      now exists l0, tok0, tl0.
    + destruct (A l (or_introl eq_refl)) as [C|(tok & tl & t & St & T & C)];
        [congruence|].
      rewrite St, T.
      destruct (String.eqb_spec nid t) as [P|P].
      * destruct C as [C|[_ C]]; [congruence | now rewrite C].
      * apply IH; [intros; apply A; now right|].
        destruct I as [->|I].
        -- rewrite St in S. injection S as <- <-. congruence.
        -- now exists l0, tok0, tl0.
Qed.

Lemma normalized_same (s : string) :
  normalized s = normalize_student_id s.
Proof. reflexivity. Qed.

(** Looking a student up after [update_roster] gives the name just
    stored, whichever way the identifier is padded, when the identifier
    and the lines of the roster are within the limit of [int]. *)
Lemma roster_roundtrip (roster : option string)
      (student_id student_name other_id : string) :
  student_id <> "" ->
  forallb_str (fun c => negb (is_space c)) student_id = true ->
  free_of "010" student_name = true ->
  int_fits student_id = true ->
  (forall body l, roster = Some body -> In l (split "010" body) ->
                  int_fits l = true) ->
  normalized_id other_id = normalized_id student_id ->
  exists text,
    update_roster roster student_id student_name = Some text
    /\ lookup_student_in_roster (Some text) other_id
       = Some (Some (rstrip student_name)).
Proof.
  intros N S Fn Fs Fr Q.
  set (lines := match roster with
                | Some body => roster_lines body
                | None => []
                end).
  set (F := if isdigit student_id then zfill 2 student_id else student_id).
  set (entry := F ++ " " ++ student_name).
  assert (LF : forall l, In l lines ->
                 l <> "" /\ strip l = l /\ free_of "010" l = true
                 /\ int_fits l = true).
  { unfold lines. destruct roster as [body|]; [|intros l []].
    intros l Hl. destruct (roster_lines_facts body l Hl) as (A & B & C).
    repeat split; auto.
    unfold roster_lines in Hl. apply filter_In in Hl. destruct Hl as [Hl _].
    apply in_map_iff in Hl. destruct Hl as (x & <- & Hx).
    apply strip_fits. now apply (Fr body). }
  assert (LT : forall l, In l lines ->
                 exists tok tl t, split1 " " l = tok :: tl
                                  /\ normalized_id tok = Some t).
  { intros l Hl. destruct (LF l Hl) as (_ & _ & _ & Fl).
    destruct (split1 " " l) as [|tok tl] eqn:E;
      [exfalso; exact (split1_nonempty _ _ E)|].
    destruct (normalized_id_total tok) as (t & T & _).
    { apply (fits_le tok l); [|exact Fl]. exact (split1_count _ _ _ _ E). }
    now exists tok, tl, t. }
  assert (FN : F <> "").
  { unfold F. destruct (isdigit student_id); auto.
    unfold zfill. destruct (2 - len student_id)%nat; simpl; auto.
    discriminate. }
  assert (FS : forallb_str (fun c => negb (is_space c)) F = true).
  { unfold F. destruct (isdigit student_id) eqn:D; auto.
    apply digits_no_space, zfill_digits.
    unfold isdigit in D. now destruct student_id. }
  destruct (normalized_id_total student_id Fs) as (nid & Nid & _).
  assert (FQ : normalized_id F = Some nid).
  { unfold F. destruct (isdigit student_id) eqn:D; auto.
    now rewrite normalized_id_zfill. }
  assert (EF : free_of "010" entry = true).
  { unfold entry. apply free_of_app; [now apply no_space_free|].
    now apply (free_of_app "010" " "). }
  destruct (entry_read F student_name FN FS) as (EN & tl & E1 & E2).
  fold entry in EN, E1.
  assert (ET : split1 " " entry = [F; student_name]).
  { unfold entry. apply (split1_app " " F student_name).
    now apply no_space_free. }
  unfold update_roster.
  fold lines. fold F. fold entry. rewrite Nid.
  destruct (update_lines_total nid entry lines LT) as (updated & found & U).
  rewrite U.
  destruct (update_lines_spec _ _ _ _ _ U) as [U1 U2].
  set (final := if found then updated else (updated ++ [entry])%list).
  assert (FI : forall l, In l final ->
                 l = entry
                 \/ (In l lines
                     /\ exists tok tl t, split1 " " l = tok :: tl
                          /\ normalized_id tok = Some t /\ t <> nid)).
  { unfold final. destruct found; auto.
    intros l Hl. apply in_app_or in Hl. destruct Hl as [Hl|[<-|[]]]; auto. }
  assert (FE : In entry final).
  { unfold final. destruct found; auto.
    apply in_or_app. right. now left. }
  destruct (sort_by_key_total final) as (sorted & So).
  { intros l Hl. destruct (FI l Hl) as [->|(_ & tok & tl' & t & B & C & _)].
    - exact (get_sort_key_total _ _ _ _ ET FQ).
    - exact (get_sort_key_total _ _ _ _ B C). }
  rewrite So. cbn [option_map]. eexists. split; [reflexivity|].
  assert (P : forall l, In l sorted <-> In l final).
  { intro l. split; apply Permutation_in;
      [|apply Permutation_sym]; now apply sort_key_perm. }
  unfold lookup_student_in_roster. rewrite Q, Nid. f_equal.
  rewrite written_lines.
  2:{ apply Forall_forall. intros l Hl. apply P in Hl.
      destruct (FI l Hl) as [->|(A & _)]; auto. now apply LF. }
  apply lookup_lines_hit.
  - intros l Hl. apply in_app_or in Hl. destruct Hl as [Hl|[<-|[]]].
    + apply P in Hl.
      destruct (FI l Hl) as [->|(A & tok & tl' & t & B & C & D)].
      * right. exists F, tl, nid. split; auto.
      * right. destruct (LF l A) as (_ & SL & _). rewrite SL.
        exists tok, tl', t. split; auto.
    + now left.
  - exists entry, F, tl. split; [|split; [|split]]; auto.
    apply in_or_app. left. now apply P.
Qed.

End RosterTrip.

(** ** The duplicate handling of the application *)

Section AppResolver.
Import SpeakingTest.

Lemma files_append_dict (k : key) (i : file_info)
      (sf : list (key * list file_info)) :
  files_append k (scanned_of i) (scanned_dict sf)
  = scanned_dict (dict_append k i sf).
Proof.
  induction sf as [|[k' vs] sf IH]; [reflexivity|].
  simpl. unfold key_eqb.
  destruct ((fst k =? fst k')%string && (snd k =? snd k')%string).
  - simpl. now rewrite map_app.
  - simpl. now rewrite IH.
Qed.

(** The name without [.txt] still starts with [SpeakingTest_]. *)
Lemma replace_keeps_prefix (filename : string) :
  startswith "SpeakingTest_" filename = true ->
  exists r, replace ".txt" "" filename = "SpeakingTest_" ++ r.
Proof.
  intro H. apply prefix_split in H. destruct H as (t & ->).
  exists (replace ".txt" "" t). reflexivity.
Qed.

Lemma first_part (filename : string) :
  startswith "SpeakingTest_" filename = true ->
  exists ps, split "_" (replace ".txt" "" filename) = "SpeakingTest" :: ps.
Proof.
  intro H. destruct (replace_keeps_prefix filename H) as (r & ->).
  exists (split "_" r).
  change ("SpeakingTest_" ++ r) with ("SpeakingTest" ++ String "_" r).
  now rewrite split_app_sep.
Qed.

(** Where the two parsers agree on the instant, the two scanning
    loops build the same dictionary. *)
Lemma scan_file_entry (sf : list (key * list file_info))
      (e : string * node) :
  (forall i, info_of e = Some i ->
             SpeakingTest.inline_timestamp (fi_timestamp i) = fi_datetime i) ->
  scan_file (scanned_dict sf) e = scanned_dict (scan_entry sf e).
Proof.
  destruct e as [filename x]. intro A.
  unfold scan_file, scan_entry, info_of in *.
  destruct (is_file x); [|reflexivity]. cbn [negb orb] in *.
  destruct (contains "_PROCESSED.txt" filename); [reflexivity|].
  unfold parse_filename in *.
  destruct (startswith "SpeakingTest_" filename) eqn:S; [|reflexivity].
  destruct (endswith ".txt" filename); [|reflexivity].
  cbn [negb orb andb] in *.
  destruct (first_part filename S) as (ps & P). rewrite P in *.
  destruct ps as [|c [|s [|t ps]]]; try reflexivity.
  change ("SpeakingTest" =? "SpeakingTest")%string with true in *.
  cbv iota in *.
  specialize (A _ eq_refl). simpl in A. rewrite A.
  apply (files_append_dict (c, normalize_student_id s)
           (mkinfo filename c s t (get_timestamp_for_sorting t))).
Qed.

Lemma scan_files (d : directory) :
  (forall e i, In e d -> info_of e = Some i ->
               SpeakingTest.inline_timestamp (fi_timestamp i)
               = fi_datetime i) ->
  forall sf,
    fold_left scan_file d (scanned_dict sf)
    = scanned_dict (fold_left scan_entry d sf).
Proof.
  induction d as [|e d IH]; intros A sf; [reflexivity|].
  simpl. rewrite scan_file_entry.
  - apply IH. intros e' i I. apply A. now right.
  - intros i. apply A. now left.
Qed.

Lemma insert_scanned_of (x : file_info) (l : list file_info) :
  insert_scanned (scanned_of x) (map scanned_of l)
  = map scanned_of (insert_by_datetime x l).
Proof.
  induction l as [|y l IH]; [reflexivity|].
  simpl. destruct (dt_ltb (fi_datetime y) (fi_datetime x)); simpl; auto.
  now rewrite IH.
Qed.

Lemma sort_scanned_of (l : list file_info) :
  sort_scanned (map scanned_of l) = map scanned_of (sort_by_datetime l).
Proof.
  induction l as [|x l IH]; [reflexivity|].
  simpl. now rewrite IH, insert_scanned_of.
Qed.

Lemma removelast_map (A B : Type) (f : A -> B) (l : list A) :
  removelast (map f l) = map f (removelast l).
Proof.
  induction l as [|x [|y l] IH]; simpl in *; auto. now rewrite IH.
Qed.

(** Moving all but the last of a sorted bucket is moving its marked
    rows. *)
Lemma move_older_mark (can_move : string -> bool) (s : list file_info) :
  forall st n,
    move_older can_move (map scanned_of (removelast s)) (st, n)
    = (fst (move_duplicates can_move (mark s) st),
       (n + snd (move_duplicates can_move (mark s) st))%nat).
Proof.
  induction s as [|x [|y s] IH]; intros st n.
  - simpl. now rewrite Nat.add_0_r.
  - simpl. now rewrite Nat.add_0_r.
  - change (removelast (x :: y :: s)) with (x :: removelast (y :: s)).
    change (mark (x :: y :: s)) with ((x, true) :: mark (y :: s)).
    cbn [map move_older move_duplicates scanned_of sc_filename].
    destruct (move can_move (fi_filename x)
                (dest_path (fi_filename x) (dup_dir st)) st) as [st'|].
    + rewrite IH.
      destruct (move_duplicates can_move (mark (y :: s)) st') as [st2 m].
      simpl. f_equal. lia.
    + apply IH.
Qed.

Lemma move_duplicates_app (can_move : string -> bool)
      (r1 r2 : list dup_row) :
  forall st,
    move_duplicates can_move (r1 ++ r2) st
    = (fst (move_duplicates can_move r2
              (fst (move_duplicates can_move r1 st))),
       (snd (move_duplicates can_move r1 st)
        + snd (move_duplicates can_move r2
                 (fst (move_duplicates can_move r1 st))))%nat).
Proof.
  induction r1 as [|[fi b] r1 IH]; intro st.
  - simpl. now destruct (move_duplicates can_move r2 st).
  - simpl. destruct b; [|apply IH].
    destruct (move can_move (fi_filename fi)
                (dest_path (fi_filename fi) (dup_dir st)) st) as [st'|];
      [|apply IH].
    rewrite IH.
    destruct (move_duplicates can_move r1 st') as [st1 n1]. reflexivity.
Qed.

(** The loop over the dictionary moves what [move_duplicates] moves on
    the rows of the script. *)
Lemma buckets_moved (can_move : string -> bool)
      (sf : list (key * list file_info)) :
  forall st n,
    fold_left
      (fun acc (b : string * string * list scanned) =>
         if (1 <? length (snd b))%nat
         then move_older can_move (removelast (sort_scanned (snd b))) acc
         else acc)
      (scanned_dict sf) (st, n)
    = (fst (move_duplicates can_move (flat_map bucket_rows sf) st),
       (n + snd (move_duplicates can_move (flat_map bucket_rows sf) st))%nat).
Proof.
  induction sf as [|[k vs] sf IH]; intros st n.
  - simpl. now rewrite Nat.add_0_r.
  - cbn [scanned_dict map fold_left flat_map fst snd].
    rewrite move_duplicates_app, length_map.
    assert (EB : bucket_rows (k, vs)
                 = if (1 <? length vs)%nat
                   then mark (sort_by_datetime vs) else [])
      by reflexivity.
    fold (scanned_dict sf).
    destruct (1 <? length vs)%nat; rewrite EB.
    + rewrite sort_scanned_of, removelast_map, move_older_mark, IH.
      cbn [fst snd]. f_equal. lia.
    + rewrite IH. simpl. reflexivity.
Qed.

Lemma no_duplicates_no_moves (can_move : string -> bool)
      (rows : list dup_row) :
  dup_count rows = 0%nat ->
  forall st, move_duplicates can_move rows st = (st, 0%nat).
Proof.
  unfold dup_count. induction rows as [|[fi b] rows IH]; intros H st;
    [reflexivity|].
  simpl in *. destruct b; [discriminate | now apply IH].
Qed.

(** [resolve_class] moves what [move_duplicates] moves on the rows
    found. *)
Lemma resolve_class_moves (can_move : string -> bool) (st : store) :
  resolve_class can_move st
  = (find_duplicates_in_folder (class_dir st),
     fst (move_duplicates can_move
            (find_duplicates_in_folder (class_dir st)) st),
     snd (move_duplicates can_move
            (find_duplicates_in_folder (class_dir st)) st)).
Proof.
  unfold resolve_class.
  destruct (find_duplicates_in_folder (class_dir st)) as [|r rows] eqn:E;
    [reflexivity|].
  destruct (0 <? dup_count (r :: rows))%nat eqn:C.
  - now destruct (move_duplicates can_move (r :: rows) st).
  - apply Nat.ltb_ge in C.
    rewrite no_duplicates_no_moves by lia. reflexivity.
Qed.

(** On a class folder where the two parsers agree on the instant of
    every record, the pass of the application is the pass of the
    script. *)
Lemma class_pass_resolve (can_move : string -> bool) (st : store)
      (total_moved : nat) :
  (forall e i, In e (class_dir st) -> info_of e = Some i ->
               SpeakingTest.inline_timestamp (fi_timestamp i)
               = fi_datetime i) ->
  class_pass can_move (st, total_moved)
  = (snd (fst (resolve_class can_move st)),
     (total_moved + snd (resolve_class can_move st))%nat).
Proof.
  intro A. unfold class_pass. cbn [fst].
  change (@nil (string * string * list scanned)) with (scanned_dict []).
  rewrite scan_files by exact A.
  rewrite buckets_moved, resolve_class_moves. reflexivity.
Qed.

End AppResolver.

(** ** The score of the application *)

Section AppScore.
Import SpeakingTest.

Lemma scores_set_dict (q p : Z) (d : list (Z * Z)) :
  scores_set q p d = dict_set q p d.
Proof. induction d as [|[q' p'] d IH]; simpl; now rewrite ?IH. Qed.

Lemma readlines_line (a b : string) :
  free_of "010" a = true ->
  readlines (a ++ nl ++ b) = (a ++ nl) :: readlines b.
Proof.
  induction a as [|c a IH]; intro F; [reflexivity|].
  simpl in F. apply andb_true_iff in F. destruct F as [Fc F].
  apply negb_true_iff in Fc.
  change (String c a ++ nl ++ b) with (String c (a ++ nl ++ b)).
  cbn [readlines]. rewrite Fc, (IH F). reflexivity.
Qed.

(** The text of a record line. *)
Lemma record_line_text (image_num button points : Z) (label : string) :
  1 <= button <= 5 ->
  exists (b1 b2 b3 b4 b5 : ascii) clicks,
    is_digit b1 = true /\ is_digit b2 = true /\ is_digit b3 = true
    /\ is_digit b4 = true /\ is_digit b5 = true
    /\ clicks_of button = Some clicks
    /\ join " " (map str_of_Z clicks)
       = String b1 (String " " (String b2 (String " " (String b3
           (String " " (String b4 (String " " (String b5 ""))))))))
    /\ record_line image_num button points label
       = Some (("Question " ++ format_02d image_num ++ ": "
                ++ str_of_Z points ++ " = "
                ++ String b1 (String " " (String b2 (String " " (String b3
                     (String " " (String b4 (String " " (String b5 ""))))))))
                ++ " " ++ label) ++ nl).
Proof.
  intro H.
  assert (C : button = 1 \/ button = 2 \/ button = 3 \/ button = 4
              \/ button = 5) by lia.
  assert (G : forall clicks (b1 b2 b3 b4 b5 : ascii),
             clicks_of button = Some clicks ->
             join " " (map str_of_Z clicks)
             = String b1 (String " " (String b2 (String " " (String b3
                 (String " " (String b4 (String " " (String b5 ""))))))))
             ->
             record_line image_num button points label
             = Some (("Question " ++ format_02d image_num ++ ": "
                      ++ str_of_Z points ++ " = "
                      ++ String b1 (String " " (String b2 (String " "
                           (String b3 (String " " (String b4 (String " "
                              (String b5 ""))))))))
                      ++ " " ++ label) ++ nl)).
  { intros clicks b1 b2 b3 b4 b5 E1 E2. unfold record_line.
    rewrite E1, E2. f_equal. now rewrite !app_assoc_str. }
  destruct C as [->|[->|[->|[->| ->]]]].
  - exists "1"%char, "0"%char, "0"%char, "0"%char, "0"%char, [1; 0; 0; 0; 0].
    repeat split; try reflexivity. now apply (G [1; 0; 0; 0; 0]).
  - exists "0"%char, "1"%char, "0"%char, "0"%char, "0"%char, [0; 1; 0; 0; 0].
    repeat split; try reflexivity. now apply (G [0; 1; 0; 0; 0]).
  - exists "0"%char, "0"%char, "1"%char, "0"%char, "0"%char, [0; 0; 1; 0; 0].
    repeat split; try reflexivity. now apply (G [0; 0; 1; 0; 0]).
  - exists "0"%char, "0"%char, "0"%char, "1"%char, "0"%char, [0; 0; 0; 1; 0].
    repeat split; try reflexivity. now apply (G [0; 0; 0; 1; 0]).
  - exists "0"%char, "0"%char, "0"%char, "0"%char, "1"%char, [0; 0; 0; 0; 1].
    repeat split; try reflexivity. now apply (G [0; 0; 0; 0; 1]).
Qed.

Lemma contains_free (sep : ascii) (s : string) :
  free_of sep s = true -> contains (String sep "") s = false.
Proof.
  induction s as [|c s IH]; intro F; [reflexivity|].
  simpl in F. apply andb_true_iff in F. destruct F as [Fc F].
  rewrite contains_cons, (IH F), orb_false_r.
  cbn [String.prefix]. destruct (ascii_dec sep c) as [E|E].
  - subst. now rewrite Ascii.eqb_refl in Fc.
  - reflexivity.
Qed.

(** The loop of the application on a line of a record. *)
Lemma score_step_line (Q P bits label : string) (q p : Z)
      (d : list (Z * Z)) :
  forallb_str is_digit Q = true -> Q <> "" -> py_int Q = Some q ->
  forallb_str is_digit P = true -> P <> "" -> py_int P = Some p ->
  free_of ":" bits = true ->
  label <> "" -> forallb_str (fun c => negb (is_space c)) label = true ->
  free_of ":" label = true ->
  score_step d (("Question " ++ Q ++ ": " ++ P ++ " = " ++ bits ++ " "
                 ++ label) ++ nl)
  = scores_set q p d.
Proof.
  intros DQ NQ VQ DP NP VP FB NL SL FL.
  unfold score_step.
  change (startswith "Question"
            (("Question " ++ Q ++ ": " ++ P ++ " = " ++ bits ++ " " ++ label)
             ++ nl)) with true.
  cbv iota.
  assert (E : ("Question " ++ Q ++ ": " ++ P ++ " = " ++ bits ++ " " ++ label)
              ++ nl
              = ("Question " ++ Q)
                ++ String ":" (" " ++ P ++ " = " ++ bits ++ " " ++ label ++ nl)).
  { rewrite !app_assoc_str. reflexivity. }
  rewrite E, split_app_sep.
  2:{ apply (free_of_app ":" "Question "); [reflexivity|].
      now apply free_of_digits. }
  rewrite (split_free ":").
  2:{ repeat apply free_of_app; try reflexivity; auto.
      now apply free_of_digits. }
  assert (R : replace "Question" "" ("Question " ++ Q) = " " ++ Q).
  { unfold replace.
    change ("Question " ++ Q) with (String "Q" ("uestion " ++ Q)).
    cbn [replace_from].
    change (String.prefix "Question" (String "Q" ("uestion " ++ Q)))
      with true.
    cbv iota. cbn [len String.length Nat.sub append replace_from].
    change (String.prefix "Question" (String " " Q)) with false.
    cbv iota. f_equal. apply (replace_none "Question" "" Q).
    now apply contains_digits. }
  rewrite R.
  assert (S1 : strip (" " ++ Q) = Q).
  { unfold strip. change (lstrip (" " ++ Q)) with (lstrip Q).
    now rewrite lstrip_no_space, rstrip_no_space
      by now apply digits_no_space. }
  rewrite S1, VQ.
  assert (S2 : strip (" " ++ P ++ " = " ++ bits ++ " " ++ label ++ nl)
               = (P ++ " ") ++ String "=" (" " ++ bits ++ " " ++ label)).
  { unfold strip.
    change (lstrip (" " ++ P ++ " = " ++ bits ++ " " ++ label ++ nl))
      with (lstrip (P ++ " = " ++ bits ++ " " ++ label ++ nl)).
    assert (L : lstrip (P ++ " = " ++ bits ++ " " ++ label ++ nl)
                = P ++ " = " ++ bits ++ " " ++ label ++ nl).
    { destruct P as [|c P]; [congruence|].
      simpl in DP. apply andb_true_iff in DP. destruct DP as [Dc _].
      simpl. now rewrite (digit_not_space c Dc). }
    rewrite L.
    replace (P ++ " = " ++ bits ++ " " ++ label ++ nl)
      with ((P ++ " = " ++ bits ++ " ") ++ label ++ nl)
      by now rewrite !app_assoc_str.
    rewrite rstrip_app; rewrite rstrip_newline by exact SL; auto.
    now rewrite !app_assoc_str. }
  rewrite S2. cbv zeta.
  assert (C : contains "="
                ((P ++ " ") ++ String "=" (" " ++ bits ++ " " ++ label))
              = true).
  { apply contains_app_r, contains_here. reflexivity. }
  rewrite C, split_app_sep.
  2:{ apply free_of_app; [|reflexivity]. now apply free_of_digits. }
  assert (S3 : strip (P ++ " ") = P).
  { unfold strip.
    assert (L : lstrip (P ++ " ") = P ++ " ").
    { destruct P as [|c P]; [congruence|].
      simpl in DP. apply andb_true_iff in DP. destruct DP as [Dc _].
      simpl. now rewrite (digit_not_space c Dc). }
    rewrite L, rstrip_app_empty by reflexivity.
    apply rstrip_no_space. now apply digits_no_space. }
  now rewrite S3, VP.
Qed.

Lemma format_02d_facts (n : Z) :
  0 <= n -> int_fits (str_of_Z n) = true ->
  forallb_str is_digit (format_02d n) = true /\ format_02d n <> ""
  /\ py_int (format_02d n) = Some n.
Proof.
  intros H F. unfold format_02d. destruct (Z.ltb_spec n 0); [lia|].
  destruct (str_of_Z_digits n H) as [D N].
  split; [now apply zfill_digits|].
  split; [|now apply py_int_zfill, int_fits_zfill2].
  unfold zfill. destruct (2 - len (str_of_Z n))%nat; simpl;
    [exact N | discriminate].
Qed.

(** What the two programs make of the line of a plain click. *)
Lemma click_line (r : click) :
  plain_click r ->
  exists body,
    (let '(image_num, button, points, label) := r in
     record_line image_num button points label) = Some (body ++ nl)
    /\ free_of "010" body = true
    /\ (forall d, score_step d (body ++ nl)
                  = (let '(q, p, _, _) := answer_of r in dict_set q p d))
    /\ parse_line body = Entry (answer_of r).
Proof.
  destruct r as [[[image_num button] points] label].
  intros (Hb & Hq & Hp & Fq & Fp & NL & SL & FL).
  destruct (record_line_text image_num button points label Hb)
    as (b1 & b2 & b3 & b4 & b5 & clicks & B1 & B2 & B3 & B4 & B5
        & C & J & T).
  destruct (format_02d_facts image_num Hq Fq) as (DQ & NQ & VQ).
  destruct (str_of_Z_digits points Hp) as [DP NP].
  set (bits := String b1 (String " " (String b2 (String " " (String b3
                 (String " " (String b4 (String " " (String b5 "")))))))))
    in *.
  assert (DC : forall c, is_digit c = true ->
                         negb (Ascii.eqb c ":") = true
                         /\ negb (Ascii.eqb c "010") = true).
  { intros c Hc. split; apply negb_true_iff, Ascii.eqb_neq;
      intro E; subst; discriminate. }
  assert (FB : free_of ":" bits = true /\ free_of "010" bits = true).
  { unfold bits, free_of. cbn [forallb_str].
    destruct (DC b1 B1) as [-> ->]. destruct (DC b2 B2) as [-> ->].
    destruct (DC b3 B3) as [-> ->]. destruct (DC b4 B4) as [-> ->].
    destruct (DC b5 B5) as [-> ->]. split; reflexivity. }
  destruct FB as [FB1 FB2].
  exists ("Question " ++ format_02d image_num ++ ": " ++ str_of_Z points
          ++ " = " ++ bits ++ " " ++ label).
  split; [exact T|]. split; [|split].
  - repeat apply free_of_app; try reflexivity; auto.
    + now apply free_of_digits.
    + now apply free_of_digits.
    + now apply no_space_free.
  - intro d. cbn [answer_of]. rewrite <- scores_set_dict.
    apply score_step_line; auto. now apply py_int_str.
  - cbn [answer_of]. rewrite C, J. fold bits.
    unfold parse_line.
    assert (S : strip ("Question " ++ format_02d image_num ++ ": "
                       ++ str_of_Z points ++ " = " ++ bits ++ " " ++ label)
                = "Question " ++ format_02d image_num ++ ": "
                  ++ str_of_Z points ++ " = " ++ bits ++ " " ++ label).
    { unfold strip.
      change (lstrip ("Question " ++ format_02d image_num ++ ": "
                      ++ str_of_Z points ++ " = " ++ bits ++ " " ++ label))
        with ("Question " ++ format_02d image_num ++ ": "
              ++ str_of_Z points ++ " = " ++ bits ++ " " ++ label).
      assert (R : rstrip label = label) by now apply rstrip_no_space.
      rewrite <- R at 2. rewrite <- !app_assoc_str.
      apply rstrip_app. now rewrite R. }
    rewrite S.
    change (startswith "Question"
              ("Question " ++ format_02d image_num ++ ": "
               ++ str_of_Z points ++ " = " ++ bits ++ " " ++ label))
      with true.
    cbv iota.
    pose proof (question_re_line (format_02d image_num) (str_of_Z points)
                  b1 b2 b3 b4 b5 label DQ NQ DP NP B1 B2 B3 B4 B5 NL SL)
      as M.
    cbv zeta in M. fold bits in M. rewrite M, VQ, py_int_str by exact Fp.
    assert (Sb : strip bits = bits).
    { assert (R5 : rstrip (String b5 "") = String b5 "").
      { cbn [rstrip]. now rewrite (digit_not_space b5 B5). }
      unfold strip.
      replace (lstrip bits) with bits
        by (unfold bits; cbn [lstrip];
            now rewrite (digit_not_space b1 B1)).
      change bits
        with (String b1 (String " " (String b2 (String " " (String b3
                (String " " (String b4 " "))))))
              ++ String b5 "") at 1.
      rewrite rstrip_app; rewrite R5; [reflexivity | discriminate]. }
    assert (Sl : strip label = label).
    { unfold strip. now rewrite lstrip_no_space, rstrip_no_space. }
    now rewrite Sb, Sl.
Qed.

(** A line that gives an answer holds no number beyond the limit. *)
Lemma entry_not_long (line : string) (a : answer) :
  parse_line line = Entry a -> long_number line = false.
Proof.
  intro E. destruct (parse_line_cases line)
    as [(_ & L & _)|[(_ & _ & R)|(_ & L & _)]]; auto. congruence.
Qed.

(** The record the application wrote, read by the application and by
    the script. *)
Lemma written_read (rs : list click) :
  Forall plain_click rs ->
  exists content,
    written rs = Some content
    /\ (forall d,
           fold_left score_step (readlines content) d
           = fold_left (fun d (a : answer) =>
                          let '(q_num, points, _, _) := a in
                          dict_set q_num points d)
                       (map answer_of rs) d)
    /\ entries_of (split "010" content) = map answer_of rs
    /\ existsb long_number (split "010" content) = false.
Proof.
  induction 1 as [|r rs P _ IH].
  - exists "". repeat split; reflexivity.
  - destruct IH as (text & W & A & B & R).
    destruct (click_line r P) as (body & L & F & S & E).
    exists ((body ++ nl) ++ text).
    destruct r as [[[image_num button] points] label].
    split; [cbn [written]; now rewrite L, W|]. split; [|split].
    + intro d. rewrite app_assoc_str, readlines_line by exact F.
      cbn [fold_left map]. rewrite S, A.
      cbn [answer_of]. reflexivity.
    + rewrite app_assoc_str.
      rewrite (split_line body text) by exact F.
      cbn [entries_of flat_map map].
      fold (entries_of (split "010" text)). rewrite E, B. reflexivity.
    + rewrite app_assoc_str.
      rewrite (split_line body text) by exact F.
      cbn [existsb]. now rewrite (entry_not_long _ _ E), R.
Qed.

End AppScore.

(** * The claims of the specification *)

(** C1: three records of one class whose student keys normalize to the
    same identity (as ["3"], ["03"], ["3"] do) and whose instants are
    [t1 < t2 < t3]: in whatever order the folder is scanned, the Resolver
    marks the records at [t1] and [t2] duplicates and keeps the one at
    [t3]; when the moves succeed the class folder holds the record at [t3]
    alone and the two others, with their bodies, are in the Duplicates
    folder under names that were free there. *)
Theorem C1_resolver_keeps_latest
        (c s1 s2 s3 f1 f2 f3 ts1 ts2 ts3 : string)
        (b1 b2 b3 : option string) (d dups : directory)
        (can_move : string -> bool) :
  FindDuplicates.parse_filename f1 = Some (c, s1, ts1, f1) ->
  FindDuplicates.parse_filename f2 = Some (c, s2, ts2, f2) ->
  FindDuplicates.parse_filename f3 = Some (c, s3, ts3, f3) ->
  contains "_PROCESSED.txt" f1 = false ->
  contains "_PROCESSED.txt" f2 = false ->
  contains "_PROCESSED.txt" f3 = false ->
  FindDuplicates.normalize_student_id s1
  = FindDuplicates.normalize_student_id s2 ->
  FindDuplicates.normalize_student_id s2
  = FindDuplicates.normalize_student_id s3 ->
  dt_lt (FindDuplicates.get_timestamp_for_sorting ts1)
        (FindDuplicates.get_timestamp_for_sorting ts2) ->
  dt_lt (FindDuplicates.get_timestamp_for_sorting ts2)
        (FindDuplicates.get_timestamp_for_sorting ts3) ->
  Permutation d [(f1, File b1); (f2, File b2); (f3, File b3)] ->
  (forall f, can_move f = true) ->
  exists rows st' dest1 dest2,
    FindDuplicates.resolve_class can_move (mkstore d dups)
    = (rows, st', 2%nat)
    /\ map (fun r => (FindDuplicates.fi_filename (fst r), snd r)) rows
       = [(f1, true); (f2, true); (f3, false)]
    /\ class_dir st' = [(f3, File b3)]
    /\ dup_dir st' = (dups ++ [(dest1, File b1); (dest2, File b2)])%list
    /\ exists_in dest1 dups = false
    /\ exists_in dest2 (dups ++ [(dest1, File b1)])%list = false.
Proof.
  intros P1 P2 P3 Q1 Q2 Q3 S12 S23 T12 T23 P M.
  pose proof (three_pass c s1 s2 s3 f1 f2 f3 ts1 ts2 ts3 b1 b2 b3
                P1 P2 P3 Q1 Q2 Q3 S12 S23 T12 T23 d dups can_move P M) as R.
  cbv zeta in R.
  eexists _, _, _, _. split; [exact R|].
  split; [reflexivity|]. split; [reflexivity|]. split; [reflexivity|].
  split; apply dest_path_fresh.
Qed.

(** C1, on class ["5"], student keys ["3"], ["03"], ["3"], scanned
    newest first, with the oldest name already taken in the Duplicates
    folder. *)
Lemma C1_resolver_keeps_latest_witness :
  exists rows st' dest1 dest2,
    FindDuplicates.resolve_class (fun _ => true)
      (mkstore
         [("SpeakingTest_5_3_2024.01.16.0900.txt", File (Some "c"));
          ("SpeakingTest_5_3_2024.01.14.0900.txt", File (Some "a"));
          ("SpeakingTest_5_03_2024.01.15.0900.txt", File (Some "b"))]
         [("SpeakingTest_5_3_2024.01.14.0900.txt", File (Some "old"))])
    = (rows, st', 2%nat)
    /\ map (fun r => (FindDuplicates.fi_filename (fst r), snd r)) rows
       = [("SpeakingTest_5_3_2024.01.14.0900.txt", true);
          ("SpeakingTest_5_03_2024.01.15.0900.txt", true);
          ("SpeakingTest_5_3_2024.01.16.0900.txt", false)]
    /\ class_dir st'
       = [("SpeakingTest_5_3_2024.01.16.0900.txt", File (Some "c"))]
    /\ dup_dir st'
       = ([("SpeakingTest_5_3_2024.01.14.0900.txt", File (Some "old"))]
          ++ [(dest1, File (Some "a")); (dest2, File (Some "b"))])%list
    /\ exists_in dest1
         [("SpeakingTest_5_3_2024.01.14.0900.txt", File (Some "old"))]
       = false
    /\ exists_in dest2
         ([("SpeakingTest_5_3_2024.01.14.0900.txt", File (Some "old"))]
          ++ [(dest1, File (Some "a"))])%list = false.
Proof.
  apply (C1_resolver_keeps_latest "5" "3" "03" "3"
           "SpeakingTest_5_3_2024.01.14.0900.txt"
           "SpeakingTest_5_03_2024.01.15.0900.txt"
           "SpeakingTest_5_3_2024.01.16.0900.txt"
           "2024.01.14.0900" "2024.01.15.0900" "2024.01.16.0900");
    try reflexivity.
  - apply Permutation_sym. apply perm_trans with
      [("SpeakingTest_5_3_2024.01.14.0900.txt", File (Some "a"));
       ("SpeakingTest_5_3_2024.01.16.0900.txt", File (Some "c"));
       ("SpeakingTest_5_03_2024.01.15.0900.txt", File (Some "b"))].
    + constructor. apply perm_swap.
    + apply perm_swap.
Defined.


(** C3 (as amended): a timestamp as the application prints it, with a
    four-digit year (on glibc from year 1000 on, where [%Y] is not
    zero-filled) or a two-digit year, parses back to the year, month, day,
    hour and minute printed, and so does every four-component timestamp
    whose fields read as numbers of a calendar instant and whose last
    component has at least four characters.  The result is the sentinel
    instant of year 1900 when the number of components is not four, when
    the year, month or day is not a number, when the last component has
    at least four characters and its first two or next two are not a
    number, and when the numbers are no calendar instant.  A last
    component of fewer than two characters is too short for an hour: hour
    and minute are 0 whatever it holds.  Nothing is said of a last
    component of two or three characters. *)
Theorem C3_parse_timestamp :
  (forall zero_fills dt,
      valid_date (year dt) (month dt) (day dt) (hour dt) (minute dt) = true ->
      zero_fills = true \/ 1000 <= year dt ->
      FindDuplicates.get_timestamp_for_sorting
        (SpeakingTest.strftime_Y zero_fills dt)
      = dt)
  /\ (forall dt,
      valid_date (year dt) (month dt) (day dt) (hour dt) (minute dt) = true ->
      2000 <= year dt <= 2099 ->
      FindDuplicates.get_timestamp_for_sorting (SpeakingTest.strftime_y dt)
      = dt)
  /\ (forall s y m d t y' m' d' h' mi',
      split "." s = [y; m; d; t] -> (4 <= len t)%nat ->
      py_int (year_text y) = Some y' -> py_int m = Some m' ->
      py_int d = Some d' -> py_int (slice 0 2 t) = Some h' ->
      py_int (slice 2 4 t) = Some mi' ->
      valid_date y' m' d' h' mi' = true ->
      FindDuplicates.get_timestamp_for_sorting s = mkdt y' m' d' h' mi')
  /\ (forall s,
      length (split "." s) <> 4%nat ->
      FindDuplicates.get_timestamp_for_sorting s = sentinel)
  /\ (forall s y m d t,
      split "." s = [y; m; d; t] ->
      py_int (year_text y) = None \/ py_int m = None \/ py_int d = None
      \/ ((4 <= len t)%nat
          /\ (py_int (slice 0 2 t) = None \/ py_int (slice 2 4 t) = None)) ->
      FindDuplicates.get_timestamp_for_sorting s = sentinel)
  /\ (forall s y m d t y' m' d' h' mi',
      split "." s = [y; m; d; t] -> (4 <= len t)%nat ->
      py_int (year_text y) = Some y' -> py_int m = Some m' ->
      py_int d = Some d' -> py_int (slice 0 2 t) = Some h' ->
      py_int (slice 2 4 t) = Some mi' ->
      valid_date y' m' d' h' mi' = false ->
      FindDuplicates.get_timestamp_for_sorting s = sentinel)
  /\ (forall s y m d t y' m' d',
      split "." s = [y; m; d; t] -> (len t < 2)%nat ->
      py_int (year_text y) = Some y' -> py_int m = Some m' ->
      py_int d = Some d' ->
      FindDuplicates.get_timestamp_for_sorting s =
      if valid_date y' m' d' 0 0 then mkdt y' m' d' 0 0 else sentinel).
Proof.
  split; [exact strftime_Y_roundtrip|].
  split; [exact strftime_y_roundtrip|].
  split.
  { intros s y m d t y' m' d' h' mi' E L Hy Hm Hd Hh Hmi V.
    rewrite (timestamp_long _ _ _ _ _ E L), Hy, Hm, Hd, Hh, Hmi.
    unfold make_datetime. rewrite V. reflexivity. }
  split; [exact timestamp_count|].
  split.
  { intros s y m d t E H.
    destruct (le_lt_dec 4 (len t)) as [L|L].
    - rewrite (timestamp_long _ _ _ _ _ E L).
      destruct H as [H|[H|[H|[_ [H|H]]]]]; rewrite H;
        repeat match goal with
               | |- context [match ?x with Some _ => _ | None => _ end] =>
                   destruct x
               end; reflexivity.
    - rewrite (timestamp_short _ _ _ _ _ E L).
      destruct H as [H|[H|[H|[L' _]]]]; [rewrite H ..|lia];
        repeat match goal with
               | |- context [match ?x with Some _ => _ | None => _ end] =>
                   destruct x
               end; reflexivity. }
  split.
  { intros s y m d t y' m' d' h' mi' E L Hy Hm Hd Hh Hmi V.
    rewrite (timestamp_long _ _ _ _ _ E L), Hy, Hm, Hd, Hh, Hmi.
    unfold make_datetime. rewrite V. reflexivity. }
  intros s y m d t y' m' d' E L Hy Hm Hd.
  rewrite (timestamp_short _ _ _ _ _ E ltac:(lia)), Hy, Hm, Hd.
  unfold make_datetime. destruct (valid_date y' m' d' 0 0); reflexivity.
Qed.

(** C3, at concrete timestamps: a printed instant, a two-digit year, a
    missing component, a month that is no number, the 30th of February and
    a one-character time. *)
Lemma C3_parse_timestamp_witness :
  FindDuplicates.get_timestamp_for_sorting "2024.01.15.0930"
  = mkdt 2024 1 15 9 30
  /\ FindDuplicates.get_timestamp_for_sorting "24.01.15.0930"
     = mkdt 2024 1 15 9 30
  /\ FindDuplicates.get_timestamp_for_sorting "2024.01.15" = sentinel
  /\ FindDuplicates.get_timestamp_for_sorting "2024.Jan.15.0930" = sentinel
  /\ FindDuplicates.get_timestamp_for_sorting "2024.02.30.0930" = sentinel
  /\ FindDuplicates.get_timestamp_for_sorting "2024.01.15.9"
     = mkdt 2024 1 15 0 0.
Proof.
  destruct C3_parse_timestamp as (H1 & H2 & _ & H4 & H5 & H6 & H7).
  split; [apply (H1 false (mkdt 2024 1 15 9 30) eq_refl); right; simpl; lia|].
  split; [apply (H2 (mkdt 2024 1 15 9 30) eq_refl); simpl; lia|].
  split; [apply H4; vm_compute; lia|].
  split; [apply (H5 "2024.Jan.15.0930" "2024" "Jan" "15" "0930" eq_refl); right; left;
          reflexivity|].
  split; [apply (H6 "2024.02.30.0930" "2024" "02" "30" "0930" 2024 2 30 9 30
                    eq_refl);
          try reflexivity; vm_compute; lia|].
  apply (H7 "2024.01.15.9" "2024" "01" "15" "9" 2024 1 15 eq_refl); try reflexivity.
  vm_compute; lia.
Defined.

(** C3, the claim as stated fails: ["2024.01.15.a"] is malformed, its
    last field is no number, and yet it parses to the 15th of January 2024
    at 00:00 and not to the sentinel.  The parser of the application does
    the same there. *)
Lemma C3_malformed_not_sentinel :
  spec_malformed "2024.01.15.a"
  /\ py_int "a" = None
  /\ FindDuplicates.get_timestamp_for_sorting "2024.01.15.a"
     = mkdt 2024 1 15 0 0
  /\ SpeakingTest.inline_timestamp "2024.01.15.a" = mkdt 2024 1 15 0 0
  /\ FindDuplicates.get_timestamp_for_sorting "2024.01.15.a" <> sentinel.
Proof.
  split; [right; right; right; left; reflexivity|].
  split; [reflexivity|].
  split; [reflexivity|].
  split; [reflexivity|].
  vm_compute. discriminate.
Qed.

(** C4: on a timestamp whose last component has two characters the
    script and the application part: the script reads no hour at all, the
    application reads the two characters as the hour.  On a last
    component that is no number the script answers an instant and the
    application the sentinel. *)
Theorem C4_inline_timestamp_differs :
  FindDuplicates.get_timestamp_for_sorting "2024.01.15.12"
  = mkdt 2024 1 15 0 0
  /\ SpeakingTest.inline_timestamp "2024.01.15.12" = mkdt 2024 1 15 12 0
  /\ FindDuplicates.get_timestamp_for_sorting "2024.01.15.ab"
     = mkdt 2024 1 15 0 0
  /\ SpeakingTest.inline_timestamp "2024.01.15.ab" = sentinel.
Proof. repeat split; reflexivity. Qed.

(** C5: after a pass of the Resolver over a class folder whose moves
    all succeeded, a second pass, in whatever order it scans the folder,
    finds every bucket with exactly one record, finds no duplicate, moves
    nothing and leaves the folder and the quarantine as they are. *)
Theorem C5_resolver_idempotent
        (can_move can_move' : string -> bool) (st st1 : store)
        (rows1 : list FindDuplicates.dup_row) (moved1 : nat)
        (d2 : directory) :
  NoDup (names (class_dir st)) ->
  FindDuplicates.resolve_class can_move st = (rows1, st1, moved1) ->
  moved1 = FindDuplicates.dup_count rows1 ->
  Permutation d2 (class_dir st1) ->
  (forall b, In b (FindDuplicates.scan d2) -> length (snd b) = 1%nat)
  /\ FindDuplicates.find_duplicates_in_folder d2 = []
  /\ FindDuplicates.resolve_class can_move' (mkstore d2 (dup_dir st1))
     = ([], mkstore d2 (dup_dir st1), 0%nat).
Proof.
  intros ND R M P.
  destruct (resolve_class_all _ _ _ _ _ R M) as [-> E].
  rewrite E in P.
  pose proof (clean_after_pass _ _ ND P) as C.
  assert (F : FindDuplicates.find_duplicates_in_folder d2 = []).
  { unfold FindDuplicates.find_duplicates_in_folder. apply no_rows.
    intros b Ib. rewrite (C b Ib). constructor. }
  split; [exact C|]. split; [exact F|].
  unfold FindDuplicates.resolve_class. cbn [class_dir]. rewrite F.
  reflexivity.
Qed.

(** C5, on a folder where student 3 has three records and student 4
    one; the second pass scans the folder in another order. *)
Lemma C5_resolver_idempotent_witness :
  let d2 := [("SpeakingTest_5_4_2024.01.13.0930.txt", File (Some "d"));
             ("SpeakingTest_5_3_2024.01.15.0930.txt", File (Some "a"))] in
  let dups := [("SpeakingTest_5_3_2024.01.13.0930.txt", File (Some "c"));
               ("SpeakingTest_5_03_2024.01.14.0930.txt", File (Some "b"))] in
  (forall b, In b (FindDuplicates.scan d2) -> length (snd b) = 1%nat)
  /\ FindDuplicates.find_duplicates_in_folder d2 = []
  /\ FindDuplicates.resolve_class (fun _ => true) (mkstore d2 dups)
     = ([], mkstore d2 dups, 0%nat).
Proof.
  cbv zeta.
  refine (C5_resolver_idempotent (fun _ => true) (fun _ => true)
            (mkstore
               [("SpeakingTest_5_3_2024.01.15.0930.txt", File (Some "a"));
                ("SpeakingTest_5_03_2024.01.14.0930.txt", File (Some "b"));
                ("SpeakingTest_5_3_2024.01.13.0930.txt", File (Some "c"));
                ("SpeakingTest_5_4_2024.01.13.0930.txt", File (Some "d"))]
               [])
            (mkstore
               [("SpeakingTest_5_3_2024.01.15.0930.txt", File (Some "a"));
                ("SpeakingTest_5_4_2024.01.13.0930.txt", File (Some "d"))]
               [("SpeakingTest_5_3_2024.01.13.0930.txt", File (Some "c"));
                ("SpeakingTest_5_03_2024.01.14.0930.txt", File (Some "b"))])
            _ 2%nat _ _ _ _ _).
  - cbn [names map fst class_dir].
    repeat (constructor;
            [cbn [In]; intros H;
             repeat (destruct H as [H|H]; [discriminate H|]); exact H|]).
    constructor.
  - vm_compute. reflexivity.
  - vm_compute. reflexivity.
  - cbn [class_dir]. apply perm_swap.
Defined.



(** C7 (as amended): the extraction of the header fields fails on a
    body exactly when one of its summary lines gives, after [Score:],
    [Max Score:] or [Percentage:], a number beyond the limit of [int]; the
    record is then left out of the class summary.  When it returns:
    without a line that starts with [Student:] the student key is absent
    and the student name empty; the total, the maximum and the percentage
    are 0 when no summary line holds a match of the pattern of the field.
    A record is included in the class summary exactly when the student key
    was found and is not empty (and the timestamp of its name is not
    empty): a missing key leaves the record out, a missing name or score
    field does not. *)
Theorem C7_extract_header_fields (content : string) :
  (ProcessAndCompile.extract_header_fields content = None
   <-> existsb raising_line (split "010" content) = true)
  /\ (ProcessAndCompile.extract_header_fields content = None ->
      forall filename,
        ProcessAndCompile.entry_of filename (File (Some content)) = None)
  /\ (forall f,
      ProcessAndCompile.extract_header_fields content = Some f ->
      ((forall l, In l (split "010" content) ->
                  startswith "Student:" l = false) ->
       ProcessAndCompile.h_student_id f = None
       /\ ProcessAndCompile.h_student_name f = "")
      /\ ((forall l, In l (split "010" content) ->
                     summary_line l = false
                     \/ search ProcessAndCompile.score_re l = None) ->
          ProcessAndCompile.h_total_score f = 0)
      /\ ((forall l, In l (split "010" content) ->
                     summary_line l = false
                     \/ search ProcessAndCompile.max_re l = None) ->
          ProcessAndCompile.h_max_score f = 0)
      /\ ((forall l, In l (split "010" content) ->
                     summary_line l = false
                     \/ search ProcessAndCompile.pct_re l = None) ->
          ProcessAndCompile.h_percentage f = 0)
      /\ (forall filename,
             ProcessAndCompile.h_student_id f = None
             \/ ProcessAndCompile.h_student_id f = Some "" ->
             ProcessAndCompile.entry_of filename (File (Some content))
             = None)
      /\ (forall filename sid c s ts,
             ProcessAndCompile.h_student_id f = Some sid -> sid <> "" ->
             ProcessAndCompile.extract_info_from_filename filename
             = Some (c, s, ts) ->
             ts <> "" ->
             ProcessAndCompile.entry_of filename (File (Some content))
             = Some (ProcessAndCompile.mkentry sid
                       (ProcessAndCompile.h_student_name f)
                       (ProcessAndCompile.h_total_score f)
                       (ProcessAndCompile.h_max_score f)
                       (ProcessAndCompile.h_percentage f) ts))).
Proof.
  split; [apply header_loop_none|]. split.
  - intros E filename. unfold ProcessAndCompile.entry_of. cbn [read].
    now rewrite E.
  - intros f E.
    destruct (header_loop_some _ _ _ E) as (A & B1 & B2 & B3 & _).
    split; [exact A|]. split; [exact B1|]. split; [exact B2|].
    split; [exact B3|]. split.
    + intros filename H. unfold ProcessAndCompile.entry_of. cbn [read].
      rewrite E.
      destruct H as [-> | ->]; [reflexivity|].
      destruct (ProcessAndCompile.extract_info_from_filename filename)
        as [[[c s] t]|]; reflexivity.
    + intros filename sid c s ts Hs Hne Hi Ht.
      unfold ProcessAndCompile.entry_of. cbn [read].
      rewrite E, Hs, Hi.
      apply String.eqb_neq in Hne, Ht. rewrite Hne, Ht. reflexivity.
Qed.

(** C7, on a header with a student line and nothing else, on a body
    without a student line, and on a summary line whose percentage has
    4301 digits. *)
Lemma C7_extract_header_fields_witness :
  ProcessAndCompile.entry_of "SpeakingTest_5_3_2024.01.15.0930.txt"
    (File (Some "Student: 03 Ann"))
  = Some (ProcessAndCompile.mkentry "03" "Ann" 0 0 0 "2024.01.15.0930")
  /\ ProcessAndCompile.entry_of "SpeakingTest_5_3_2024.01.15.0930.txt"
       (File (Some "Total Questions: 1")) = None
  /\ ProcessAndCompile.entry_of "SpeakingTest_5_3_2024.01.15.0930.txt"
       (File (Some ("Student: 03 Ann" ++ ProcessAndCompile.nl
                    ++ "Total Questions: 1   Score: 1   Percentage: "
                    ++ repeat_char "1" 4301 ++ "%")))
     = None.
Proof.
  split; [|split].
  - destruct (C7_extract_header_fields "Student: 03 Ann") as (_ & _ & H).
    destruct (H _ eq_refl) as (_ & _ & _ & _ & _ & I).
    apply (I _ "03" "5" "3" "2024.01.15.0930"); try reflexivity;
      discriminate.
  - destruct (C7_extract_header_fields "Total Questions: 1")
      as (_ & _ & H).
    destruct (H _ eq_refl) as (A & _ & _ & _ & I & _).
    apply I. left. apply A. intros l [<-|[]]. reflexivity.
  - destruct (C7_extract_header_fields
                ("Student: 03 Ann" ++ ProcessAndCompile.nl
                 ++ "Total Questions: 1   Score: 1   Percentage: "
                 ++ repeat_char "1" 4301 ++ "%")) as (R & N & _).
    apply N, R. vm_compute. reflexivity.
Defined.

(** C7, the claim as stated fails: a headed body with separator and
    summary line but no student line yields no student key, and the record
    is left out of the class summary, which is then not written. *)
Lemma C7_missing_student_blocks :
  let body :=
    repeat_char "=" 67 ++ ProcessAndCompile.nl
    ++ "Total Questions: 1   Max Score: 5   Score: 5   Percentage: 100%"
    ++ ProcessAndCompile.nl ++ repeat_char "=" 67 ++ ProcessAndCompile.nl in
  let name := "SpeakingTest_5_3_2024.01.15.0930.txt" in
  ProcessAndCompile.has_header body = true
  /\ ProcessAndCompile.extract_header_fields body
     = Some (ProcessAndCompile.mkfields None "" 5 5 100)
  /\ ProcessAndCompile.entry_of name (File (Some body)) = None
  /\ ProcessAndCompile.compile_class_summary "26.11.03"
       [(name, File (Some body))] "5"
     = Some ([(name, File (Some body))], None, 0%nat).
Proof. cbv zeta. repeat split; vm_compute; reflexivity. Qed.

(** C8 (as amended): on a body without header whose answer lines hold
    no number beyond the limit of [int], [parse_incomplete_test] returns,
    in the order of the lines, one answer for every line that, once
    stripped, starts with a word of the pattern
    [Question\s+(\d+):\s+(\d+)\s+=\s+([\d\s]+)\s+(.+)], and nothing for any
    other line; a line the pattern does not match never raises.  Every
    line of the shape
    [Question <int>: <int> = <5 space-separated 0/1 tokens> <label>] is a
    line of the pattern.  A line of the pattern whose question number or
    point value is beyond the limit makes [int] raise, and the exception
    leaves the function. *)
Theorem C8_decode_answers (content : string) :
  ProcessAndCompile.has_header content = false ->
  (existsb long_number (split "010" content) = false ->
   ProcessAndCompile.parse_incomplete_test (File (Some content))
   = Some (entries_of (split "010" content), false))
  /\ (existsb long_number (split "010" content) = true ->
      ProcessAndCompile.parse_incomplete_test (File (Some content)) = None)
  /\ (forall line,
         ((exists a, ProcessAndCompile.parse_line line
                     = ProcessAndCompile.Entry a)
          <-> accepts ProcessAndCompile.question_re (strip line)
              /\ long_number line = false)
         /\ (ProcessAndCompile.parse_line line = ProcessAndCompile.Raised
             <-> accepts ProcessAndCompile.question_re (strip line)
                 /\ long_number line = true)
         /\ (~ accepts ProcessAndCompile.question_re (strip line) ->
             ProcessAndCompile.parse_line line = ProcessAndCompile.Skipped)
         /\ (spec_shape line = true -> long_number line = false ->
             exists a, ProcessAndCompile.parse_line line
                       = ProcessAndCompile.Entry a)).
Proof.
  intros H. split; [|split].
  - intros L. unfold ProcessAndCompile.parse_incomplete_test. cbn [read].
    rewrite H, parse_lines_entries by exact L. reflexivity.
  - intros L. unfold ProcessAndCompile.parse_incomplete_test. cbn [read].
    rewrite H, parse_lines_raised by exact L. reflexivity.
  - intros line.
    destruct (parse_line_cases line)
      as [(A & L & a & E & _)|[(A & L & E)|(N & L & E)]].
    + split; [split; [intros _; auto|intros _; exists a; exact E]|].
      split; [split; [intros E'|intros [_ L']]; congruence|].
      split; [intros N; contradiction|intros _ _; exists a; exact E].
    + split; [split; [intros [a E']|intros [_ L']]; congruence|].
      split; [split; [intros _; auto|intros _; exact E]|].
      split; [intros N; contradiction|intros _ L'; congruence].
    + split; [split; [intros [a E']; congruence|intros [A _]; contradiction]|].
      split; [split; [intros E'; congruence|intros [A _]; contradiction]|].
      split; [intros _; exact E|].
      intros S _. exfalso. apply N, spec_shape_accepted, S.
Qed.

(** C8, on a body with two answer lines, a blank line and a line cut
    short, and on an answer line whose point value has 4301 digits. *)
Lemma C8_decode_answers_witness :
  ProcessAndCompile.parse_incomplete_test
    (File (Some ("Question 00: 5 = 1 0 0 0 0 intro" ++ ProcessAndCompile.nl
                 ++ ProcessAndCompile.nl
                 ++ "Question 01: 0 = 0 1 0 0 0 park"
                 ++ ProcessAndCompile.nl ++ "Question 02: 3 =")))
  = Some ([(0, 5, "1 0 0 0 0", "intro"); (1, 0, "0 1 0 0 0", "park")],
          false)
  /\ ProcessAndCompile.parse_incomplete_test
       (File (Some ("Question 00: " ++ repeat_char "9" 4301
                    ++ " = 1 0 0 0 0 intro")))
     = None.
Proof.
  split.
  - exact (proj1 (C8_decode_answers
                    ("Question 00: 5 = 1 0 0 0 0 intro"
                     ++ ProcessAndCompile.nl ++ ProcessAndCompile.nl
                     ++ "Question 01: 0 = 0 1 0 0 0 park"
                     ++ ProcessAndCompile.nl ++ "Question 02: 3 =")
                    eq_refl) eq_refl).
  - refine (proj1 (proj2 (C8_decode_answers
                            ("Question 00: " ++ repeat_char "9" 4301
                             ++ " = 1 0 0 0 0 intro") _)) _);
      vm_compute; reflexivity.
Defined.

(** C8, the claim as stated fails: lines whose selection is not five
    0/1 tokens, a single [7] or only two tokens, are not of the shape and
    still give an answer each. *)
Lemma C8_loose_selection :
  spec_shape "Question 1: 5 = 7 x" = false
  /\ ProcessAndCompile.parse_incomplete_test
       (File (Some "Question 1: 5 = 7 x"))
     = Some ([(1, 5, "7", "x")], false)
  /\ spec_shape "Question 2: 3 = 1 0 y" = false
  /\ ProcessAndCompile.parse_incomplete_test
       (File (Some "Question 2: 3 = 1 0 y"))
     = Some ([(2, 3, "1 0", "y")], false)
  /\ spec_shape "Question 00: 5 = 1 0 0 0 0 intro" = true.
Proof. repeat split; vm_compute; reflexivity. Qed.

(** C9: when no entry of the class folder is a qualifying record, the
    Compiler returns no summary file and a count of zero, and the folder
    is as it was: nothing is written, an existing summary stays. *)
Theorem C9_empty_summary (today : string) (class_folder : directory)
        (class_number : string) :
  (forall filename x,
      In (filename, x) class_folder -> ~ qualifying filename x) ->
  ProcessAndCompile.compile_class_summary today class_folder class_number
  = Some (class_folder, None, 0%nat).
Proof.
  intros H. unfold ProcessAndCompile.compile_class_summary.
  rewrite (collect_empty _ H). reflexivity.
Qed.

(** C9, on a folder with a headless record, a renamed original, an old
    summary, a roster and a sub-directory. *)
Lemma C9_empty_summary_witness :
  let folder :=
    [("SpeakingTest_5_3_2024.01.15.0930.txt",
      File (Some "Question 00: 5 = 1 0 0 0 0 intro"));
     ("SpeakingTest_5_4_2024.01.15.0940_Unprocessed.txt",
      File (Some "Student: 04"));
     ("5_SpeakingTest.24.01.14.txt", File (Some "Class 5"));
     ("5_Roster.txt", File (Some "3 Ann"));
     ("SpeakingTest_5_9_2024.01.15.1000.txt", Dir)] in
  ProcessAndCompile.compile_class_summary "26.11.03" folder "5"
  = Some (folder, None, 0%nat).
Proof.
  cbv zeta. apply C9_empty_summary.
  intros filename x H.
  repeat (destruct H as [H|H];
          [inversion H; subst; clear H;
           intros (P & U & Q & c & Rd & Hd);
           first [ apply P; reflexivity
                 | discriminate U
                 | discriminate Rd
                 | inversion Rd; subst c; discriminate Hd ]|]).
  destruct H.
Defined.

(** C10: on answers whose point values are not negative,
    [calculate_score] returns a result, its percentage lies between 0 and
    100 and its total score does not exceed its maximum score.  On no
    answers at all it returns [(0, 0, 0, 0)].  The answers
    [parse_incomplete_test] decodes, the only ones the batch script
    scores, have point values that are not negative. *)
Theorem C10_score_bounds (questions : list ProcessAndCompile.answer) :
  Forall (fun a => 0 <= points_of a) questions ->
  (exists total_score max_score percentage total_questions,
      ProcessAndCompile.calculate_score questions
      = Some (total_score, max_score, percentage, total_questions)
      /\ 0 <= percentage <= 100
      /\ total_score <= max_score)
  /\ ProcessAndCompile.calculate_score [] = Some (0, 0, 0, 0)
  /\ (forall file answers headed,
         ProcessAndCompile.parse_incomplete_test file
         = Some (answers, headed) ->
         Forall (fun a => 0 <= points_of a) answers).
Proof.
  intros H. split; [|split; [reflexivity|]].
  - destruct (calculate_score_bounds _ H) as (t & m & p & c & E & Bp & Bt).
    exists t, m, p, c. repeat split; try assumption; lia.
  - intros file answers headed.
    unfold ProcessAndCompile.parse_incomplete_test.
    destruct (read file) as [content|];
      [|intros E; inversion E; constructor].
    destruct (ProcessAndCompile.has_header content);
      [intros E; inversion E; constructor|].
    destruct (ProcessAndCompile.parse_lines (split "010" content))
      as [q|] eqn:Q; [|discriminate].
    apply parse_lines_some in Q. subst q.
    intros E. inversion E. apply entries_nonneg.
Qed.

(** C10, on the answers of a test with a superseded line. *)
Lemma C10_score_bounds_witness :
  (exists total_score max_score percentage total_questions,
      ProcessAndCompile.calculate_score
        [(0, 5, "1 0 0 0 0", "intro"); (1, 3, "0 0 1 0 0", "a");
         (1, 2, "0 0 0 1 0", "a"); (2, 0, "0 1 0 0 0", "b")]
      = Some (total_score, max_score, percentage, total_questions)
      /\ 0 <= percentage <= 100
      /\ total_score <= max_score)
  /\ ProcessAndCompile.calculate_score [] = Some (0, 0, 0, 0)
  /\ (forall file answers headed,
         ProcessAndCompile.parse_incomplete_test file
         = Some (answers, headed) ->
         Forall (fun a => 0 <= points_of a) answers).
Proof.
  apply C10_score_bounds.
  repeat constructor; unfold points_of; simpl; lia.
Defined.

(** * Further properties of the code *)

(** X1: two all-digit student identifiers, neither longer than [int]
    converts, get the same key of the Duplicate Resolver exactly when
    [int] reads the same number from them. *)
Theorem X1_same_number_same_student (a b : string) :
  isdigit a = true -> isdigit b = true ->
  int_fits a = true -> int_fits b = true ->
  (FindDuplicates.normalize_student_id a
   = FindDuplicates.normalize_student_id b
   <-> py_int a = py_int b).
Proof. intros A B Fa Fb. now apply normalize_same_number. Qed.

Lemma X1_same_number_same_student_witness :
  isdigit "3" = true /\ isdigit "003" = true
  /\ (FindDuplicates.normalize_student_id "3"
      = FindDuplicates.normalize_student_id "003"
      <-> py_int "3" = py_int "003").
Proof.
  split; [reflexivity|]. split; [reflexivity|].
  apply (X1_same_number_same_student "3" "003"); reflexivity.
Defined.

(** X2: within the limit of [int], normalising a student identifier
    twice is normalising it once, and zero-filling an all-digit
    identifier to a width does not change its normal form. *)
Theorem X2_normalize_stable (s : string) (w : nat) :
  int_fits (zfill w s) = true ->
  FindDuplicates.normalize_student_id
    (FindDuplicates.normalize_student_id s)
  = FindDuplicates.normalize_student_id s
  /\ (isdigit s = true ->
      FindDuplicates.normalize_student_id (zfill w s)
      = FindDuplicates.normalize_student_id s).
Proof.
  intro F. split; [apply normalize_idempotent|].
  intro D. now apply normalize_zfill.
Qed.

Lemma X2_normalize_stable_witness :
  FindDuplicates.normalize_student_id
    (FindDuplicates.normalize_student_id "007")
  = FindDuplicates.normalize_student_id "007"
  /\ FindDuplicates.normalize_student_id (zfill 2 "7")
     = FindDuplicates.normalize_student_id "7".
Proof.
  split.
  - exact (proj1 (X2_normalize_stable "007" 0 eq_refl)).
  - exact (proj2 (X2_normalize_stable "7" 2 eq_refl) eq_refl).
Defined.

(** X3: the name [create_output_file] gives a record is read back by
    both scripts: [parse_filename] and [extract_info_from_filename]
    return the class, the student and the timestamp it was made of,
    provided the class and the student hold no underscore and no
    [.txt]; and [get_timestamp_for_sorting] returns the instant where
    [%Y] printed the year on four digits: on a C library that zero-fills
    it, and from year 1000 on everywhere. *)
Theorem X3_record_name_read_back (zero_fills : bool)
        (class_number student_id : string) (now : datetime) :
  free_of "_" class_number = true -> free_of "_" student_id = true ->
  contains ".txt" class_number = false ->
  contains ".txt" student_id = false ->
  valid_date (year now) (month now) (day now) (hour now) (minute now)
  = true ->
  let filename :=
    SpeakingTest.output_filename zero_fills class_number student_id now in
  let timestamp := SpeakingTest.strftime_Y zero_fills now in
  FindDuplicates.parse_filename filename
  = Some (class_number, student_id, timestamp, filename)
  /\ ProcessAndCompile.extract_info_from_filename filename
     = Some (class_number, student_id, timestamp)
  /\ (zero_fills = true \/ 1000 <= year now ->
      FindDuplicates.get_timestamp_for_sorting timestamp = now).
Proof.
  intros Fc Fs Cc Cs V filename timestamp.
  pose proof (strftime_Y_chars zero_fills now V) as Ch.
  fold timestamp in Ch.
  assert (F1 : free_of "_" timestamp = true).
  { revert Ch. apply forallb_str_impl. intros c H.
    apply negb_true_iff, Ascii.eqb_neq. intro E. subst. discriminate. }
  assert (F2 : free_of "t" timestamp = true).
  { revert Ch. apply forallb_str_impl. intros c H.
    apply negb_true_iff, Ascii.eqb_neq. intro E. subst. discriminate. }
  destruct (name_parts class_number student_id timestamp
              Fc Fs F1 Cc Cs F2) as (P1 & P2 & P3).
  fold (SpeakingTest.strftime_Y zero_fills now) in timestamp.
  change ("SpeakingTest_" ++ class_number ++ "_" ++ student_id ++ "_"
          ++ timestamp ++ ".txt") with filename in P1, P2, P3.
  split; [|split].
  - unfold FindDuplicates.parse_filename. rewrite P1, P2, P3. reflexivity.
  - unfold ProcessAndCompile.extract_info_from_filename. rewrite P3.
    reflexivity.
  - intro Y. now apply strftime_Y_roundtrip.
Qed.

Lemma X3_record_name_read_back_witness :
  let now := mkdt 2024 1 15 9 30 in
  let filename := SpeakingTest.output_filename false "5" "03" now in
  filename = "SpeakingTest_5_03_2024.01.15.0930.txt"
  /\ FindDuplicates.parse_filename filename
     = Some ("5", "03", SpeakingTest.strftime_Y false now, filename)
  /\ ProcessAndCompile.extract_info_from_filename filename
     = Some ("5", "03", SpeakingTest.strftime_Y false now)
  /\ FindDuplicates.get_timestamp_for_sorting
       (SpeakingTest.strftime_Y false now)
     = now.
Proof.
  cbv zeta. split; [reflexivity|].
  destruct (X3_record_name_read_back false "5" "03" (mkdt 2024 1 15 9 30))
    as (A & B & C); try reflexivity.
  split; [exact A|]. split; [exact B|].
  apply C. right. simpl. lia.
Defined.

(** X4: in a folder with distinct names, the rows
    [find_duplicates_in_folder] returns are exactly the records of the
    students who have several, and the one row of each student that is
    not marked duplicate is the newest record, the last scanned of the
    equally new ones. *)
Theorem X4_rows_characterised (class_folder : directory)
        (i : FindDuplicates.file_info) (b : bool) :
  NoDup (names class_folder) ->
  (In (i, b) (FindDuplicates.find_duplicates_in_folder class_folder)
   <-> In i (infos class_folder)
       /\ (1 < length (bucket (key_of i) (infos class_folder)))%nat
       /\ (b = false
           <-> newest (bucket (key_of i) (infos class_folder)) = Some i)).
Proof. apply folder_rows. Qed.

Lemma X4_rows_characterised_witness :
  let folder :=
    [("SpeakingTest_5_3_2024.01.16.0900.txt", File (Some "c"));
     ("SpeakingTest_5_4_2024.01.14.0900.txt", File (Some "a"));
     ("SpeakingTest_5_03_2024.01.15.0900.txt", File (Some "b"))] in
  let i := FindDuplicates.mkinfo "SpeakingTest_5_03_2024.01.15.0900.txt"
             "5" "03" "2024.01.15.0900" (mkdt 2024 1 15 9 0) in
  NoDup (names folder)
  /\ (In (i, true) (FindDuplicates.find_duplicates_in_folder folder)
      <-> In i (infos folder)
          /\ (1 < length (bucket (key_of i) (infos folder)))%nat
          /\ (true = false
              <-> newest (bucket (key_of i) (infos folder)) = Some i)).
Proof.
  cbv zeta.
  assert (N : NoDup (names
    [("SpeakingTest_5_3_2024.01.16.0900.txt", File (Some "c"));
     ("SpeakingTest_5_4_2024.01.14.0900.txt", File (Some "a"));
     ("SpeakingTest_5_03_2024.01.15.0900.txt", File (Some "b"))])).
  { repeat constructor; simpl; intuition discriminate. }
  split; [exact N|]. apply X4_rows_characterised. exact N.
Defined.

(** X5: the record of a student that is not marked duplicate is never
    older than another record of the student, every other record of the
    student is marked, and the records scanned after the kept one are
    strictly older. *)
Theorem X5_kept_is_newest (class_folder : directory)
        (k j : FindDuplicates.file_info) :
  NoDup (names class_folder) ->
  In (k, false) (FindDuplicates.find_duplicates_in_folder class_folder) ->
  In j (infos class_folder) -> key_of j = key_of k -> j <> k ->
  In (j, true) (FindDuplicates.find_duplicates_in_folder class_folder)
  /\ ~ dt_lt (FindDuplicates.fi_datetime k) (FindDuplicates.fi_datetime j)
  /\ (forall l1 l2,
         infos class_folder = (l1 ++ k :: l2)%list -> In j l2 ->
         dt_lt (FindDuplicates.fi_datetime j)
               (FindDuplicates.fi_datetime k)).
Proof.
  intros D Hk Hj K N.
  apply (folder_rows class_folder k false D) in Hk.
  destruct Hk as (Ik & L & Nk).
  assert (Nw : newest (bucket (key_of k) (infos class_folder)) = Some k)
    by now apply Nk.
  split; [|split].
  - apply (folder_rows class_folder j true D). rewrite K.
    split; [exact Hj|]. split; [exact L|].
    split; [discriminate|]. intro C. rewrite Nw in C. congruence.
  - apply (newest_max _ k Nw). apply bucket_In. auto.
  - intros l1 l2 E I2.
    assert (B : bucket (key_of k) (infos class_folder)
                = (bucket (key_of k) l1 ++ k :: bucket (key_of k) l2)%list).
    { rewrite E, bucket_app. unfold bucket at 2. simpl.
      now rewrite key_eqb_refl. }
    apply (newest_later (bucket (key_of k) l1) (bucket (key_of k) l2) k).
    + rewrite <- B. unfold bucket. apply NoDup_filter.
      now apply infos_distinct.
    + now rewrite <- B.
    + apply bucket_In. auto.
Qed.

Lemma X5_kept_is_newest_witness :
  let folder :=
    [("SpeakingTest_5_3_2024.01.16.0900.txt", File (Some "c"));
     ("SpeakingTest_5_4_2024.01.14.0900.txt", File (Some "a"));
     ("SpeakingTest_5_03_2024.01.15.0900.txt", File (Some "b"))] in
  let k := FindDuplicates.mkinfo "SpeakingTest_5_3_2024.01.16.0900.txt"
             "5" "3" "2024.01.16.0900" (mkdt 2024 1 16 9 0) in
  let j := FindDuplicates.mkinfo "SpeakingTest_5_03_2024.01.15.0900.txt"
             "5" "03" "2024.01.15.0900" (mkdt 2024 1 15 9 0) in
  In (j, true) (FindDuplicates.find_duplicates_in_folder folder)
  /\ ~ dt_lt (FindDuplicates.fi_datetime k) (FindDuplicates.fi_datetime j)
  /\ (forall l1 l2,
         infos folder = (l1 ++ k :: l2)%list -> In j l2 ->
         dt_lt (FindDuplicates.fi_datetime j)
               (FindDuplicates.fi_datetime k)).
Proof.
  cbv zeta. apply X5_kept_is_newest.
  - repeat constructor; simpl; intuition discriminate.
  - vm_compute. tauto.
  - vm_compute. tauto.
  - reflexivity.
  - discriminate.
Defined.

(** X6: a record is marked duplicate as soon as the folder holds a
    strictly newer record of the same student; a record whose timestamp
    cannot be read counts as 1900-01-01 00:00 and is marked as soon as
    the student has a record after that instant. *)
Theorem X6_older_is_flagged (class_folder : directory)
        (i j : FindDuplicates.file_info) :
  NoDup (names class_folder) ->
  In i (infos class_folder) -> In j (infos class_folder) ->
  key_of i = key_of j ->
  (dt_lt (FindDuplicates.fi_datetime i) (FindDuplicates.fi_datetime j)
   \/ (FindDuplicates.try_timestamp (FindDuplicates.fi_timestamp i) = None
       /\ dt_lt sentinel (FindDuplicates.fi_datetime j))) ->
  In (i, true) (FindDuplicates.find_duplicates_in_folder class_folder).
Proof.
  intros D Hi Hj K O.
  assert (Lt : dt_lt (FindDuplicates.fi_datetime i)
                     (FindDuplicates.fi_datetime j)).
  { destruct O as [O|[T O]]; [exact O|].
    apply infos_In in Hi. destruct Hi as ([n x] & _ & E).
    unfold info_of in E. destruct (negb (is_file x)); [discriminate|].
    destruct (contains "_PROCESSED.txt" n); [discriminate|].
    destruct (FindDuplicates.parse_filename n) as [[[[c s] t] f]|];
      [|discriminate].
    injection E as <-. simpl in *.
    unfold FindDuplicates.get_timestamp_for_sorting. now rewrite T. }
  assert (Nij : i <> j).
  { intro C. subst. now apply (dt_lt_irrefl (FindDuplicates.fi_datetime j)). }
  apply (folder_rows class_folder i true D).
  split; [exact Hi|]. split.
  - apply (two_elements _ _ i j); auto; apply bucket_In; auto.
  - split; [discriminate|]. intro Nw. exfalso.
    apply (newest_max _ i Nw j); [|exact Lt]. apply bucket_In. auto.
Qed.

Lemma X6_older_is_flagged_witness :
  let folder :=
    [("SpeakingTest_5_3_broken.txt", File (Some "c"));
     ("SpeakingTest_5_03_2024.01.15.0900.txt", File (Some "b"))] in
  let i := FindDuplicates.mkinfo "SpeakingTest_5_3_broken.txt"
             "5" "3" "broken" sentinel in
  In (i, true) (FindDuplicates.find_duplicates_in_folder folder).
Proof.
  cbv zeta.
  apply (X6_older_is_flagged _ _
           (FindDuplicates.mkinfo "SpeakingTest_5_03_2024.01.15.0900.txt"
              "5" "03" "2024.01.15.0900" (mkdt 2024 1 15 9 0))).
  - repeat constructor; simpl; intuition discriminate.
  - vm_compute. tauto.
  - vm_compute. tauto.
  - reflexivity.
  - right. split; reflexivity.
Defined.

(** X7: [move_duplicates] never deletes or overwrites.  With distinct
    names in both folders, the class folder afterwards holds exactly
    the files that were not marked or could not be moved; the
    quarantine folder keeps what it had and gains as many files as the
    count returned, under names that stay distinct; and the bodies
    added to it together with those left in the class folder are the
    bodies the class folder had. *)
Theorem X7_moves_lose_nothing (can_move : string -> bool)
        (duplicates : list FindDuplicates.dup_row) (st : store) :
  NoDup (names (class_dir st)) -> NoDup (names (dup_dir st)) ->
  let st' := fst (FindDuplicates.move_duplicates can_move duplicates st) in
  let moved_count :=
    snd (FindDuplicates.move_duplicates can_move duplicates st) in
  (forall e, In e (class_dir st')
             <-> In e (class_dir st)
                 /\ ~ (In (fst e) (flagged duplicates)
                       /\ can_move (fst e) = true))
  /\ exists added,
       dup_dir st' = (dup_dir st ++ added)%list
       /\ length added = moved_count
       /\ NoDup (names (dup_dir st'))
       /\ Permutation (map snd added ++ map snd (class_dir st'))%list
                      (map snd (class_dir st)).
Proof. intros Dc Dd. now apply move_duplicates_spec. Qed.

Lemma X7_moves_lose_nothing_witness :
  let st :=
    mkstore
      [("SpeakingTest_5_3_2024.01.16.0900.txt", File (Some "c"));
       ("SpeakingTest_5_3_2024.01.14.0900.txt", File (Some "a"));
       ("SpeakingTest_5_03_2024.01.15.0900.txt", File (Some "b"))]
      [("SpeakingTest_5_3_2024.01.14.0900.txt", File (Some "old"))] in
  let can_move :=
    fun f => negb (f =? "SpeakingTest_5_03_2024.01.15.0900.txt")%string in
  let duplicates := FindDuplicates.find_duplicates_in_folder (class_dir st) in
  let st' := fst (FindDuplicates.move_duplicates can_move duplicates st) in
  (forall e, In e (class_dir st')
             <-> In e (class_dir st)
                 /\ ~ (In (fst e) (flagged duplicates)
                       /\ can_move (fst e) = true))
  /\ exists added,
       dup_dir st' = (dup_dir st ++ added)%list
       /\ length added
          = snd (FindDuplicates.move_duplicates can_move duplicates st)
       /\ NoDup (names (dup_dir st'))
       /\ Permutation (map snd added ++ map snd (class_dir st'))%list
                      (map snd (class_dir st)).
Proof.
  cbv zeta. apply X7_moves_lose_nothing.
  - repeat constructor; simpl; intuition discriminate.
  - repeat constructor; simpl; intuition discriminate.
Defined.

(** X8: when the name of a duplicate is taken in the quarantine folder,
    the file goes under its name with [_dup<k>] put in front of the
    extension, [k] being the least number from 1 on whose name is free;
    the name chosen is never one the folder holds. *)
Theorem X8_quarantine_name (filename : string) (dups : directory) :
  exists_in filename dups = true ->
  let base := fst (splitext filename) in
  let ext := snd (splitext filename) in
  base ++ ext = filename
  /\ exists k,
       (1 <= k)%nat
       /\ FindDuplicates.dest_path filename dups
          = base ++ "_dup" ++ str_of_nat k ++ ext
       /\ exists_in (FindDuplicates.dest_path filename dups) dups = false
       /\ forall j, (1 <= j < k)%nat ->
            exists_in (base ++ "_dup" ++ str_of_nat j ++ ext) dups = true.
Proof.
  intros E base ext. split; [apply splitext_join|].
  destruct (dest_path_least filename dups E) as (k & K1 & K2 & K3).
  exists k. split; [exact K1|]. split; [exact K2|].
  split; [apply dest_path_fresh | exact K3].
Qed.

Lemma X8_quarantine_name_witness :
  let dups := [("a.txt", File (Some "1")); ("a_dup1.txt", File (Some "2"))] in
  "a" ++ ".txt" = "a.txt"
  /\ exists k,
       (1 <= k)%nat
       /\ FindDuplicates.dest_path "a.txt" dups
          = "a" ++ "_dup" ++ str_of_nat k ++ ".txt"
       /\ exists_in (FindDuplicates.dest_path "a.txt" dups) dups = false
       /\ forall j, (1 <= j < k)%nat ->
            exists_in ("a" ++ "_dup" ++ str_of_nat j ++ ".txt") dups = true.
Proof.
  cbv zeta.
  apply (X8_quarantine_name "a.txt"
           [("a.txt", File (Some "1")); ("a_dup1.txt", File (Some "2"))]).
  reflexivity.
Defined.

(** X9: [calculate_score] depends on the answers only through the last
    points recorded for each question: two lists of answers with the
    same last points for every question get the same result. *)
Theorem X9_score_of_last_answers
        (questions1 questions2 : list ProcessAndCompile.answer) :
  (forall q, last_points q questions1 = last_points q questions2) ->
  ProcessAndCompile.calculate_score questions1
  = ProcessAndCompile.calculate_score questions2.
Proof. apply score_of_last. Qed.

Lemma X9_score_of_last_answers_witness :
  ProcessAndCompile.calculate_score
    [(0, 5, "1 0 0 0 0", "a"); (1, 3, "0 0 1 0 0", "b");
     (0, 0, "0 1 0 0 0", "a")]
  = ProcessAndCompile.calculate_score
      [(1, 3, "0 0 1 0 0", "b"); (0, 0, "0 1 0 0 0", "a")].
Proof.
  apply X9_score_of_last_answers. intro q.
  destruct q as [|[p|p|]|p]; reflexivity.
Defined.

(** X10: when every answer earned the same points [P], the maximum
    score is the total score: the percentage is 100 for a positive [P]
    and 0 otherwise, whatever the scale of the class. *)
Theorem X10_uniform_score (P : Z)
        (questions : list ProcessAndCompile.answer) :
  Forall (fun a => points_of a = P) questions -> questions <> [] ->
  exists n,
    1 <= n <= Z.of_nat (length questions)
    /\ ProcessAndCompile.calculate_score questions
       = Some (n * P, n * P, if 0 <? P then 100 else 0, n).
Proof. apply score_uniform. Qed.

Lemma X10_uniform_score_witness :
  exists n,
    1 <= n <= Z.of_nat (length [(0, 3, "0 0 1 0 0", "a");
                                (1, 3, "0 0 1 0 0", "b")])
    /\ ProcessAndCompile.calculate_score
         [(0, 3, "0 0 1 0 0", "a"); (1, 3, "0 0 1 0 0", "b")]
       = Some (n * 3, n * 3, if 0 <? 3 then 100 else 0, n).
Proof.
  apply (X10_uniform_score 3).
  - repeat constructor.
  - discriminate.
Defined.

(** X11: the header loop of [compile_class_summary], run on a record
    that [generate_complete_report] completed for an all-digit student
    identifier, with a maximum score and a percentage that [int]
    converts, reads the zero-filled identifier, no name, the maximum
    score and the percentage, and reads the maximum score as the total
    score as well: the first [Score:] of the score line is the one of
    [Max Score:]. *)
Theorem X11_completed_record_read_back
        (original_filename student_id : string)
        (total_score max_score percentage total_questions : Z)
        (point_scale : list ProcessAndCompile.scale_item)
        (original_content : string) :
  free_of "010" original_filename = true ->
  startswith "Student:" original_filename = false ->
  contains "Total Questions:" original_filename = false ->
  isdigit student_id = true -> 0 <= max_score -> 0 <= percentage ->
  int_fits (str_of_Z max_score) = true ->
  int_fits (str_of_Z percentage) = true ->
  (forall l,
      In l (split "010"
              (String.concat ""
                 (map ProcessAndCompile.scale_line
                      (ProcessAndCompile.sorted_scale point_scale))
               ++ ProcessAndCompile.nl ++ original_content)) ->
      startswith "Student:" l = false /\ summary_line l = false) ->
  ProcessAndCompile.extract_header_fields
    (ProcessAndCompile.report_header original_filename student_id
       total_score max_score percentage total_questions point_scale
     ++ original_content)
  = Some (ProcessAndCompile.mkfields (Some (zfill 2 student_id)) ""
            max_score max_score percentage).
Proof. apply completed_fields. Qed.

Lemma X11_completed_record_read_back_witness :
  ProcessAndCompile.extract_header_fields
    (ProcessAndCompile.report_header
       "SpeakingTest_5_3_2024.01.15.0930.txt" "3" 5 10 50 2
       [(1, (5, "Correct")); (2, (0, "Incorrect"))]
     ++ "Question 00: 5 = 1 0 0 0 0 intro" ++ ProcessAndCompile.nl
     ++ "Question 01: 0 = 0 1 0 0 0 park" ++ ProcessAndCompile.nl)
  = Some (ProcessAndCompile.mkfields (Some (zfill 2 "3")) "" 10 10 50).
Proof.
  apply X11_completed_record_read_back; try reflexivity; try lia.
  intros l H. vm_compute in H.
  repeat (destruct H as [<-|H]; [split; reflexivity|]). contradiction.
Defined.

(** X12: [get_point_scale_from_directory] returns the default scale
    for every class folder whose records are without a header or have
    the header [generate_complete_report] writes: the loop over the
    lines leaves at the second line of [=] signs, before the legend. *)
Theorem X12_point_scale_default (class_folder : directory) :
  (forall file x body,
      In (file, x) class_folder ->
      endswith ".txt" file && startswith "SpeakingTest_" file = true ->
      read x = Some body -> standard_body body) ->
  ProcessAndCompile.get_point_scale_from_directory class_folder
  = ProcessAndCompile.default_scale.
Proof. apply scale_files_standard. Qed.

Lemma X12_point_scale_default_witness :
  ProcessAndCompile.get_point_scale_from_directory
    [("SpeakingTest_5_3_2024.01.15.0930.txt",
      File (Some (ProcessAndCompile.report_header
                    "SpeakingTest_5_3_2024.01.15.0930.txt" "3" 4 4 100 1
                    [(1, (4, "Good")); (2, (1, "Poor"))]
                  ++ "Question 00: 4 = 1 0 0 0 0 intro")));
     ("SpeakingTest_5_4_2024.01.15.0940.txt",
      File (Some "Question 00: 1 = 0 1 0 0 0 intro"))]
  = ProcessAndCompile.default_scale.
Proof.
  apply X12_point_scale_default. intros file x body H _ R.
  destruct H as [H|[H|[]]]; injection H as <- <-; injection R as <-.
  - right.
    exists "SpeakingTest_5_3_2024.01.15.0930.txt", "3", 4, 4, 100, 1,
           [(1, (4, "Good")); (2, (1, "Poor"))],
           "Question 00: 4 = 1 0 0 0 0 intro".
    repeat split; reflexivity.
  - left. reflexivity.
Defined.

(** X13: the body of the file loop of [main] never reaches its end on
    any file: it passes the file over, or an exception leaves it.  The
    completion renames the record and then gives
    [generate_complete_report] the name the record no longer has. *)
Theorem X13_completion_never_ends (replaces : bool)
        (can_move : string -> bool)
        (point_scale : list ProcessAndCompile.scale_item)
        (filename : string) (st : store) :
  ProcessAndCompile.process_file replaces can_move point_scale filename st
  = ProcessAndCompile.Passed
  \/ exists st1,
       ProcessAndCompile.process_file replaces can_move point_scale
         filename st
       = ProcessAndCompile.Failed st1.
Proof.
  destruct (ProcessAndCompile.process_file replaces can_move point_scale
              filename st) as [|st'|st1] eqn:E.
  - now left.
  - now apply process_file_never in E.
  - right. now exists st1.
Qed.

(** X14: on a record without a header that holds an answer and no
    number beyond the limit of [int], whose name gives a class and a
    student, [main] renames the record to
    [*_Unprocessed.txt] and then raises: the record is left under the
    new name, no file is written under the old one and the quarantine
    folder is as it was. *)
Theorem X14_headless_record_fails (replaces : bool)
        (can_move : string -> bool)
        (point_scale : list ProcessAndCompile.scale_item)
        (filename content class_number student_id timestamp_str : string)
        (st : store) :
  ProcessAndCompile.name_selected filename = true ->
  lookup filename (class_dir st) = Some (File (Some content)) ->
  ProcessAndCompile.has_header content = false ->
  existsb long_number (split "010" content) = false ->
  entries_of (split "010" content) <> [] ->
  ProcessAndCompile.extract_info_from_filename filename
  = Some (class_number, student_id, timestamp_str) ->
  class_number <> "" -> student_id <> "" ->
  exists_in (replace ".txt" "_Unprocessed.txt" filename) (class_dir st)
  = false ->
  ProcessAndCompile.process_file replaces can_move point_scale filename st
  = ProcessAndCompile.Failed
      (mkstore
         (remove filename (class_dir st)
          ++ [(replace ".txt" "_Unprocessed.txt" filename,
               File (Some content))])%list
         (dup_dir st)).
Proof. apply process_file_headless. Qed.

Lemma X14_headless_record_fails_witness :
  let filename := "SpeakingTest_5_3_2024.01.15.0930.txt" in
  let content := "Question 00: 5 = 1 0 0 0 0 intro" in
  let st := mkstore [(filename, File (Some content))] [] in
  ProcessAndCompile.process_file true (fun _ => true)
    ProcessAndCompile.default_scale filename st
  = ProcessAndCompile.Failed
      (mkstore
         (remove filename (class_dir st)
          ++ [(replace ".txt" "_Unprocessed.txt" filename,
               File (Some content))])%list
         (dup_dir st)).
Proof.
  cbv zeta.
  apply (X14_headless_record_fails true (fun _ => true)
           ProcessAndCompile.default_scale
           "SpeakingTest_5_3_2024.01.15.0930.txt"
           "Question 00: 5 = 1 0 0 0 0 intro" "5" "3" "2024.01.15.0930");
    try reflexivity; discriminate.
Defined.

(** X15: [compile_class_summary] writes the summary file and touches
    no other file of the class folder, the count it returns is the
    number of entries collected, and compiling again right away gives
    the same folder, the same file and the same count, unless the class
    is named so that its summary file looks like a record. *)
Theorem X15_compile_stable (today : string) (class_folder d' : directory)
        (class_number summary_file : string) (n : nat) :
  startswith "SpeakingTest_" (class_number ++ "_SpeakingTest.") = false ->
  ProcessAndCompile.compile_class_summary today class_folder class_number
  = Some (d', Some summary_file, n) ->
  n = length (ProcessAndCompile.collect class_folder)
  /\ (exists body, lookup summary_file d' = Some (File (Some body)))
  /\ (forall other, other <> summary_file ->
                    lookup other d' = lookup other class_folder)
  /\ ProcessAndCompile.collect d' = ProcessAndCompile.collect class_folder
  /\ ProcessAndCompile.compile_class_summary today d' class_number
     = Some (d', Some summary_file, n).
Proof. apply compile_stable. Qed.

Lemma X15_compile_stable_witness :
  let folder :=
    [("SpeakingTest_5_3_2024.01.15.0930.txt",
      File (Some "Student: 03 Ann"))] in
  exists d' summary_file n,
    ProcessAndCompile.compile_class_summary "26.11.03" folder "5"
    = Some (d', Some summary_file, n)
    /\ n = length (ProcessAndCompile.collect folder)
    /\ (exists body, lookup summary_file d' = Some (File (Some body)))
    /\ (forall other, other <> summary_file ->
                      lookup other d' = lookup other folder)
    /\ ProcessAndCompile.collect d' = ProcessAndCompile.collect folder
    /\ ProcessAndCompile.compile_class_summary "26.11.03" d' "5"
       = Some (d', Some summary_file, n).
Proof.
  cbv zeta. eexists. eexists. eexists.
  split; [vm_compute; reflexivity|].
  apply (X15_compile_stable "26.11.03"
           [("SpeakingTest_5_3_2024.01.15.0930.txt",
             File (Some "Student: 03 Ann"))] _ "5");
    [reflexivity | vm_compute; reflexivity].
Defined.

(** X16: a line [save_record] writes for a button 1 to 5, a question
    number and points that are not negative and that [int] converts, and
    a picture name without white space is read back by
    [parse_incomplete_test] as that question, those points, the five
    click marks and that name. *)
Theorem X16_record_line_read_back (image_num button points : Z)
        (filename_no_ext : string) :
  1 <= button <= 5 -> 0 <= image_num -> 0 <= points ->
  int_fits (str_of_Z image_num) = true ->
  int_fits (str_of_Z points) = true ->
  filename_no_ext <> "" ->
  forallb_str (fun c => negb (is_space c)) filename_no_ext = true ->
  exists clicks line,
    SpeakingTest.clicks_of button = Some clicks
    /\ SpeakingTest.record_line image_num button points filename_no_ext
       = Some line
    /\ ProcessAndCompile.parse_line line
       = ProcessAndCompile.Entry
           (image_num, points, join " " (map str_of_Z clicks),
            filename_no_ext).
Proof. apply record_line_parsed. Qed.

Lemma X16_record_line_read_back_witness :
  exists clicks line,
    SpeakingTest.clicks_of 2 = Some clicks
    /\ SpeakingTest.record_line 3 2 5 "park" = Some line
    /\ ProcessAndCompile.parse_line line
       = ProcessAndCompile.Entry
           (3, 5, join " " (map str_of_Z clicks), "park").
Proof.
  apply (X16_record_line_read_back 3 2 5 "park");
    try lia; try discriminate; reflexivity.
Defined.

(** X17: after [update_roster] stored a name for a student, the
    roster gives that name back, without its trailing white space, for
    every identifier with the same normal form, whatever the roster
    held before, as long as neither the identifier nor a line of the
    roster holds more digits than [int] converts: no exception leaves
    either function then.  The identifier is not empty and holds no
    white space, the name no line break. *)
Theorem X17_roster_round_trip (roster : option string)
        (student_id student_name other_id : string) :
  student_id <> "" ->
  forallb_str (fun c => negb (is_space c)) student_id = true ->
  free_of "010" student_name = true ->
  free_of "013" student_name = true ->
  int_fits student_id = true ->
  (forall body l, roster = Some body -> In l (split "010" body) ->
                  int_fits l = true) ->
  SpeakingTest.normalized_id other_id
  = SpeakingTest.normalized_id student_id ->
  exists text,
    SpeakingTest.update_roster roster student_id student_name = Some text
    /\ SpeakingTest.lookup_student_in_roster (Some text) other_id
       = Some (Some (rstrip student_name)).
Proof. intros N S F1 _ Fs Fr Q. now apply roster_roundtrip. Qed.

Lemma X17_roster_round_trip_witness :
  exists text,
    SpeakingTest.update_roster
      (Some ("12 Bob" ++ ProcessAndCompile.nl ++ "3 Ann"
             ++ ProcessAndCompile.nl))
      "03" "Anna Lee "
    = Some text
    /\ SpeakingTest.lookup_student_in_roster (Some text) "3"
       = Some (Some (rstrip "Anna Lee ")).
Proof.
  apply X17_roster_round_trip; try reflexivity; [discriminate|].
  intros body l E H. injection E as <-. vm_compute in H.
  repeat (destruct H as [<-|H]; [reflexivity|]). contradiction.
Defined.

(** X18: on a class folder where the application and the script read
    the same instant from the timestamp of every record name, one pass
    of [find_and_move_duplicates] of the application leaves the store
    one class of [find_duplicates.py] leaves and moves as many files. *)
Theorem X18_app_pass_is_script_pass (can_move : string -> bool)
        (st : store) (total_moved : nat) :
  (forall filename x c s t f,
      In (filename, x) (class_dir st) ->
      FindDuplicates.parse_filename filename = Some (c, s, t, f) ->
      SpeakingTest.inline_timestamp t
      = FindDuplicates.get_timestamp_for_sorting t) ->
  SpeakingTest.class_pass can_move (st, total_moved)
  = (snd (fst (FindDuplicates.resolve_class can_move st)),
     (total_moved + snd (FindDuplicates.resolve_class can_move st))%nat).
Proof.
  intro A. apply class_pass_resolve.
  intros [filename x] i I E. unfold info_of in E.
  destruct (negb (is_file x)); [discriminate|].
  destruct (contains "_PROCESSED.txt" filename); [discriminate|].
  destruct (FindDuplicates.parse_filename filename) as [[[[c s] t] f]|] eqn:P;
    [|discriminate].
  injection E as <-. simpl. now apply (A filename x c s t f).
Qed.

Lemma X18_app_pass_is_script_pass_witness :
  let st :=
    mkstore
      [("SpeakingTest_5_3_2024.01.16.0900.txt", File (Some "c"));
       ("SpeakingTest_5_3_2024.01.14.0900.txt", File (Some "a"));
       ("SpeakingTest_5_03_2024.01.15.0900.txt", File (Some "b"))]
      [("SpeakingTest_5_3_2024.01.14.0900.txt", File (Some "old"))] in
  SpeakingTest.class_pass (fun _ => true) (st, 1%nat)
  = (snd (fst (FindDuplicates.resolve_class (fun _ => true) st)),
     (1 + snd (FindDuplicates.resolve_class (fun _ => true) st))%nat).
Proof.
  cbv zeta. apply X18_app_pass_is_script_pass.
  intros filename x c s t f H P. simpl in H.
  destruct H as [H|[H|[H|[]]]]; injection H as <- <-;
    vm_compute in P; injection P as <- <- <- <-; reflexivity.
Defined.

(** X19: from a record the application wrote with [save_record], for
    buttons 1 to 5, question numbers and points that are not negative
    and that [int] converts, and picture names without white space or
    colon, [calculate_score]
    of the application builds the dictionary [calculate_score] of the
    script builds from what [parse_incomplete_test] reads, so that the
    two total scores are equal; the maximum scores need not be. *)
Theorem X19_app_and_script_read_the_same (rs : list click) :
  Forall plain_click rs ->
  exists content,
    written rs = Some content
    /\ SpeakingTest.question_scores (SpeakingTest.readlines content)
       = ProcessAndCompile.question_dict (map answer_of rs)
    /\ (ProcessAndCompile.has_header content = false ->
        ProcessAndCompile.parse_incomplete_test (File (Some content))
        = Some (map answer_of rs, false))
    /\ (forall point_values,
           match SpeakingTest.calculate_score point_values (Some content),
                 ProcessAndCompile.calculate_score (map answer_of rs) with
           | Some (total, _, _), Some (total', _, _, _) => total = total'
           | _, _ => True
           end).
Proof.
  intro P. destruct (written_read rs P) as (content & W & A & B & R).
  exists content.
  assert (Q : SpeakingTest.question_scores (SpeakingTest.readlines content)
              = ProcessAndCompile.question_dict (map answer_of rs))
    by apply A.
  split; [exact W|]. split; [exact Q|]. split.
  - intro H. unfold ProcessAndCompile.parse_incomplete_test. cbn [read].
    now rewrite H, parse_lines_entries, B by exact R.
  - intro pv. unfold SpeakingTest.calculate_score,
      ProcessAndCompile.calculate_score. rewrite Q. cbv zeta.
    destruct (ProcessAndCompile.question_dict (map answer_of rs))
      as [|a d]; [reflexivity|].
    change (Z.of_nat (length (a :: d)) =? 0) with false. cbv iota.
    fold (ProcessAndCompile.sum (map snd (a :: d))).
    repeat match goal with
           | |- context [if ?b then _ else _] => destruct b
           | |- context [match percent_of ?x ?y with _ => _ end] =>
               destruct (percent_of x y)
           end; auto.
Qed.

Lemma X19_app_and_script_read_the_same_witness :
  exists content,
    written [(0, 1, 5, "intro"); (1, 3, 3, "park"); (0, 2, 0, "intro")]
    = Some content
    /\ SpeakingTest.question_scores (SpeakingTest.readlines content)
       = ProcessAndCompile.question_dict
           (map answer_of
                [(0, 1, 5, "intro"); (1, 3, 3, "park"); (0, 2, 0, "intro")])
    /\ (ProcessAndCompile.has_header content = false ->
        ProcessAndCompile.parse_incomplete_test (File (Some content))
        = Some (map answer_of
                    [(0, 1, 5, "intro"); (1, 3, 3, "park");
                     (0, 2, 0, "intro")], false))
    /\ (forall point_values,
           match SpeakingTest.calculate_score point_values (Some content),
                 ProcessAndCompile.calculate_score
                   (map answer_of
                        [(0, 1, 5, "intro"); (1, 3, 3, "park");
                         (0, 2, 0, "intro")]) with
           | Some (total, _, _), Some (total', _, _, _) => total = total'
           | _, _ => True
           end).
Proof.
  apply X19_app_and_script_read_the_same.
  repeat constructor; try lia; try discriminate.
Defined.
